(** * StrengthLog V2: experimentation and progressive-rollout control plane

    A shallow embedding of [ABTestManager.ts] and [RolloutManager.ts]:
    JavaScript numbers are IEEE-754 binary64 values (Rocq's primitive
    floats), the two manager classes are records of their private fields,
    and every method is a function in a state-and-exception monad over the
    manager record and the JavaScript host (random source, clock, storage).

    A call runs to its end before the next one starts: the awaits of the
    source are taken in sequence, with no other call in between. Console
    output is left out. Timer callbacks ([setTimeout], [setInterval]) are
    entries of a history like the public methods. *)

From Stdlib Require Import ZArith Floats Uint63 String Ascii List Bool Lia.
From stdpp Require Import base option list gmap strings.

Set Warnings "-inexact-float".


(** ** The JavaScript runtime the two classes run on *)

Module JS.

Local Open Scope float_scope.

(** *** Numbers: the operators and [Math] functions the source uses *)

Definition lt (a b : float) : bool := PrimFloat.ltb a b.
Definition gt (a b : float) : bool := PrimFloat.ltb b a.
Definition le (a b : float) : bool := PrimFloat.leb a b.
Definition ge (a b : float) : bool := PrimFloat.leb b a.
Definition isNaN (x : float) : bool := negb (PrimFloat.eqb x x).

(** ToBoolean on a number: [0], [-0] and [NaN] are falsy. *)
Definition truthy (x : float) : bool :=
  negb (PrimFloat.eqb x 0) && negb (isNaN x).

(** [x || d] on numbers. *)
Definition or_default (x d : float) : float := if truthy x then x else d.

Definition Math_abs (x : float) : float := PrimFloat.abs x.
Definition Math_sqrt (x : float) : float := PrimFloat.sqrt x.

(** [Math.pow(x, 2)]. *)
Definition Math_pow2 (x : float) : float := x * x.

Definition Math_min (a b : float) : float :=
  if isNaN a || isNaN b then nan else if lt b a then b else a.

Definition two52 : float := 4503599627370496.

(** [Math.floor]: below 2^52 in magnitude, adding and removing 2^52 rounds
    to the nearest integer, which is then corrected downwards. *)
Definition Math_floor (x : float) : float :=
  if PrimFloat.eqb x 0 then x
  else if lt (Math_abs x) two52 then
    let r := if le 0 x then (x + two52) - two52 else (x - two52) + two52 in
    if gt r x then r - 1 else r
  else x.

(** An integer as a number (exact below 2^53). *)
Definition of_Z (z : Z) : float :=
  if (0 <=? z)%Z then PrimFloat.of_uint63 (Uint63.of_Z z)
  else - PrimFloat.of_uint63 (Uint63.of_Z (- z)).

(** ToInt32, the conversion behind [<<] and [&]. *)
Definition ToInt32 (z : Z) : Z := ((z + 2 ^ 31) mod 2 ^ 32 - 2 ^ 31)%Z.

(** [x << n] and [x & y] on integer-valued numbers. *)
Definition shl (x : Z) (n : Z) : Z := ToInt32 (Z.shiftl (ToInt32 x) n).
Definition band (x y : Z) : Z := Z.land (ToInt32 x) (ToInt32 y).

(** *** Strings: [charCodeAt] over the code units, [substr]

    A string is the list of its code units, each below 256 (the ids,
    seeds and flag names of the application are ASCII). *)

Definition charCodes (s : string) : list Z :=
  map (fun c => Z.of_nat (nat_of_ascii c)) (list_ascii_of_string s).

Fixpoint substr_from (n : nat) (s : string) : string :=
  match n, s with
  | O, _ => s
  | S n', String _ s' => substr_from n' s'
  | S _, EmptyString => EmptyString
  end.

(** *** Values of type [any] *)

Inductive Prim :=
| Undefined
| Null
| Bool (b : bool)
| Num (x : float)
| Str (s : string).

(** Besides primitives and arrays of primitives, a value is one of the
    objects every plain object inherits from [Object.prototype]
    ([constructor], [toString], ...), known by the name it is found under. *)
Inductive Value :=
| P (p : Prim)
| Arr (elems : list Prim)
| Inherited (name : string).

(** The properties of [Object.prototype], the standard ones and those of
    Annex B of ECMAScript. *)
Definition Object_prototype_names : list string :=
  ["constructor"; "hasOwnProperty"; "isPrototypeOf"; "propertyIsEnumerable";
   "toLocaleString"; "toString"; "valueOf"; "__proto__";
   "__defineGetter__"; "__defineSetter__";
   "__lookupGetter__"; "__lookupSetter__"]%string.

(** [a === b] on primitives. *)
Definition prim_strict_eq (a b : Prim) : bool :=
  match a, b with
  | Undefined, Undefined => true
  | Null, Null => true
  | Bool x, Bool y => Bool.eqb x y
  | Num x, Num y => PrimFloat.eqb x y
  | Str x, Str y => String.eqb x y
  | _, _ => false
  end.

(** [a === b]; two arrays are two objects, never identical, and two
    inherited objects are identical when they are found under one name. *)
Definition strict_eq (a b : Value) : bool :=
  match a, b with
  | P x, P y => prim_strict_eq x y
  | Inherited x, Inherited y => String.eqb x y
  | _, _ => false
  end.

(** SameValueZero, the comparison of [Array.prototype.includes]. *)
Definition same_value_zero (a b : Prim) : bool :=
  match a, b with
  | Num x, Num y => PrimFloat.eqb x y || (isNaN x && isNaN y)
  | _, _ => prim_strict_eq a b
  end.

Definition includes (elems : list Prim) (v : Value) : bool :=
  match v with
  | P p => existsb (fun e => same_value_zero e p) elems
  | Arr _ | Inherited _ => false
  end.

(** *** Insertion-ordered dictionaries: [Map] and plain objects

    A [Map] is the list of its entries in insertion order. A plain object
    that is filled by assignments [o[k] = v] is the list of the keys
    assigned, in the order of their first assignment; what JavaScript does
    differently for the key [__proto__] and for keys that are array indices
    is in [set_primitive], [own] and [object_entries]. *)

Module Dict.

Definition t (V : Type) : Type := list (string * V).

Definition empty {V : Type} : t V := [].

Fixpoint get {V : Type} (d : t V) (k : string) : option V :=
  match d with
  | [] => None
  | (k', v) :: d' => if String.eqb k' k then Some v else get d' k
  end.

(** [set] keeps the position of a key that is already present. *)
Fixpoint set {V : Type} (d : t V) (k : string) (v : V) : t V :=
  match d with
  | [] => [(k, v)]
  | (k', v') :: d' =>
      if String.eqb k' k then (k, v) :: d' else (k', v') :: set d' k v
  end.

Definition keys {V : Type} (d : t V) : list string := map fst d.
Definition values {V : Type} (d : t V) : list V := map snd d.

(** [{ ...a, ...b }] and [Object.assign(a, b)]. *)
Definition assign {V : Type} (a b : t V) : t V :=
  fold_left (fun acc kv => set acc (fst kv) (snd kv)) b a.

(** [o[k] = v] on a plain object for a primitive [v]: the setter of
    [__proto__] ignores a value that is not an object, so nothing is
    assigned under that key. For an object [v] the assignment
    [o.__proto__ = v] makes [v] the prototype of [o], and [o.__proto__]
    reads it back: [set] and [get] under the key [__proto__] are that
    slot, which is no property of [o]. *)
Definition set_primitive {V : Type} (d : t V) (k : string) (v : V) : t V :=
  if String.eqb k "__proto__" then d else set d k v.

(** The own properties of a plain object filled by assignments. *)
Definition own {V : Type} (d : t V) : t V :=
  List.filter (fun kv => negb (String.eqb (fst kv) "__proto__")) d.

(** An array index: the canonical decimal numeral of an integer below
    2^32 - 1. *)
Definition digit_of (c : ascii) : option N :=
  let n := N_of_ascii c in
  if ((48 <=? n) && (n <=? 57))%N then Some (n - 48)%N else None.

Fixpoint numeral_value (s : string) (acc : N) : option N :=
  match s with
  | EmptyString => Some acc
  | String c s' =>
      match digit_of c with
      | Some d => numeral_value s' (10 * acc + d)%N
      | None => None
      end
  end.

Definition array_index (s : string) : option N :=
  match s with
  | EmptyString => None
  | String "0"%char EmptyString => Some 0%N
  | String "0"%char _ => None
  | _ =>
      match numeral_value s 0 with
      | Some n => if (n <? 4294967295)%N then Some n else None
      | None => None
      end
  end.

(** The properties whose keys are array indices, by ascending index. *)
Fixpoint insert_indexed {V : Type} (n : N) (kv : string * V)
    (sorted : list (N * (string * V))) : list (N * (string * V)) :=
  match sorted with
  | [] => [(n, kv)]
  | (n', kv') :: rest =>
      if (n <? n')%N then (n, kv) :: sorted
      else (n', kv') :: insert_indexed n kv rest
  end.

Definition indexed {V : Type} (d : t V) : list (N * (string * V)) :=
  fold_left
    (fun sorted kv =>
       match array_index (fst kv) with
       | Some n => insert_indexed n kv sorted
       | None => sorted
       end)
    d [].

(** [Object.entries(o)]: the own properties, those with an array index as
    key first, by ascending index, then the others in the order in which
    they were created. *)
Definition object_entries {V : Type} (d : t V) : list (string * V) :=
  (map snd (indexed (own d))
   ++ List.filter (fun kv => match array_index (fst kv) with
                             | Some _ => false
                             | None => true
                             end)
                  (own d))%list.

End Dict.

(** *** The host: everything the code asks of its environment *)

Record Host := {
  (** result of the [n]-th host call when it is [Math.random()] *)
  Math_random_at : nat -> float;
  (** result of the [n]-th host call when it is [Date.now()] *)
  Date_now_at : nat -> float;
  (** [Math.exp], an implementation-approximated function *)
  Math_exp : float -> float;
  (** [Number.prototype.toString(36)] *)
  Number_toString36 : float -> string;
  (** ToNumber on a string *)
  StringToNumber : string -> float;
  (** ToString on a number *)
  NumberToString : float -> string;
  (** whether the [n]-th host call, a [localStorage.setItem], throws *)
  setItem_throws : nat -> bool
}.

Record World := { host : Host; calls : nat }.

Definition tick (w : World) : World :=
  {| host := host w; calls := S (calls w) |}.

(** ToString and ToNumber on values of type [any]. *)
Definition prim_to_string (h : Host) (p : Prim) : string :=
  match p with
  | Undefined => "undefined"
  | Null => "null"
  | Bool true => "true"
  | Bool false => "false"
  | Num x => NumberToString h x
  | Str s => s
  end.

(** [Array.prototype.join(",")], which prints [null] and [undefined] as
    the empty string. *)
Fixpoint join_comma (h : Host) (elems : list Prim) : string :=
  match elems with
  | [] => EmptyString
  | [Undefined] | [Null] => EmptyString
  | [p] => prim_to_string h p
  | (Undefined | Null) :: rest => String "," (join_comma h rest)
  | p :: rest => prim_to_string h p ++ String "," (join_comma h rest)
  end.

Definition ToNumber (h : Host) (v : Value) : float :=
  match v with
  | P Undefined => nan
  | P Null => 0
  | P (Bool true) => 1
  | P (Bool false) => 0
  | P (Num x) => x
  | P (Str s) => StringToNumber h s
  | Arr elems => StringToNumber h (join_comma h elems)
  | Inherited _ => nan
  end.

(** *** Completions and the method monad *)

Inductive Exception :=
| Error (message : string)
| TypeError (message : string)
| DOMException (name : string).

Inductive Completion (A : Type) :=
| Normal (a : A)
| Throw (e : Exception).
Arguments Normal {A} a.
Arguments Throw {A} e.

(** A method of a class with fields [S]: it reads and writes the host and
    the fields and either returns or throws; what it wrote before a throw
    stays written. *)
Definition M (S A : Type) : Type := World -> S -> Completion A * (World * S).

Definition ret {S A : Type} (a : A) : M S A := fun w s => (Normal a, (w, s)).

Definition throw {S A : Type} (e : Exception) : M S A :=
  fun w s => (Throw e, (w, s)).

Definition bind {S A B : Type} (m : M S A) (k : A -> M S B) : M S B :=
  fun w s =>
    match m w s with
    | (Normal a, (w', s')) => k a w' s'
    | (Throw e, ws') => (Throw e, ws')
    end.

Definition this {S : Type} : M S S := fun w s => (Normal s, (w, s)).

Definition update {S : Type} (f : S -> S) : M S unit :=
  fun w s => (Normal tt, (w, f s)).

Definition the_host {S : Type} : M S Host :=
  fun w s => (Normal (host w), (w, s)).

(** A call of an async method that is not awaited: the body runs, a throw
    becomes a rejected promise nobody looks at. *)
Definition detached {S A : Type} (m : M S A) : M S unit :=
  fun w s => (Normal tt, snd (m w s)).

(** Running a method of an object held in a field. *)
Definition on_field {S T A : Type} (proj : S -> T) (inj : T -> S -> S)
    (m : M T A) : M S A :=
  fun w s =>
    match m w (proj s) with
    | (c, (w', t')) => (c, (w', inj t' s))
    end.

(** The state a call leaves behind, however it completed. *)
Definition state_after {S A : Type} (m : M S A) (w : World) (s : S) : S :=
  snd (snd (m w s)).

Definition world_after {S A : Type} (m : M S A) (w : World) (s : S) : World :=
  fst (snd (m w s)).

Definition completion_of {S A : Type} (m : M S A) (w : World) (s : S)
    : Completion A :=
  fst (m w s).

Definition Math_random {S : Type} : M S float :=
  fun w s => (Normal (Math_random_at (host w) (calls w)), (tick w, s)).

Definition Date_now {S : Type} : M S float :=
  fun w s => (Normal (Date_now_at (host w) (calls w)), (tick w, s)).

(** [localStorage.setItem(key, text)]; the stored text is not modelled,
    nothing ever reads it back after construction. *)
Definition localStorage_setItem {S : Type} (key : string) : M S unit :=
  fun w s =>
    (if setItem_throws (host w) (calls w)
     then Throw (DOMException "QuotaExceededError")
     else Normal tt, (tick w, s)).

(** Sequencing a list of statements ([for ... of] without [break]). *)
Fixpoint for_each {S A : Type} (l : list A) (body : A -> M S unit) : M S unit :=
  match l with
  | [] => ret tt
  | a :: l' => bind (body a) (fun _ => for_each l' body)
  end.

(** What the statements about methods are phrased with: a relation that
    every call of [m] maintains between the fields before and after, and a
    method that never throws. *)
Definition preserves {S A : Type} (R : S -> S -> Prop) (m : M S A) : Prop :=
  forall w s, R s (state_after m w s).

Definition never_throws {S A : Type} (m : M S A) : Prop :=
  forall w s, exists a, completion_of m w s = Normal a.

Definition result_of {A : Type} (c : Completion A) : option A :=
  match c with
  | Normal a => Some a
  | Throw _ => None
  end.

End JS.

Import JS.

Notation "'let*' x ':=' m 'in' k" := (JS.bind m (fun x => k))
  (at level 10, x name, m at level 100, k at level 200).
Notation "'do*' m 'in' k" := (JS.bind m (fun _ => k))
  (at level 10, m at level 100, k at level 200).

(** ** ABTestManager.ts *)

Module ABTestManager.

Local Open Scope float_scope.
Local Open Scope string_scope.

(** *** The interfaces *)

Inductive Status := draft | active | paused | completed.

Definition status_eqb (a b : Status) : bool :=
  match a, b with
  | draft, draft | active, active | paused, paused
  | completed, completed => true
  | _, _ => false
  end.

Record AnalyticsConfig := {
  trackingEnabled : bool;
  customEvents : list string;
  samplingRate : float
}.

Record VariantConfig := {
  features : Dict.t Value;
  ui : Dict.t Value;
  analytics : AnalyticsConfig
}.

Module Variant.
Record t := {
  id : string;
  name : string;
  description : string;
  weight : float;
  config : VariantConfig;
  isControl : bool
}.
End Variant.
Abbreviation ABVariant := Variant.t.

Inductive UserType := new | returning | beta | all.
Inductive Experience := beginner | intermediate | advanced.
Inductive Platform := mobile | desktop | tablet.

Definition userType_eqb (a b : UserType) : bool :=
  match a, b with
  | new, new | returning, returning | beta, beta | all, all => true
  | _, _ => false
  end.

Definition experience_eqb (a b : Experience) : bool :=
  match a, b with
  | beginner, beginner | intermediate, intermediate
  | advanced, advanced => true
  | _, _ => false
  end.

Definition platform_eqb (a b : Platform) : bool :=
  match a, b with
  | mobile, mobile | desktop, desktop | tablet, tablet => true
  | _, _ => false
  end.

Record AudienceCriteria := {
  userType : option UserType;
  experience : option Experience;
  platform : option Platform;
  location : option (list string);
  customAttributes : option (Dict.t Value)
}.

Record TargetAudience := {
  criteria : AudienceCriteria;
  percentage : float;
  exclusions : option (list string)
}.

Record GradualRollout := {
  initialPercentage : float;
  incrementPercentage : float;
  incrementInterval : float;
  maxPercentage : float
}.

Inductive AllocationType := random | deterministic | gradual.

Record AllocationStrategy := {
  type : AllocationType;
  seed : option string;
  gradualRollout : option GradualRollout
}.

Record TestSafeguards := {
  maxErrorRate : float;
  maxLatencyIncrease : float;
  minSuccessRate : float;
  monitoringInterval : float
}.

Inductive Comparator := gt | lt | eq.

Module Trigger.
Record t := {
  metric : string;
  condition : Comparator;
  threshold : float;
  duration : float
}.
End Trigger.
Abbreviation RollbackTrigger := Trigger.t.

Record CustomMetrics := {
  totalEvents : float;
  uniqueUsers : float;
  averageEventsPerUser : float
}.

Record VariantMetrics := {
  conversionRate : float;
  averageValue : float;
  standardError : float;
  confidenceInterval : float * float;
  customMetrics : CustomMetrics
}.

Inductive Method := welch | pooled | bayesian.

Record SignificanceTest := {
  pValue : float;
  zScore : float;
  significant : bool;
  method : Method
}.

Inductive Recommendation := continue | rollback | winner | inconclusive.

Record ABTestResults := {
  sampleSizes : Dict.t nat;
  metrics : Dict.t VariantMetrics;
  significance : SignificanceTest;
  recommendation : Recommendation;
  winningVariant : option string;
  confidence : float
}.

(** Dates are kept as the epoch milliseconds their ISO text denotes:
    [new Date().toISOString()] is a clock reading and
    [new Date(text).getTime()] gives it back. *)
Definition ISODate := float.

(** [Omit<ABTest, 'id' | 'createdDate' | 'status'>], the argument of
    [createTest]. *)
Module Config.
Record t := {
  name : string;
  description : string;
  variants : list ABVariant;
  targetAudience : TargetAudience;
  allocation : AllocationStrategy;
  startDate : ISODate;
  endDate : option ISODate;
  primaryMetric : string;
  secondaryMetrics : list string;
  minimumSampleSize : float;
  confidenceLevel : float;
  results : option ABTestResults;
  safeguards : TestSafeguards;
  rollbackTriggers : list RollbackTrigger
}.
End Config.

(** [ABTest]. [monitoring] tells whether the test object carries the
    property [monitoringInterval], the handle of the interval that
    [startMonitoring] set last. The intervals themselves are no field:
    each of their ticks is an entry of a history, and a history may tick
    for any test at any time. That covers the interval whose handle a
    second [startTest] overwrote, which [stopMonitoring] never clears and
    which goes on ticking after [stopTest]. *)
Module Test.
Record t := {
  id : string;
  name : string;
  description : string;
  status : Status;
  variants : list ABVariant;
  targetAudience : TargetAudience;
  allocation : AllocationStrategy;
  startDate : ISODate;
  endDate : option ISODate;
  createdDate : ISODate;
  primaryMetric : string;
  secondaryMetrics : list string;
  minimumSampleSize : float;
  confidenceLevel : float;
  results : option ABTestResults;
  safeguards : TestSafeguards;
  rollbackTriggers : list RollbackTrigger;
  monitoring : bool
}.

(** [{ id: testId, ...testConfig, status: 'draft', createdDate }]. *)
Definition of_config (testId : string) (c : Config.t) (created : ISODate) : t :=
  {| id := testId; name := Config.name c;
     description := Config.description c; status := draft;
     variants := Config.variants c;
     targetAudience := Config.targetAudience c;
     allocation := Config.allocation c;
     startDate := Config.startDate c; endDate := Config.endDate c;
     createdDate := created; primaryMetric := Config.primaryMetric c;
     secondaryMetrics := Config.secondaryMetrics c;
     minimumSampleSize := Config.minimumSampleSize c;
     confidenceLevel := Config.confidenceLevel c;
     results := Config.results c; safeguards := Config.safeguards c;
     rollbackTriggers := Config.rollbackTriggers c; monitoring := false |}.

(** Assignments to the fields the methods write. *)
Definition set_status (v : Status) (x : t) : t :=
  {| id := id x; name := name x; description := description x;
     status := v; variants := variants x;
     targetAudience := targetAudience x; allocation := allocation x;
     startDate := startDate x; endDate := endDate x;
     createdDate := createdDate x; primaryMetric := primaryMetric x;
     secondaryMetrics := secondaryMetrics x;
     minimumSampleSize := minimumSampleSize x;
     confidenceLevel := confidenceLevel x; results := results x;
     safeguards := safeguards x; rollbackTriggers := rollbackTriggers x;
     monitoring := monitoring x |}.

Definition set_startDate (v : ISODate) (x : t) : t :=
  {| id := id x; name := name x; description := description x;
     status := status x; variants := variants x;
     targetAudience := targetAudience x; allocation := allocation x;
     startDate := v; endDate := endDate x;
     createdDate := createdDate x; primaryMetric := primaryMetric x;
     secondaryMetrics := secondaryMetrics x;
     minimumSampleSize := minimumSampleSize x;
     confidenceLevel := confidenceLevel x; results := results x;
     safeguards := safeguards x; rollbackTriggers := rollbackTriggers x;
     monitoring := monitoring x |}.

Definition set_endDate (v : option ISODate) (x : t) : t :=
  {| id := id x; name := name x; description := description x;
     status := status x; variants := variants x;
     targetAudience := targetAudience x; allocation := allocation x;
     startDate := startDate x; endDate := v;
     createdDate := createdDate x; primaryMetric := primaryMetric x;
     secondaryMetrics := secondaryMetrics x;
     minimumSampleSize := minimumSampleSize x;
     confidenceLevel := confidenceLevel x; results := results x;
     safeguards := safeguards x; rollbackTriggers := rollbackTriggers x;
     monitoring := monitoring x |}.

Definition set_results (v : option ABTestResults) (x : t) : t :=
  {| id := id x; name := name x; description := description x;
     status := status x; variants := variants x;
     targetAudience := targetAudience x; allocation := allocation x;
     startDate := startDate x; endDate := endDate x;
     createdDate := createdDate x; primaryMetric := primaryMetric x;
     secondaryMetrics := secondaryMetrics x;
     minimumSampleSize := minimumSampleSize x;
     confidenceLevel := confidenceLevel x; results := v;
     safeguards := safeguards x; rollbackTriggers := rollbackTriggers x;
     monitoring := monitoring x |}.

Definition set_monitoring (v : bool) (x : t) : t :=
  {| id := id x; name := name x; description := description x;
     status := status x; variants := variants x;
     targetAudience := targetAudience x; allocation := allocation x;
     startDate := startDate x; endDate := endDate x;
     createdDate := createdDate x; primaryMetric := primaryMetric x;
     secondaryMetrics := secondaryMetrics x;
     minimumSampleSize := minimumSampleSize x;
     confidenceLevel := confidenceLevel x; results := results x;
     safeguards := safeguards x; rollbackTriggers := rollbackTriggers x;
     monitoring := v |}.
End Test.
Abbreviation ABTest := Test.t.

Module Assignment.
Record t := {
  userId : string;
  testId : string;
  variantId : string;
  assignedAt : ISODate;
  isActive : bool
}.
End Assignment.
Abbreviation UserAssignment := Assignment.t.

Module Event.
Record t := {
  userId : string;
  testId : string;
  variantId : string;
  eventType : string;
  eventValue : option float;
  metadata : option (Dict.t Value);
  timestamp : ISODate
}.
End Event.
Abbreviation ABTestEvent := Event.t.

(** *** The class: its private fields *)

Record t := {
  activeTests : gmap string ABTest;
  userAssignments : gmap string (list UserAssignment);
  testEvents : list ABTestEvent;
  userId : string
}.

Definition set_activeTests (v : gmap string ABTest) (m : t) : t :=
  {| activeTests := v; userAssignments := userAssignments m;
     testEvents := testEvents m; userId := userId m |}.

Definition set_userAssignments (v : gmap string (list UserAssignment)) (m : t) : t :=
  {| activeTests := activeTests m; userAssignments := v;
     testEvents := testEvents m; userId := userId m |}.

Definition set_testEvents (v : list ABTestEvent) (m : t) : t :=
  {| activeTests := activeTests m; userAssignments := userAssignments m;
     testEvents := v; userId := userId m |}.

(** A write to a field of the test object stored under [testId]. *)
Definition write_test (testId : string) (f : ABTest -> ABTest) : M t unit :=
  update (fun m =>
    match activeTests m !! testId with
    | Some test => set_activeTests (<[testId := f test]> (activeTests m)) m
    | None => m
    end).

(** *** Utility methods *)

Definition getUserAssignment (m : t) (testId : string) : option UserAssignment :=
  let assignments := default [] (userAssignments m !! userId m) in
  List.find (fun a => String.eqb (Assignment.testId a) testId
                      && Assignment.isActive a) assignments.

Definition persistAssignment (assignment : UserAssignment) : M t unit :=
  localStorage_setItem "ab-test-assignments".

Definition recordAssignment (testId variantId : string) : M t unit :=
  let* m := this in
  let* now := Date_now in
  let assignment :=
    {| Assignment.userId := userId m; Assignment.testId := testId;
       Assignment.variantId := variantId; Assignment.assignedAt := now;
       Assignment.isActive := true |} in
  do* update (fun m =>
        let userAssignments' := default [] (userAssignments m !! userId m) in
        set_userAssignments
          (<[userId m := (userAssignments' ++ [assignment])%list]>
             (userAssignments m)) m) in
  detached (persistAssignment assignment).

Record UserData := {
  user_type : UserType;
  user_experience : Experience;
  user_platform : Platform;
  user_attributes : Dict.t Value
}.

Definition getUserData : UserData :=
  {| user_type := beta; user_experience := intermediate;
     user_platform := desktop; user_attributes := Dict.empty |}.

Definition simpleHash (str : string) : Z :=
  let hash :=
    fold_left (fun hash char =>
                 let hash := (shl hash 5 - hash + char)%Z in
                 band hash hash)
              (charCodes str) 0%Z in
  Z.abs hash.

Definition erf (h : Host) (x : float) : float :=
  let a1 := 0.254829592 in
  let a2 := -0.284496736 in
  let a3 := 1.421413741 in
  let a4 := -1.453152027 in
  let a5 := 1.061405429 in
  let p := 0.3275911 in
  let sign := if JS.ge x 0 then 1 else -1 in
  let x := Math_abs x in
  let t := 1.0 / (1.0 + p * x) in
  let y := 1.0 - (((((a5 * t + a4) * t) + a3) * t + a2) * t + a1) * t
                 * Math_exp h (- x * x) in
  sign * y.

Definition normalCDF (h : Host) (x : float) : float :=
  0.5 * (1 + erf h (x / Math_sqrt 2)).

Definition calculatePValue (h : Host) (zScore : float) : float :=
  2 * (1 - normalCDF h (Math_abs zScore)).

Definition generateId : M t string :=
  let* now := Date_now in
  let* r := Math_random in
  let* h := the_host in
  ret (Number_toString36 h now +:+ substr_from 2 (Number_toString36 h r)).

Definition validateTestConfig (test : ABTest) : M t unit :=
  let totalWeight :=
    fold_left (fun sum v => sum + Variant.weight v) (Test.variants test) 0 in
  if JS.gt (Math_abs (totalWeight - 100)) 0.01
  then throw (Error "Variant weights must sum to 100")
  else ret tt.

Definition persistTest (test : ABTest) : M t unit :=
  localStorage_setItem ("ab-test-" +:+ Test.id test).

Definition persistEvent (event : ABTestEvent) : M t unit :=
  localStorage_setItem "ab-test-events".

Definition not_found {A : Type} (testId : string) : M t A :=
  throw (Error ("Test " +:+ testId +:+ " not found")).

(** [variants[0].id], a TypeError on an empty list. *)
Definition first_variant_id (variants : list ABVariant) : M t string :=
  match variants with
  | v :: _ => ret (Variant.id v)
  | [] => throw (TypeError "Cannot read properties of undefined (reading 'id')")
  end.

(** The loop shared by the three allocations: walk the cumulative weights
    and return the first variant whose bound reaches [x]. *)
Fixpoint walk_weights (x cumulative : float) (variants : list ABVariant)
    : option string :=
  match variants with
  | [] => None
  | variant :: rest =>
      let cumulative := cumulative + Variant.weight variant in
      if JS.le x cumulative then Some (Variant.id variant)
      else walk_weights x cumulative rest
  end.

(** *** User assignment *)

Definition isUserEligible (test : ABTest) : M t bool :=
  let targetAudience := Test.targetAudience test in
  let* r := Math_random in
  if JS.gt (r * 100) (percentage targetAudience) then ret false else
  let userData := getUserData in
  let criteria := criteria targetAudience in
  if match userType criteria with
     | Some u => negb (userType_eqb u (user_type userData))
     | None => false
     end then ret false else
  if match experience criteria with
     | Some e => negb (experience_eqb e (user_experience userData))
     | None => false
     end then ret false else
  if match platform criteria with
     | Some p => negb (platform_eqb p (user_platform userData))
     | None => false
     end then ret false else
  if match exclusions targetAudience with
     | Some l =>
         existsb (fun exclusion =>
                    match Dict.get (user_attributes userData) exclusion with
                    | Some v => strict_eq v (P (Bool true))
                    | None => false
                    end) l
     | None => false
     end then ret false else
  ret true.

Definition randomAssignment (variants : list ABVariant) : M t string :=
  let* r := Math_random in
  let random := r * 100 in
  match walk_weights random 0 variants with
  | Some variantId => ret variantId
  | None => first_variant_id variants
  end.

Definition deterministicAssignment (variants : list ABVariant)
    (seed : option string) : M t string :=
  let* m := this in
  let hashInput :=
    userId m +:+ match seed with Some s => s | None => EmptyString end in
  let hash := simpleHash hashInput in
  let percentage := of_Z (Z.rem hash 10000) / 100 in
  match walk_weights percentage 0 variants with
  | Some variantId => ret variantId
  | None => first_variant_id variants
  end.

Definition gradualAssignment (test : ABTest) : M t string :=
  match gradualRollout (Test.allocation test) with
  | None => randomAssignment (Test.variants test)
  | Some gradualRollout =>
      let startTime := Test.startDate test in
      let* currentTime := Date_now in
      let hoursElapsed := (currentTime - startTime) / (1000 * 60 * 60) in
      let increments :=
        Math_floor (hoursElapsed / incrementInterval gradualRollout) in
      let currentPercentage :=
        Math_min (initialPercentage gradualRollout
                  + increments * incrementPercentage gradualRollout)
                 (maxPercentage gradualRollout) in
      let* r := Math_random in
      let random := r * 100 in
      if JS.gt random currentPercentage then
        match List.find Variant.isControl (Test.variants test) with
        | Some v =>
            if String.eqb (Variant.id v) EmptyString then
              first_variant_id (Test.variants test)
            else ret (Variant.id v)
        | None => first_variant_id (Test.variants test)
        end
      else randomAssignment (Test.variants test)
  end.

Definition assignUserToVariant (test : ABTest) : M t string :=
  match type (Test.allocation test) with
  | random => randomAssignment (Test.variants test)
  | deterministic =>
      deterministicAssignment (Test.variants test) (seed (Test.allocation test))
  | gradual => gradualAssignment test
  end.

Definition getAssignment (testId : string) : M t (option string) :=
  let* m := this in
  match activeTests m !! testId with
  | None => ret None
  | Some test =>
      if negb (status_eqb (Test.status test) active) then ret None else
      match getUserAssignment m testId with
      | Some existingAssignment =>
          ret (Some (Assignment.variantId existingAssignment))
      | None =>
          let* eligible := isUserEligible test in
          if negb eligible then ret None else
          let* variantId := assignUserToVariant test in
          do* recordAssignment testId variantId in
          ret (Some variantId)
      end
  end.

(** *** Event tracking *)

Definition trackEvent (testId eventType : string) (eventValue : option float)
    (metadata : option (Dict.t Value)) : M t unit :=
  let* m := this in
  match getUserAssignment m testId with
  | None => ret tt
  | Some assignment =>
      let* now := Date_now in
      let event :=
        {| Event.userId := userId m; Event.testId := testId;
           Event.variantId := Assignment.variantId assignment;
           Event.eventType := eventType; Event.eventValue := eventValue;
           Event.metadata := metadata; Event.timestamp := now |} in
      do* update (fun m => set_testEvents (testEvents m ++ [event])%list m) in
      detached (persistEvent event)
  end.

(** *** Results calculation *)

(** A pure computation that may throw, run inside a method. *)
Definition lift {A : Type} (c : Completion A) : M t A := fun w m => (c, (w, m)).

(** [list.length] as a number. *)
Definition length_of {A : Type} (l : list A) : float :=
  of_Z (Z.of_nat (length l)).

(** [new Set(events.map(e => e.userId)).size]. *)
Definition distinct_users (events : list ABTestEvent) : nat :=
  length (remove_dups (map Event.userId events)).

Definition calculateCustomMetrics (events : list ABTestEvent) : CustomMetrics :=
  {| totalEvents := length_of events;
     uniqueUsers := of_Z (Z.of_nat (distinct_users events));
     averageEventsPerUser :=
       or_default (length_of events / of_Z (Z.of_nat (distinct_users events))) 0 |}.

Definition calculateVariantMetrics (events : list ABTestEvent)
    (primaryMetric : string) : VariantMetrics :=
  let conversionEvents :=
    List.filter (fun e => String.eqb (Event.eventType e) primaryMetric) events in
  let totalUsers := of_Z (Z.of_nat (distinct_users events)) in
  let conversionRate :=
    if JS.gt totalUsers 0 then length_of conversionEvents / totalUsers else 0 in
  let values :=
    map (fun e => match Event.eventValue e with
                  | Some v => or_default v 1
                  | None => 1
                  end) conversionEvents in
  let averageValue :=
    match values with
    | [] => 0
    | v :: rest => fold_left (fun a b => a + b) rest v / length_of values
    end in
  let variance :=
    if (1 <? length values)%nat then
      fold_left (fun sum val => sum + Math_pow2 (val - averageValue)) values 0
      / (length_of values - 1)
    else 0 in
  let standardError := Math_sqrt (variance / length_of values) in
  let marginOfError := 1.96 * standardError in
  {| conversionRate := conversionRate;
     averageValue := averageValue;
     standardError := standardError;
     confidenceInterval :=
       (averageValue - marginOfError, averageValue + marginOfError);
     customMetrics := calculateCustomMetrics events |}.

Definition neutral : SignificanceTest :=
  {| pValue := 1; zScore := 0; significant := false; method := welch |}.

Definition undefined_metrics {A : Type} : Completion A :=
  Throw (TypeError "Cannot read properties of undefined (reading 'standardError')").

Definition performSignificanceTest (h : Host) (metrics : Dict.t VariantMetrics)
    (variants : list ABVariant) : Completion SignificanceTest :=
  let controlVariant := List.find Variant.isControl variants in
  let testVariant := List.find (fun v => negb (Variant.isControl v)) variants in
  match controlVariant, testVariant with
  | Some controlVariant, Some testVariant =>
      match Dict.get metrics (Variant.id controlVariant),
            Dict.get metrics (Variant.id testVariant) with
      | Some control, Some test =>
          let pooledSE :=
            Math_sqrt (Math_pow2 (standardError control)
                       + Math_pow2 (standardError test)) in
          let zScore :=
            if JS.gt pooledSE 0
            then (averageValue test - averageValue control) / pooledSE
            else 0 in
          let pValue := calculatePValue h (Math_abs zScore) in
          Normal {| pValue := pValue; zScore := zScore;
                    significant := JS.lt pValue 0.05; method := welch |}
      | _, _ => undefined_metrics
      end
  | _, _ => Normal neutral
  end.

Definition generateRecommendation (significance : SignificanceTest)
    (metrics : Dict.t VariantMetrics) (test : ABTest)
    : Completion Recommendation :=
  if negb (significant significance) then Normal inconclusive else
  let controlVariant := List.find Variant.isControl (Test.variants test) in
  let testVariant :=
    List.find (fun v => negb (Variant.isControl v)) (Test.variants test) in
  match controlVariant, testVariant with
  | Some controlVariant, Some testVariant =>
      match Dict.get metrics (Variant.id controlVariant),
            Dict.get metrics (Variant.id testVariant) with
      | Some controlMetrics, Some testMetrics =>
          if JS.gt (averageValue testMetrics) (averageValue controlMetrics)
          then Normal winner
          else Normal rollback
      | _, _ =>
          Throw (TypeError "Cannot read properties of undefined (reading 'averageValue')")
      end
  | _, _ => Normal inconclusive
  end.

(** The loop runs over [Object.entries(metrics)]: the own properties of
    the object, array indices first. *)
Definition findWinningVariant (metrics : Dict.t VariantMetrics) : string :=
  fst (fold_left
         (fun best entry =>
            if JS.gt (averageValue (snd entry)) (snd best)
            then (fst entry, averageValue (snd entry))
            else best)
         (Dict.object_entries metrics) (EmptyString, neg_infinity)).

(** The loop of [calculateResults] over the variants, which fills the two
    plain objects [sampleSizes] and [metrics]. A variant whose id is
    [__proto__] gets no sample size (the value is a number), and its
    metrics become the prototype of [metrics], where
    [metrics[variant.id]] finds them. *)
Definition per_variant (events : list ABTestEvent) (primaryMetric : string)
    (variants : list ABVariant) : Dict.t nat * Dict.t VariantMetrics :=
  fold_left
    (fun acc variant =>
       let variantEvents :=
         List.filter
           (fun e => String.eqb (Event.variantId e) (Variant.id variant))
           events in
       let uniqueUsers := distinct_users variantEvents in
       (Dict.set_primitive (fst acc) (Variant.id variant) uniqueUsers,
        Dict.set (snd acc) (Variant.id variant)
                 (calculateVariantMetrics variantEvents primaryMetric)))
    variants (Dict.empty, Dict.empty).

Definition calculateResults (testId : string) : M t ABTestResults :=
  let* m := this in
  match activeTests m !! testId with
  | None => not_found testId
  | Some test =>
      let events :=
        List.filter (fun e => String.eqb (Event.testId e) testId)
                    (testEvents m) in
      let tables :=
        per_variant events (Test.primaryMetric test) (Test.variants test) in
      let sampleSizes := fst tables in
      let metrics := snd tables in
      let* h := the_host in
      let* significance :=
        lift (performSignificanceTest h metrics (Test.variants test)) in
      let* recommendation :=
        lift (generateRecommendation significance metrics test) in
      ret {| sampleSizes := sampleSizes;
             metrics := metrics;
             significance := significance;
             recommendation := recommendation;
             winningVariant :=
               if significant significance
               then Some (findWinningVariant metrics) else None;
             confidence := Test.confidenceLevel test |}
  end.

(** *** Safety monitoring *)

(** Sets an interval and stores its handle on the test, over the handle
    that may be there. *)
Definition startMonitoring (testId : string) : M t unit :=
  write_test testId (Test.set_monitoring true).

(** Clears the interval of the stored handle and deletes the handle. *)
Definition stopMonitoring (testId : string) : M t unit :=
  write_test testId (Test.set_monitoring false).

Definition getCurrentMetrics (testId : string) : M t (Dict.t float) :=
  let* r1 := Math_random in
  let* r2 := Math_random in
  let* r3 := Math_random in
  let* r4 := Math_random in
  ret [("errorRate", r1 * 0.01); ("latency", r2 * 100);
       ("successRate", 0.95 + r3 * 0.05); ("customMetric", r4 * 100)].

(** A comparison with [undefined] is false. *)
Definition evaluateTriggerCondition (value : option float)
    (trigger : RollbackTrigger) : bool :=
  match value with
  | None => false
  | Some value =>
      match Trigger.condition trigger with
      | gt => JS.gt value (Trigger.threshold trigger)
      | lt => JS.lt value (Trigger.threshold trigger)
      | eq => JS.lt (Math_abs (value - Trigger.threshold trigger)) 0.001
      end
  end.

(** Pauses the test; reassigning, logging and notifying only print. *)
Definition triggerRollback (testId reason : string) : M t unit :=
  write_test testId (Test.set_status paused).

(** [metrics.key > bound] and [metrics.key < bound] on a metrics object. *)
Definition exceeds (metrics : Dict.t float) (key : string) (bound : float) : bool :=
  match Dict.get metrics key with
  | Some v => JS.gt v bound
  | None => false
  end.

Definition below (metrics : Dict.t float) (key : string) (bound : float) : bool :=
  match Dict.get metrics key with
  | Some v => JS.lt v bound
  | None => false
  end.

Definition checkSafeguards (testId : string) : M t unit :=
  let* m := this in
  match activeTests m !! testId with
  | None => ret tt
  | Some test =>
      let* currentMetrics := getCurrentMetrics testId in
      let safeguards := Test.safeguards test in
      if exceeds currentMetrics "errorRate" (maxErrorRate safeguards) then
        triggerRollback testId "High error rate detected"
      else if exceeds currentMetrics "latency" (maxLatencyIncrease safeguards) then
        triggerRollback testId "High latency detected"
      else if below currentMetrics "successRate" (minSuccessRate safeguards) then
        triggerRollback testId "Low success rate detected"
      else
        match List.find
                (fun trigger =>
                   evaluateTriggerCondition
                     (Dict.get currentMetrics (Trigger.metric trigger)) trigger)
                (Test.rollbackTriggers test) with
        | Some trigger =>
            triggerRollback testId
              ("Trigger condition met for " +:+ Trigger.metric trigger)
        | None => ret tt
        end
  end.

(** *** Test management *)

Definition createTest (testConfig : Config.t) : M t string :=
  let* testId := generateId in
  let* created := Date_now in
  let test := Test.of_config testId testConfig created in
  do* validateTestConfig test in
  do* update (fun m => set_activeTests (<[testId := test]> (activeTests m)) m) in
  do* persistTest test in
  ret testId.

Definition startTest (testId : string) : M t unit :=
  let* m := this in
  match activeTests m !! testId with
  | None => not_found testId
  | Some test =>
      let* now := Date_now in
      do* write_test testId
            (fun test => Test.set_startDate now (Test.set_status active test)) in
      do* startMonitoring testId in
      persistTest test
  end.

Definition stopTest (testId reason : string) : M t unit :=
  let* m := this in
  match activeTests m !! testId with
  | None => not_found testId
  | Some test =>
      let* now := Date_now in
      do* write_test testId
            (fun test => Test.set_endDate (Some now)
                           (Test.set_status completed test)) in
      let* results := calculateResults testId in
      do* write_test testId (Test.set_results (Some results)) in
      do* stopMonitoring testId in
      persistTest test
  end.

(** *** The specification's reading of the recommendation *)




(** *** Histories of calls *)

(** One entry into the manager: a public method called by the application,
    or a tick of the interval that [startMonitoring] installs. *)
Inductive Call :=
| call_createTest (testConfig : Config.t)
| call_startTest (testId : string)
| call_stopTest (testId reason : string)
| call_getAssignment (testId : string)
| call_trackEvent (testId eventType : string) (eventValue : option float)
    (metadata : option (Dict.t Value))
| tick_checkSafeguards (testId : string).

Definition perform (c : Call) : M t unit :=
  match c with
  | call_createTest testConfig => do* createTest testConfig in ret tt
  | call_startTest testId => startTest testId
  | call_stopTest testId reason => stopTest testId reason
  | call_getAssignment testId => do* getAssignment testId in ret tt
  | call_trackEvent testId eventType eventValue metadata =>
      trackEvent testId eventType eventValue metadata
  | tick_checkSafeguards testId => checkSafeguards testId
  end.

(** The host and manager after a history; a call that throws leaves what
    it wrote and the next call goes on from there. *)
Fixpoint run (history : list Call) (w : World) (m : t) : World * t :=
  match history with
  | [] => (w, m)
  | c :: rest => let ws := snd (perform c w m) in run rest (fst ws) (snd ws)
  end.

(** What any call may do to the assignments of the user and to the events:
    append. *)
Definition grows (m m' : t) : Prop :=
  userId m' = userId m
  /\ (exists more,
        default [] (userAssignments m' !! userId m)
        = (default [] (userAssignments m !! userId m) ++ more)%list)
  /\ (exists later, testEvents m' = (testEvents m ++ later)%list).

End ABTestManager.

(** ** RolloutManager.ts *)

Module RolloutManager.

Local Open Scope float_scope.
Local Open Scope string_scope.

(** *** The interfaces *)

Inductive Status := planned | active | paused | completed | rolled_back.

Definition status_eqb (a b : Status) : bool :=
  match a, b with
  | planned, planned | active, active | paused, paused
  | completed, completed | rolled_back, rolled_back => true
  | _, _ => false
  end.

Inductive StrategyType := canary | blue_green | gradual | feature_flag.
Inductive Audience := audience_beta | audience_staff | audience_percentage | audience_all.
Inductive RollbackStrategy := immediate | rollback_gradual | manual.

Record RolloutStrategy := {
  type : StrategyType;
  targetAudience : Audience;
  rollbackStrategy : RollbackStrategy
}.

Record Bounds := { min : option float; max : option float }.

Record PhaseCriteria := {
  minSuccessRate : float;
  maxErrorRate : float;
  maxLatencyIncrease : float;
  minUserSatisfaction : option float;
  customMetrics : option (Dict.t Bounds)
}.

Module Phase.
Record t := {
  name : string;
  percentage : float;
  duration : float;
  criteria : PhaseCriteria;
  audiences : list string
}.
End Phase.
Abbreviation RolloutPhase := Phase.t.

Inductive Operator := gt | lt | eq.
Inductive Severity := warning | critical.

Module Condition.
Record t := {
  metric : string;
  threshold : float;
  operator : Operator;
  duration : float;
  severity : Severity
}.
End Condition.
Abbreviation RollbackCondition := Condition.t.

Record MonitoringConfig := {
  metricsToTrack : list string;
  alertThresholds : Dict.t float;
  dashboardUrl : option string;
  slackChannel : option string;
  emailList : option (list string)
}.

Definition ISODate := float.

(** [PhaseTransition]. Its [metrics] is [{ ...plan.metrics }]: the numbers
    are copied, the [phaseTransitions] property is the very array the
    transition is pushed on ([sharesLog]). *)
Module Transition.
Record t := {
  fromPhase : nat;
  toPhase : nat;
  timestamp : ISODate;
  reason : string;
  metrics : Dict.t float;
  sharesLog : bool
}.
End Transition.
Abbreviation PhaseTransition := Transition.t.

(** [RolloutMetrics]: an object of numbers ([usersAffected], [errorRate],
    [successRate], [averageLatency], [userSatisfaction], [featureAdoption],
    [rollbacksTriggered], and what [Object.assign] adds) and the log. *)
Record RolloutMetrics := {
  numbers : Dict.t float;
  phaseTransitions : list PhaseTransition
}.

(** The argument of [createRolloutPlan]. *)
Module PlanConfig.
Record t := {
  name : string;
  description : string;
  feature : string;
  strategy : RolloutStrategy;
  phases : list RolloutPhase;
  startDate : ISODate;
  estimatedCompletion : ISODate;
  actualCompletion : option ISODate;
  rollbackConditions : list RollbackCondition;
  monitoringConfig : MonitoringConfig
}.
End PlanConfig.

Module Plan.
Record t := {
  id : string;
  name : string;
  description : string;
  feature : string;
  strategy : RolloutStrategy;
  phases : list RolloutPhase;
  startDate : ISODate;
  estimatedCompletion : ISODate;
  actualCompletion : option ISODate;
  status : Status;
  currentPhase : nat;
  currentPercentage : float;
  rollbackConditions : list RollbackCondition;
  monitoringConfig : MonitoringConfig;
  metrics : RolloutMetrics
}.

Definition initial_metrics : RolloutMetrics :=
  {| numbers :=
       [("usersAffected", 0); ("errorRate", 0); ("successRate", 1);
        ("averageLatency", 0); ("userSatisfaction", 0);
        ("featureAdoption", 0); ("rollbacksTriggered", 0)];
     phaseTransitions := [] |}.

Definition of_config (rolloutId : string) (c : PlanConfig.t) : t :=
  {| id := rolloutId; name := PlanConfig.name c;
     description := PlanConfig.description c;
     feature := PlanConfig.feature c; strategy := PlanConfig.strategy c;
     phases := PlanConfig.phases c; startDate := PlanConfig.startDate c;
     estimatedCompletion := PlanConfig.estimatedCompletion c;
     actualCompletion := PlanConfig.actualCompletion c;
     status := planned; currentPhase := 0; currentPercentage := 0;
     rollbackConditions := PlanConfig.rollbackConditions c;
     monitoringConfig := PlanConfig.monitoringConfig c;
     metrics := initial_metrics |}.

Definition set_status (v : Status) (x : t) : t :=
  {| id := id x; name := name x; description := description x;
     feature := feature x; strategy := strategy x; phases := phases x;
     startDate := startDate x; estimatedCompletion := estimatedCompletion x;
     actualCompletion := actualCompletion x; status := v;
     currentPhase := currentPhase x;
     currentPercentage := currentPercentage x;
     rollbackConditions := rollbackConditions x;
     monitoringConfig := monitoringConfig x; metrics := metrics x |}.

Definition set_startDate (v : ISODate) (x : t) : t :=
  {| id := id x; name := name x; description := description x;
     feature := feature x; strategy := strategy x; phases := phases x;
     startDate := v; estimatedCompletion := estimatedCompletion x;
     actualCompletion := actualCompletion x; status := status x;
     currentPhase := currentPhase x;
     currentPercentage := currentPercentage x;
     rollbackConditions := rollbackConditions x;
     monitoringConfig := monitoringConfig x; metrics := metrics x |}.

Definition set_actualCompletion (v : option ISODate) (x : t) : t :=
  {| id := id x; name := name x; description := description x;
     feature := feature x; strategy := strategy x; phases := phases x;
     startDate := startDate x; estimatedCompletion := estimatedCompletion x;
     actualCompletion := v; status := status x;
     currentPhase := currentPhase x;
     currentPercentage := currentPercentage x;
     rollbackConditions := rollbackConditions x;
     monitoringConfig := monitoringConfig x; metrics := metrics x |}.

Definition set_currentPhase (v : nat) (x : t) : t :=
  {| id := id x; name := name x; description := description x;
     feature := feature x; strategy := strategy x; phases := phases x;
     startDate := startDate x; estimatedCompletion := estimatedCompletion x;
     actualCompletion := actualCompletion x; status := status x;
     currentPhase := v;
     currentPercentage := currentPercentage x;
     rollbackConditions := rollbackConditions x;
     monitoringConfig := monitoringConfig x; metrics := metrics x |}.

Definition set_currentPercentage (v : float) (x : t) : t :=
  {| id := id x; name := name x; description := description x;
     feature := feature x; strategy := strategy x; phases := phases x;
     startDate := startDate x; estimatedCompletion := estimatedCompletion x;
     actualCompletion := actualCompletion x; status := status x;
     currentPhase := currentPhase x;
     currentPercentage := v;
     rollbackConditions := rollbackConditions x;
     monitoringConfig := monitoringConfig x; metrics := metrics x |}.

Definition set_metrics (v : RolloutMetrics) (x : t) : t :=
  {| id := id x; name := name x; description := description x;
     feature := feature x; strategy := strategy x; phases := phases x;
     startDate := startDate x; estimatedCompletion := estimatedCompletion x;
     actualCompletion := actualCompletion x; status := status x;
     currentPhase := currentPhase x;
     currentPercentage := currentPercentage x;
     rollbackConditions := rollbackConditions x;
     monitoringConfig := monitoringConfig x; metrics := v |}.
End Plan.
Abbreviation RolloutPlan := Plan.t.

Inductive FlagOperator := op_eq | op_ne | op_in | op_not_in | op_gt | op_lt.

Record FlagCondition := {
  attribute : string;
  cond_operator : FlagOperator;
  value : Value
}.

Module FlagVariant.
Record t := {
  id : string;
  name : string;
  weight : float;
  config : Dict.t Value
}.
End FlagVariant.

(** [Omit<FeatureFlag, 'id'>], the argument of [createFeatureFlag]. *)
Module FlagConfig.
Record t := {
  name : string;
  description : string;
  enabled : bool;
  rolloutPercentage : float;
  targetAudiences : list string;
  conditions : list FlagCondition;
  variants : option (list FlagVariant.t)
}.
End FlagConfig.

Module Flag.
Record t := {
  id : string;
  name : string;
  description : string;
  enabled : bool;
  rolloutPercentage : float;
  targetAudiences : list string;
  conditions : list FlagCondition;
  variants : option (list FlagVariant.t)
}.

Definition of_config (flagId : string) (c : FlagConfig.t) : t :=
  {| id := flagId; name := FlagConfig.name c;
     description := FlagConfig.description c;
     enabled := FlagConfig.enabled c;
     rolloutPercentage := FlagConfig.rolloutPercentage c;
     targetAudiences := FlagConfig.targetAudiences c;
     conditions := FlagConfig.conditions c;
     variants := FlagConfig.variants c |}.

Definition set_enabled (v : bool) (x : t) : t :=
  {| id := id x; name := name x; description := description x;
     enabled := v; rolloutPercentage := rolloutPercentage x;
     targetAudiences := targetAudiences x; conditions := conditions x;
     variants := variants x |}.

Definition set_rolloutPercentage (v : float) (x : t) : t :=
  {| id := id x; name := name x; description := description x;
     enabled := enabled x; rolloutPercentage := v;
     targetAudiences := targetAudiences x; conditions := conditions x;
     variants := variants x |}.
End Flag.
Abbreviation FeatureFlag := Flag.t.

(** A callback handed to [setTimeout] and not yet run:
    [evaluatePhaseTransition(rolloutId, phaseIndex)] after [delay] ms. *)
Record Timer := {
  timer_rolloutId : string;
  timer_phaseIndex : nat;
  timer_delay : float
}.

(** *** The class: its private fields, and the timers it has set *)

Record t := {
  abTestManager : ABTestManager.t;
  activeRollouts : Dict.t RolloutPlan;
  featureFlags : Dict.t FeatureFlag;
  userId : string;
  timers : list Timer
}.

Definition set_abTestManager (v : ABTestManager.t) (m : t) : t :=
  {| abTestManager := v; activeRollouts := activeRollouts m;
     featureFlags := featureFlags m; userId := userId m; timers := timers m |}.

Definition set_activeRollouts (v : Dict.t RolloutPlan) (m : t) : t :=
  {| abTestManager := abTestManager m; activeRollouts := v;
     featureFlags := featureFlags m; userId := userId m; timers := timers m |}.

Definition set_featureFlags (v : Dict.t FeatureFlag) (m : t) : t :=
  {| abTestManager := abTestManager m; activeRollouts := activeRollouts m;
     featureFlags := v; userId := userId m; timers := timers m |}.

Definition set_timers (v : list Timer) (m : t) : t :=
  {| abTestManager := abTestManager m; activeRollouts := activeRollouts m;
     featureFlags := featureFlags m; userId := userId m; timers := v |}.

(** A method of [this.abTestManager]. *)
Definition on_abTestManager {A : Type} (m : M ABTestManager.t A) : M t A :=
  on_field abTestManager set_abTestManager m.

(** A write to a field of the plan object stored under [rolloutId], and of
    the flag object stored under [key]. *)
Definition write_plan (rolloutId : string) (f : RolloutPlan -> RolloutPlan)
    : M t unit :=
  update (fun m =>
    match Dict.get (activeRollouts m) rolloutId with
    | Some plan =>
        set_activeRollouts (Dict.set (activeRollouts m) rolloutId (f plan)) m
    | None => m
    end).

Definition write_flag (key : string) (f : FeatureFlag -> FeatureFlag)
    : M t unit :=
  update (fun m =>
    match Dict.get (featureFlags m) key with
    | Some flag => set_featureFlags (Dict.set (featureFlags m) key (f flag)) m
    | None => m
    end).

(** *** Utility methods, persistence *)

Definition not_found {A : Type} (rolloutId : string) : M t A :=
  throw (Error ("Rollout " +:+ rolloutId +:+ " not found")).

Definition generateId : M t string :=
  let* now := Date_now in
  let* r := Math_random in
  let* h := the_host in
  ret (Number_toString36 h now +:+ substr_from 2 (Number_toString36 h r)).

Definition simpleHash (str : string) : Z :=
  let hash :=
    fold_left (fun hash char =>
                 let hash := (shl hash 5 - hash + char)%Z in
                 band hash hash)
              (charCodes str) 0%Z in
  Z.abs hash.

(** [JSON.stringify(plan)] throws on a plan whose log holds a transition
    that refers back to the log. *)
Definition persistRollout (plan : RolloutPlan) : M t unit :=
  if existsb Transition.sharesLog (phaseTransitions (Plan.metrics plan))
  then throw (TypeError "Converting circular structure to JSON")
  else localStorage_setItem ("rollout-" +:+ Plan.id plan).

Definition persistFeatureFlag (flag : FeatureFlag) : M t unit :=
  localStorage_setItem ("flag-" +:+ Flag.id flag).

(** The plan object as it is now. *)
Definition persistRollout_of (rolloutId : string) : M t unit :=
  let* m := this in
  match Dict.get (activeRollouts m) rolloutId with
  | Some plan => persistRollout plan
  | None => ret tt
  end.

Definition persistFeatureFlag_of (key : string) : M t unit :=
  let* m := this in
  match Dict.get (featureFlags m) key with
  | Some flag => persistFeatureFlag flag
  | None => ret tt
  end.

Definition getUserAudiences : list string := ["beta"; "desktop"].

Definition getUserContext (m : t) : Dict.t Value :=
  [("userId", P (Str (userId m))); ("platform", P (Str "web"));
   ("version", P (Str "2.0.0")); ("locale", P (Str "en-US"))].

(** [context[attribute]] on the object literal [context]: an own
    property, else what [Object.prototype] holds under that name, else
    [undefined]. *)
Definition read_context (context : Dict.t Value) (attribute : string) : Value :=
  match Dict.get context attribute with
  | Some v => v
  | None =>
      if existsb (String.eqb attribute) Object_prototype_names
      then Inherited attribute else P Undefined
  end.

Definition evaluateConditions (h : Host) (conditions : list FlagCondition)
    (context : Dict.t Value) : bool :=
  forallb
    (fun condition =>
       let value := read_context context (attribute condition) in
       match cond_operator condition with
       | op_eq => strict_eq value (RolloutManager.value condition)
       | op_ne => negb (strict_eq value (RolloutManager.value condition))
       | op_in =>
           match RolloutManager.value condition with
           | Arr elems => includes elems value
           | _ => false
           end
       | op_not_in =>
           match RolloutManager.value condition with
           | Arr elems => negb (includes elems value)
           | _ => false
           end
       | op_gt =>
           match value with
           | P (Num x) => JS.gt x (ToNumber h (RolloutManager.value condition))
           | _ => false
           end
       | op_lt =>
           match value with
           | P (Num x) => JS.lt x (ToNumber h (RolloutManager.value condition))
           | _ => false
           end
       end)
    conditions.

(** *** Rollout management *)

Definition createRolloutPlan (plan : PlanConfig.t) : M t string :=
  let* rolloutId := generateId in
  let fullPlan := Plan.of_config rolloutId plan in
  do* update (fun m =>
        set_activeRollouts (Dict.set (activeRollouts m) rolloutId fullPlan) m) in
  do* persistRollout fullPlan in
  ret rolloutId.

Definition pauseRollout (rolloutId : string) : M t unit :=
  let* m := this in
  match Dict.get (activeRollouts m) rolloutId with
  | None => not_found rolloutId
  | Some _ =>
      do* write_plan rolloutId (Plan.set_status paused) in
      persistRollout_of rolloutId
  end.

Definition resumeRollout (rolloutId : string) : M t unit :=
  let* m := this in
  match Dict.get (activeRollouts m) rolloutId with
  | None => not_found rolloutId
  | Some _ =>
      do* write_plan rolloutId (Plan.set_status active) in
      persistRollout_of rolloutId
  end.

(** [plan.metrics.rollbacksTriggered++]. *)
Definition count_rollback (plan : RolloutPlan) : RolloutPlan :=
  let metrics := Plan.metrics plan in
  let old :=
    match Dict.get (numbers metrics) "rollbacksTriggered" with
    | Some n => n
    | None => nan
    end in
  Plan.set_metrics
    {| numbers := Dict.set (numbers metrics) "rollbacksTriggered" (old + 1);
       phaseTransitions := phaseTransitions metrics |}
    plan.

Definition rollbackRollout (rolloutId reason : string) : M t unit :=
  let* m := this in
  match Dict.get (activeRollouts m) rolloutId with
  | None => not_found rolloutId
  | Some plan =>
      do* write_plan rolloutId
            (fun plan => count_rollback (Plan.set_status rolled_back plan)) in
      do* match Dict.get (featureFlags m) (Plan.feature plan) with
          | Some _ =>
              do* write_flag (Plan.feature plan)
                    (fun flag => Flag.set_rolloutPercentage 0
                                   (Flag.set_enabled false flag)) in
              persistFeatureFlag_of (Plan.feature plan)
          | None => ret tt
          end in
      do* on_abTestManager
            (ABTestManager.stopTest ("rollout-" +:+ rolloutId)
               ("rollback: " +:+ reason)) in
      persistRollout_of rolloutId
  end.

(** *** Feature flags *)

Definition createFeatureFlag (flag : FlagConfig.t) : M t string :=
  let* flagId := generateId in
  let fullFlag := Flag.of_config flagId flag in
  do* update (fun m =>
        set_featureFlags (Dict.set (featureFlags m) flagId fullFlag) m) in
  do* detached (persistFeatureFlag fullFlag) in
  ret flagId.

(** [Array.from(this.featureFlags.values()).find(f => f.name === flagName)]. *)
Definition flag_named (m : t) (flagName : string) : option FeatureFlag :=
  List.find (fun f => String.eqb (Flag.name f) flagName)
            (Dict.values (featureFlags m)).

Definition isFeatureEnabled (flagName : string)
    (userContext : option (Dict.t Value)) : M t bool :=
  let* m := this in
  match flag_named m flagName with
  | None => ret false
  | Some flag =>
      if negb (Flag.enabled flag) then ret false else
      let* r := Math_random in
      if JS.gt (r * 100) (Flag.rolloutPercentage flag) then ret false else
      if match Flag.targetAudiences flag with
         | [] => false
         | targetAudiences =>
             let userAudiences := getUserAudiences in
             negb (existsb
                     (fun audience =>
                        existsb (String.eqb audience) userAudiences)
                     targetAudiences)
         end then ret false else
      let* h := the_host in
      if match Flag.conditions flag with
         | [] => false
         | conditions =>
             let context :=
               Dict.assign (getUserContext m) (default [] userContext) in
             negb (evaluateConditions h conditions context)
         end then ret false else
      ret true
  end.

(** The loop of [getFeatureVariant] over the weighted variants. *)
Fixpoint walk_weights (x cumulative : float) (variants : list FlagVariant.t)
    : option string :=
  match variants with
  | [] => None
  | variant :: rest =>
      let cumulative := cumulative + FlagVariant.weight variant in
      if JS.le x cumulative then Some (FlagVariant.id variant)
      else walk_weights x cumulative rest
  end.

Definition getFeatureVariant (flagName : string)
    (userContext : option (Dict.t Value)) : M t (option string) :=
  let* m := this in
  match flag_named m flagName with
  | None => ret None
  | Some flag =>
      if negb (Flag.enabled flag) then ret None else
      match Flag.variants flag with
      | None => ret None
      | Some variants =>
          let* enabled := isFeatureEnabled flagName userContext in
          if negb enabled then ret None else
          let hash := simpleHash (userId m +:+ flagName) in
          let percentage := of_Z (Z.rem hash 10000) / 100 in
          match walk_weights percentage 0 variants with
          | Some variantId => ret (Some variantId)
          | None =>
              match variants with
              | v :: _ =>
                  if String.eqb (FlagVariant.id v) EmptyString then ret None
                  else ret (Some (FlagVariant.id v))
              | [] => ret None
              end
          end
      end
  end.

(** *** Phase management *)

(** [metrics.key < bound], [metrics.key > bound]; a missing key compares
    false. *)
Definition below (metrics : Dict.t float) (key : string) (bound : float) : bool :=
  match Dict.get metrics key with
  | Some v => JS.lt v bound
  | None => false
  end.

Definition exceeds (metrics : Dict.t float) (key : string) (bound : float) : bool :=
  match Dict.get metrics key with
  | Some v => JS.gt v bound
  | None => false
  end.

Definition evaluatePhaseCriteria (criteria : PhaseCriteria)
    (metrics : Dict.t float) : bool :=
  if below metrics "successRate" (minSuccessRate criteria) then false else
  if exceeds metrics "errorRate" (maxErrorRate criteria) then false else
  if exceeds metrics "latency" (maxLatencyIncrease criteria) then false else
  if match minUserSatisfaction criteria with
     | Some bound => truthy bound && below metrics "userSatisfaction" bound
     | None => false
     end then false else
  match customMetrics criteria with
  | Some custom =>
      forallb
        (fun entry =>
           let metric := fst entry in
           let bounds := snd entry in
           negb (match min bounds with
                 | Some b => below metrics metric b
                 | None => false
                 end)
           && negb (match max bounds with
                    | Some b => exceeds metrics metric b
                    | None => false
                    end))
        custom
  | None => true
  end.

Definition evaluateRollbackCondition (condition : RollbackCondition)
    (metrics : Dict.t float) : bool :=
  match Dict.get metrics (Condition.metric condition) with
  | None => false
  | Some value =>
      match Condition.operator condition with
      | gt => JS.gt value (Condition.threshold condition)
      | lt => JS.lt value (Condition.threshold condition)
      | eq => JS.lt (Math_abs (value - Condition.threshold condition)) 0.001
      end
  end.

Definition is_critical (condition : RollbackCondition) : bool :=
  match Condition.severity condition with
  | critical => true
  | warning => false
  end.

Definition shouldTriggerRollback (plan : RolloutPlan) (metrics : Dict.t float)
    : bool :=
  existsb (fun condition =>
             is_critical condition && evaluateRollbackCondition condition metrics)
          (Plan.rollbackConditions plan).

Definition getCurrentMetrics (rolloutId : string) : M t (Dict.t float) :=
  let* r1 := Math_random in
  let* r2 := Math_random in
  let* r3 := Math_random in
  let* r4 := Math_random in
  let* r5 := Math_random in
  let* r6 := Math_random in
  ret [("successRate", 0.95 + r1 * 0.05); ("errorRate", r2 * 0.02);
       ("latency", 100 + r3 * 50); ("userSatisfaction", 4.0 + r4 * 1.0);
       ("featureAdoption", r5 * 100);
       ("usersAffected", Math_floor (r6 * 10000))].

Definition completeRollout (rolloutId : string) : M t unit :=
  let* m := this in
  match Dict.get (activeRollouts m) rolloutId with
  | None => ret tt
  | Some plan =>
      let* now := Date_now in
      do* write_plan rolloutId
            (fun plan =>
               Plan.set_currentPercentage 100
                 (Plan.set_actualCompletion (Some now)
                    (Plan.set_status completed plan))) in
      do* match Dict.get (featureFlags m) (Plan.feature plan) with
          | Some _ =>
              do* write_flag (Plan.feature plan)
                    (Flag.set_rolloutPercentage 100) in
              persistFeatureFlag_of (Plan.feature plan)
          | None => ret tt
          end in
      do* on_abTestManager
            (ABTestManager.stopTest ("rollout-" +:+ rolloutId)
               "rollout_complete") in
      persistRollout_of rolloutId
  end.

(** [plan.metrics.phaseTransitions.push(transition)]. *)
Definition push_transition (transition : PhaseTransition) (plan : RolloutPlan)
    : RolloutPlan :=
  Plan.set_metrics
    {| numbers := numbers (Plan.metrics plan);
       phaseTransitions :=
         (phaseTransitions (Plan.metrics plan) ++ [transition])%list |}
    plan.

Definition transitionToPhase (rolloutId : string) (phaseIndex : nat)
    : M t unit :=
  let* m := this in
  match Dict.get (activeRollouts m) rolloutId with
  | None => ret tt
  | Some plan =>
      match nth_error (Plan.phases plan) phaseIndex with
      | None => completeRollout rolloutId
      | Some phase =>
          let* now := Date_now in
          let transition :=
            {| Transition.fromPhase := Plan.currentPhase plan;
               Transition.toPhase := phaseIndex;
               Transition.timestamp := now;
               Transition.reason := "scheduled";
               Transition.metrics := numbers (Plan.metrics plan);
               Transition.sharesLog := true |} in
          do* write_plan rolloutId
                (fun plan =>
                   Plan.set_currentPercentage (Phase.percentage phase)
                     (Plan.set_currentPhase phaseIndex
                        (push_transition transition plan))) in
          do* match Dict.get (featureFlags m) (Plan.feature plan) with
              | Some _ =>
                  do* write_flag (Plan.feature plan)
                        (Flag.set_rolloutPercentage (Phase.percentage phase)) in
                  persistFeatureFlag_of (Plan.feature plan)
              | None => ret tt
              end in
          do* (if (phaseIndex <? length (Plan.phases plan) - 1)%nat then
                 update (fun m =>
                   set_timers
                     (timers m ++
                        [{| timer_rolloutId := rolloutId;
                            timer_phaseIndex := phaseIndex;
                            timer_delay :=
                              Phase.duration phase * 60 * 60 * 1000 |}])%list
                     m)
               else ret tt) in
          persistRollout_of rolloutId
      end
  end.

Definition evaluatePhaseTransition (rolloutId : string)
    (currentPhaseIndex : nat) : M t unit :=
  let* m := this in
  match Dict.get (activeRollouts m) rolloutId with
  | None => ret tt
  | Some plan =>
      if negb (status_eqb (Plan.status plan) active) then ret tt else
      let* currentMetrics := getCurrentMetrics rolloutId in
      match nth_error (Plan.phases plan) currentPhaseIndex with
      | None =>
          throw (TypeError "Cannot read properties of undefined (reading 'criteria')")
      | Some phase =>
          if evaluatePhaseCriteria (Phase.criteria phase) currentMetrics then
            transitionToPhase rolloutId (currentPhaseIndex + 1)
          else if shouldTriggerRollback plan currentMetrics then
            rollbackRollout rolloutId "Phase criteria not met"
          else pauseRollout rolloutId
      end
  end.

(** *** A/B test integration *)

Definition rollout_variant_config (feature : string) (on : bool) : ABTestManager.VariantConfig :=
  {| ABTestManager.features := [(feature, P (Bool on))];
     ABTestManager.ui := [];
     ABTestManager.analytics :=
       {| ABTestManager.trackingEnabled := true;
          ABTestManager.customEvents := [];
          ABTestManager.samplingRate := 1 |} |}.

Definition as_comparator (o : Operator) : ABTestManager.Comparator :=
  match o with
  | gt => ABTestManager.gt
  | lt => ABTestManager.lt
  | eq => ABTestManager.eq
  end.

(** [plan.rollbackConditions.find(c => c.metric === key)?.threshold || d]. *)
Definition threshold_of (plan : RolloutPlan) (key : string) (d : float) : float :=
  match List.find (fun c => String.eqb (Condition.metric c) key)
                  (Plan.rollbackConditions plan) with
  | Some c => or_default (Condition.threshold c) d
  | None => d
  end.

Definition createRolloutABTest (plan : RolloutPlan) : M t unit :=
  match Plan.phases plan with
  | [] =>
      throw (TypeError "Cannot read properties of undefined (reading 'percentage')")
  | phase0 :: _ =>
      let testConfig :=
        {| ABTestManager.Config.name := "Rollout: " +:+ Plan.name plan;
           ABTestManager.Config.description :=
             "A/B test for gradual rollout of " +:+ Plan.feature plan;
           ABTestManager.Config.variants :=
             [ {| ABTestManager.Variant.id := "control";
                  ABTestManager.Variant.name := "Control (Old Version)";
                  ABTestManager.Variant.description :=
                    "Users see the current version";
                  ABTestManager.Variant.weight := 100 - Phase.percentage phase0;
                  ABTestManager.Variant.config :=
                    rollout_variant_config (Plan.feature plan) false;
                  ABTestManager.Variant.isControl := true |};
               {| ABTestManager.Variant.id := "treatment";
                  ABTestManager.Variant.name := "Treatment (New Feature)";
                  ABTestManager.Variant.description :=
                    "Users see the new feature";
                  ABTestManager.Variant.weight := Phase.percentage phase0;
                  ABTestManager.Variant.config :=
                    rollout_variant_config (Plan.feature plan) true;
                  ABTestManager.Variant.isControl := false |} ];
           ABTestManager.Config.targetAudience :=
             {| ABTestManager.criteria :=
                  {| ABTestManager.userType :=
                       Some match targetAudience (Plan.strategy plan) with
                            | audience_beta => ABTestManager.beta
                            | _ => ABTestManager.all
                            end;
                     ABTestManager.experience := None;
                     ABTestManager.platform := None;
                     ABTestManager.location := None;
                     ABTestManager.customAttributes := None |};
                ABTestManager.percentage := 100;
                ABTestManager.exclusions := None |};
           ABTestManager.Config.allocation :=
             {| ABTestManager.type := ABTestManager.gradual;
                ABTestManager.seed := None;
                ABTestManager.gradualRollout :=
                  Some {| ABTestManager.initialPercentage :=
                            Phase.percentage phase0;
                          ABTestManager.incrementPercentage := 10;
                          ABTestManager.incrementInterval := 24;
                          ABTestManager.maxPercentage := 100 |} |};
           (* the literal has no startDate: an invalid date until startTest *)
           ABTestManager.Config.startDate := nan;
           ABTestManager.Config.endDate := None;
           ABTestManager.Config.primaryMetric := "conversion";
           ABTestManager.Config.secondaryMetrics := ["engagement"; "satisfaction"];
           ABTestManager.Config.minimumSampleSize := 1000;
           ABTestManager.Config.confidenceLevel := 0.95;
           ABTestManager.Config.results := None;
           ABTestManager.Config.safeguards :=
             {| ABTestManager.maxErrorRate := threshold_of plan "errorRate" 0.1;
                ABTestManager.maxLatencyIncrease := threshold_of plan "latency" 500;
                ABTestManager.minSuccessRate := 0.95;
                ABTestManager.monitoringInterval := 5 |};
           ABTestManager.Config.rollbackTriggers :=
             map (fun condition =>
                    {| ABTestManager.Trigger.metric := Condition.metric condition;
                       ABTestManager.Trigger.condition :=
                         as_comparator (Condition.operator condition);
                       ABTestManager.Trigger.threshold :=
                         Condition.threshold condition;
                       ABTestManager.Trigger.duration :=
                         Condition.duration condition |})
                 (Plan.rollbackConditions plan) |} in
      do* on_abTestManager (ABTestManager.createTest testConfig) in
      on_abTestManager (ABTestManager.startTest ("rollout-" +:+ Plan.id plan))
  end.

Definition startRollout (rolloutId : string) : M t unit :=
  let* m := this in
  match Dict.get (activeRollouts m) rolloutId with
  | None => not_found rolloutId
  | Some _ =>
      let* now := Date_now in
      do* write_plan rolloutId
            (fun plan => Plan.set_startDate now (Plan.set_status active plan)) in
      let* m := this in
      do* match Dict.get (activeRollouts m) rolloutId with
          | Some plan => createRolloutABTest plan
          | None => ret tt
          end in
      transitionToPhase rolloutId 0
  end.

(** *** Monitoring *)

(** [Object.assign(plan.metrics, currentMetrics)]. *)
Definition assign_metrics (currentMetrics : Dict.t float) (plan : RolloutPlan)
    : RolloutPlan :=
  Plan.set_metrics
    {| numbers := Dict.assign (numbers (Plan.metrics plan)) currentMetrics;
       phaseTransitions := phaseTransitions (Plan.metrics plan) |}
    plan.

(** The body of the loop of [checkActiveRollouts] for one entry. *)
Definition check_rollout (rolloutId : string) : M t unit :=
  let* m := this in
  match Dict.get (activeRollouts m) rolloutId with
  | None => ret tt
  | Some plan =>
      if negb (status_eqb (Plan.status plan) active) then ret tt else
      let* currentMetrics := getCurrentMetrics rolloutId in
      do* write_plan rolloutId (assign_metrics currentMetrics) in
      match List.find
              (fun condition => evaluateRollbackCondition condition currentMetrics)
              (Plan.rollbackConditions plan) with
      | Some condition =>
          rollbackRollout rolloutId
            ("Rollback condition triggered: " +:+ Condition.metric condition)
      | None => ret tt
      end
  end.

Definition checkActiveRollouts : M t unit :=
  let* m := this in
  for_each (Dict.keys (activeRollouts m)) check_rollout.

(** *** Public getters *)

Definition getRolloutStatus (m : t) (rolloutId : string) : option RolloutPlan :=
  Dict.get (activeRollouts m) rolloutId.

Definition getAllActiveRollouts (m : t) : list RolloutPlan :=
  List.filter (fun plan => status_eqb (Plan.status plan) active)
              (Dict.values (activeRollouts m)).

Definition getFeatureFlags (m : t) : list FeatureFlag :=
  Dict.values (featureFlags m).

(** *** Histories of calls *)

(** One entry into the manager: a public method called by the application,
    a [setTimeout] callback that comes due, or a tick of the five-minute
    interval of [startMonitoring]. *)
Inductive Call :=
| call_createRolloutPlan (plan : PlanConfig.t)
| call_startRollout (rolloutId : string)
| call_pauseRollout (rolloutId : string)
| call_resumeRollout (rolloutId : string)
| call_rollbackRollout (rolloutId reason : string)
| call_createFeatureFlag (flag : FlagConfig.t)
| call_isFeatureEnabled (flagName : string) (userContext : option (Dict.t Value))
| call_getFeatureVariant (flagName : string) (userContext : option (Dict.t Value))
| timer_fires (n : nat)
| tick_checkActiveRollouts.

(** The [n]-th pending timer comes due. *)
Definition fire_timer (n : nat) : M t unit :=
  let* m := this in
  match nth_error (timers m) n with
  | None => ret tt
  | Some timer =>
      do* update (fun m => set_timers (take n (timers m) ++ drop (S n) (timers m))%list m) in
      evaluatePhaseTransition (timer_rolloutId timer) (timer_phaseIndex timer)
  end.

Definition perform (c : Call) : M t unit :=
  match c with
  | call_createRolloutPlan plan => do* createRolloutPlan plan in ret tt
  | call_startRollout rolloutId => startRollout rolloutId
  | call_pauseRollout rolloutId => pauseRollout rolloutId
  | call_resumeRollout rolloutId => resumeRollout rolloutId
  | call_rollbackRollout rolloutId reason => rollbackRollout rolloutId reason
  | call_createFeatureFlag flag => do* createFeatureFlag flag in ret tt
  | call_isFeatureEnabled flagName userContext =>
      do* isFeatureEnabled flagName userContext in ret tt
  | call_getFeatureVariant flagName userContext =>
      do* getFeatureVariant flagName userContext in ret tt
  | timer_fires n => fire_timer n
  | tick_checkActiveRollouts => checkActiveRollouts
  end.

Fixpoint run (history : list Call) (w : World) (m : t) : World * t :=
  match history with
  | [] => (w, m)
  | c :: rest => let ws := snd (perform c w m) in run rest (fst ws) (snd ws)
  end.

(** *** What a step leaves alone *)

Definition keeps_rollouts (m m' : t) : Prop :=
  activeRollouts m' = activeRollouts m.

Definition keeps_flags (m m' : t) : Prop :=
  featureFlags m' = featureFlags m.

(** *** The specification's invariant on a plan *)

(** The current percentage is that of the phase at [currentPhase] while
    the plan is active or paused, 0 when rolled back, 100 when completed. *)
Definition percentage_invariant (plan : RolloutPlan) : Prop :=
  match Plan.status plan with
  | active | paused =>
      exists phase,
        nth_error (Plan.phases plan) (Plan.currentPhase plan) = Some phase
        /\ Plan.currentPercentage plan = Phase.percentage phase
  | rolled_back => Plan.currentPercentage plan = 0
  | completed => Plan.currentPercentage plan = 100
  | planned => True
  end.

End RolloutManager.

(** ** Concrete hosts, managers and histories *)

Module Sample.

Local Open Scope float_scope.
Local Open Scope string_scope.

(** [Math.exp] by halving the argument ten times, a Taylor polynomial of
    degree twelve and ten squarings. *)
Definition exp_poly (y : float) : float :=
  1 + y * (1 + y / 2 * (1 + y / 3 * (1 + y / 4 * (1 + y / 5 * (1 + y / 6 *
  (1 + y / 7 * (1 + y / 8 * (1 + y / 9 * (1 + y / 10 * (1 + y / 11 *
  (1 + y / 12))))))))))).

Fixpoint square_times (k : nat) (v : float) : float :=
  match k with
  | O => v
  | S k' => square_times k' (v * v)
  end.

Definition exp_approx (x : float) : float :=
  square_times 10 (exp_poly (x / 1024)).

(** Base 36 of the numbers the sample hosts produce. *)
Definition toString36 (x : float) : string :=
  if PrimFloat.eqb x 1700000000000 then "loyw3v28"
  else if PrimFloat.eqb x 0.25 then "0.9"
  else if PrimFloat.eqb x 0.5 then "0.i"
  else if PrimFloat.eqb x 0.75 then "0.r"
  else "0".

(** A host whose clock stands at 1700000000000 ms, whose [Math.random()]
    returns the given draws and whose storage never fills up; the coercions
    between strings and numbers are not exercised. *)
Definition host_of (draws : nat -> float) : Host :=
  {| Math_random_at := draws;
     Date_now_at := fun _ => 1700000000000;
     Math_exp := exp_approx;
     Number_toString36 := toString36;
     StringToNumber := fun _ => nan;
     NumberToString := fun _ => "NaN";
     setItem_throws := fun _ => false |}.

Definition host (r : float) : Host := host_of (fun _ => r).

Definition world (r : float) : World := {| JS.host := host r; calls := 0 |}.

(** A host whose draws alternate between 0.25 and 0.75. *)
Definition alternating (n : nat) : float :=
  if Nat.even n then 0.25 else 0.75.

Definition alternating_world : World :=
  {| JS.host := host_of alternating; calls := 0 |}.

(** *** An experiment with a control and a treatment *)

Definition no_config : ABTestManager.VariantConfig :=
  {| ABTestManager.features := []; ABTestManager.ui := [];
     ABTestManager.analytics :=
       {| ABTestManager.trackingEnabled := true;
          ABTestManager.customEvents := [];
          ABTestManager.samplingRate := 1 |} |}.

Definition variant (id : string) (weight : float) (isControl : bool)
    : ABTestManager.Variant.t :=
  {| ABTestManager.Variant.id := id; ABTestManager.Variant.name := id;
     ABTestManager.Variant.description := EmptyString;
     ABTestManager.Variant.weight := weight;
     ABTestManager.Variant.config := no_config;
     ABTestManager.Variant.isControl := isControl |}.

Definition everyone : ABTestManager.TargetAudience :=
  {| ABTestManager.criteria :=
       {| ABTestManager.userType := None; ABTestManager.experience := None;
          ABTestManager.platform := None; ABTestManager.location := None;
          ABTestManager.customAttributes := None |};
     ABTestManager.percentage := 100;
     ABTestManager.exclusions := None |}.

Definition experiment (variants : list ABTestManager.Variant.t)
    : ABTestManager.Config.t :=
  {| ABTestManager.Config.name := "checkout";
     ABTestManager.Config.description := EmptyString;
     ABTestManager.Config.variants := variants;
     ABTestManager.Config.targetAudience := everyone;
     ABTestManager.Config.allocation :=
       {| ABTestManager.type := ABTestManager.deterministic;
          ABTestManager.seed := Some "salt";
          ABTestManager.gradualRollout := None |};
     ABTestManager.Config.startDate := 1700000000000;
     ABTestManager.Config.endDate := None;
     ABTestManager.Config.primaryMetric := "conversion";
     ABTestManager.Config.secondaryMetrics := [];
     ABTestManager.Config.minimumSampleSize := 100;
     ABTestManager.Config.confidenceLevel := 0.95;
     ABTestManager.Config.results := None;
     ABTestManager.Config.safeguards :=
       {| ABTestManager.maxErrorRate := 0.05;
          ABTestManager.maxLatencyIncrease := 500;
          ABTestManager.minSuccessRate := 0.9;
          ABTestManager.monitoringInterval := 5 |};
     ABTestManager.Config.rollbackTriggers := [] |}.

Definition two_arms : list ABTestManager.Variant.t :=
  [variant "control" 50 true; variant "treatment" 50 false].

Definition test_in (status : ABTestManager.Status)
    (variants : list ABTestManager.Variant.t) : ABTestManager.Test.t :=
  ABTestManager.Test.set_status status
    (ABTestManager.Test.of_config "exp1" (experiment variants) 1700000000000).

Definition assigned (variantId : string) : ABTestManager.Assignment.t :=
  {| ABTestManager.Assignment.userId := "user-1";
     ABTestManager.Assignment.testId := "exp1";
     ABTestManager.Assignment.variantId := variantId;
     ABTestManager.Assignment.assignedAt := 1700000000000;
     ABTestManager.Assignment.isActive := true |}.

(** The manager of [user-1] holding the experiment [exp1] in the given
    status and the given assignments of the user. *)
Definition ab_manager (status : ABTestManager.Status)
    (variants : list ABTestManager.Variant.t)
    (assignments : list ABTestManager.Assignment.t) : ABTestManager.t :=
  {| ABTestManager.activeTests := {[ "exp1" := test_in status variants ]};
     ABTestManager.userAssignments := {[ "user-1" := assignments ]};
     ABTestManager.testEvents := [];
     ABTestManager.userId := "user-1" |}.

Definition fresh_ab_manager : ABTestManager.t :=
  {| ABTestManager.activeTests := ∅;
     ABTestManager.userAssignments := ∅;
     ABTestManager.testEvents := [];
     ABTestManager.userId := "user-1" |}.

(** *** Three arms *)


(** *** A rollout plan, its flag and its mirrored experiment *)

Definition lenient : RolloutManager.PhaseCriteria :=
  {| RolloutManager.minSuccessRate := 0.9;
     RolloutManager.maxErrorRate := 0.05;
     RolloutManager.maxLatencyIncrease := 500;
     RolloutManager.minUserSatisfaction := None;
     RolloutManager.customMetrics := None |}.

Definition phase (name : string) (percentage duration : float)
    : RolloutManager.Phase.t :=
  {| RolloutManager.Phase.name := name;
     RolloutManager.Phase.percentage := percentage;
     RolloutManager.Phase.duration := duration;
     RolloutManager.Phase.criteria := lenient;
     RolloutManager.Phase.audiences := [] |}.

Definition three_phases : list RolloutManager.Phase.t :=
  [phase "canary" 10 24; phase "half" 50 48; phase "everyone" 100 72].

(** [errorRate > 0.01], a warning. *)
Definition warning_on_errors : RolloutManager.Condition.t :=
  {| RolloutManager.Condition.metric := "errorRate";
     RolloutManager.Condition.threshold := 0.01;
     RolloutManager.Condition.operator := RolloutManager.gt;
     RolloutManager.Condition.duration := 15;
     RolloutManager.Condition.severity := RolloutManager.warning |}.

Definition plan_config (feature : string)
    (phases : list RolloutManager.Phase.t)
    (conditions : list RolloutManager.Condition.t)
    : RolloutManager.PlanConfig.t :=
  {| RolloutManager.PlanConfig.name := "dashboard rollout";
     RolloutManager.PlanConfig.description := EmptyString;
     RolloutManager.PlanConfig.feature := feature;
     RolloutManager.PlanConfig.strategy :=
       {| RolloutManager.type := RolloutManager.gradual;
          RolloutManager.targetAudience := RolloutManager.audience_all;
          RolloutManager.rollbackStrategy := RolloutManager.immediate |};
     RolloutManager.PlanConfig.phases := phases;
     RolloutManager.PlanConfig.startDate := 1700000000000;
     RolloutManager.PlanConfig.estimatedCompletion := 1700600000000;
     RolloutManager.PlanConfig.actualCompletion := None;
     RolloutManager.PlanConfig.rollbackConditions := conditions;
     RolloutManager.PlanConfig.monitoringConfig :=
       {| RolloutManager.metricsToTrack := ["errorRate"];
          RolloutManager.alertThresholds := [];
          RolloutManager.dashboardUrl := None;
          RolloutManager.slackChannel := None;
          RolloutManager.emailList := None |} |}.

Definition flag_variant (id : string) (weight : float)
    : RolloutManager.FlagVariant.t :=
  {| RolloutManager.FlagVariant.id := id;
     RolloutManager.FlagVariant.name := id;
     RolloutManager.FlagVariant.weight := weight;
     RolloutManager.FlagVariant.config := [] |}.

(** An enabled flag without audiences or conditions. *)
Definition flag_config (name : string) (rolloutPercentage : float)
    (variants : option (list RolloutManager.FlagVariant.t))
    : RolloutManager.FlagConfig.t :=
  {| RolloutManager.FlagConfig.name := name;
     RolloutManager.FlagConfig.description := EmptyString;
     RolloutManager.FlagConfig.enabled := true;
     RolloutManager.FlagConfig.rolloutPercentage := rolloutPercentage;
     RolloutManager.FlagConfig.targetAudiences := [];
     RolloutManager.FlagConfig.conditions := [];
     RolloutManager.FlagConfig.variants := variants |}.

(** A rollout manager that has just been constructed around the given
    A/B test manager, with nothing loaded from storage. *)
Definition rollout_manager (ab : ABTestManager.t) : RolloutManager.t :=
  {| RolloutManager.abTestManager := ab;
     RolloutManager.activeRollouts := [];
     RolloutManager.featureFlags := [];
     RolloutManager.userId := "user-1";
     RolloutManager.timers := [] |}.

(** The id every sample creation generates: the clock in base 36 followed
    by the draw 0.75 in base 36 without its leading [0.]. *)
Definition generated_id : string := "loyw3v28r".

(** An A/B test manager that loaded an active test named after the rollout
    from storage. *)
Definition ab_manager_with_mirror : ABTestManager.t :=
  {| ABTestManager.activeTests :=
       {[ "rollout-" +:+ generated_id :=
            ABTestManager.Test.set_status ABTestManager.active
              (ABTestManager.Test.of_config ("rollout-" +:+ generated_id)
                 (experiment two_arms) 1700000000000) ]};
     ABTestManager.userAssignments := ∅;
     ABTestManager.testEvents := [];
     ABTestManager.userId := "user-1" |}.

(** A flag is created, then a plan that targets it. *)
Definition flag_then_plan : list RolloutManager.Call :=
  [RolloutManager.call_createFeatureFlag (flag_config "new-dashboard" 100 None);
   RolloutManager.call_createRolloutPlan
     (plan_config generated_id three_phases [warning_on_errors])].

End Sample.

(** ** Conditions the further properties are phrased with *)

Module Conditions.

(** Whatever [m] returns satisfies [Q]. *)
Definition ensures {S A : Type} (Q : A -> Prop) (m : M S A) : Prop :=
  forall w s a, completion_of m w s = Normal a -> Q a.

(** An event that carries the user of the manager and the variant of the
    user's active assignment for its test. *)
Definition recorded_for (m : ABTestManager.t) (e : ABTestManager.Event.t) : Prop :=
  ABTestManager.Event.userId e = ABTestManager.userId m
  /\ exists a,
       ABTestManager.getUserAssignment m (ABTestManager.Event.testId e) = Some a
       /\ ABTestManager.Assignment.variantId a = ABTestManager.Event.variantId e.

(** A step that appends assignments and appends events that are recorded
    for the manager it leaves. *)
Definition grows_recorded (m m' : ABTestManager.t) : Prop :=
  ABTestManager.grows m m'
  /\ exists later,
       ABTestManager.testEvents m' = (ABTestManager.testEvents m ++ later)%list
       /\ Forall (recorded_for m') later.

(** Whether a reading trips the monitor of a test: one of the three
    safeguards, or the first rollback trigger that the reading meets. *)
Definition safeguard_tripped (test : ABTestManager.Test.t)
    (reading : Dict.t float) : bool :=
  let safeguards := ABTestManager.Test.safeguards test in
  ABTestManager.exceeds reading "errorRate"
    (ABTestManager.maxErrorRate safeguards)
  || ABTestManager.exceeds reading "latency"
       (ABTestManager.maxLatencyIncrease safeguards)
  || ABTestManager.below reading "successRate"
       (ABTestManager.minSuccessRate safeguards)
  || match List.find
             (fun trigger =>
                ABTestManager.evaluateTriggerCondition
                  (Dict.get reading (ABTestManager.Trigger.metric trigger))
                  trigger)
             (ABTestManager.Test.rollbackTriggers test) with
     | Some _ => true
     | None => false
     end.

(** A step that leaves the tests, the assignments and the events alone
    except for the test stored under [testId]. *)
Definition only_test (testId : string) (m m' : ABTestManager.t) : Prop :=
  ABTestManager.userAssignments m' = ABTestManager.userAssignments m
  /\ ABTestManager.testEvents m' = ABTestManager.testEvents m
  /\ ABTestManager.userId m' = ABTestManager.userId m
  /\ forall k, k <> testId ->
       ABTestManager.activeTests m' !! k = ABTestManager.activeTests m !! k.

(** A step that leaves the plan stored under [rolloutId] as it is. *)
Definition same_plan_at (rolloutId : string) (m m' : RolloutManager.t) : Prop :=
  Dict.get (RolloutManager.activeRollouts m') rolloutId
  = Dict.get (RolloutManager.activeRollouts m) rolloutId.

(** A step that removes no plan and no flag. *)
Definition keeps_entries (m m' : RolloutManager.t) : Prop :=
  (forall k, is_Some (Dict.get (RolloutManager.activeRollouts m) k) ->
             is_Some (Dict.get (RolloutManager.activeRollouts m') k))
  /\ (forall k, is_Some (Dict.get (RolloutManager.featureFlags m) k) ->
                is_Some (Dict.get (RolloutManager.featureFlags m') k)).

(** A method that throws whatever the host and the fields are. *)
Definition always_throws {S A : Type} (m : M S A) : Prop :=
  forall w s, exists e, completion_of m w s = Throw e.

(** A step that leaves the A/B test manager of the rollout manager alone. *)
Definition keeps_tests (m m' : RolloutManager.t) : Prop :=
  RolloutManager.abTestManager m' = RolloutManager.abTestManager m.

(** A step that leaves the flags and the user of the rollout manager
    alone: what the evaluation of a flag reads. *)
Definition keeps_flag_inputs (m m' : RolloutManager.t) : Prop :=
  RolloutManager.featureFlags m' = RolloutManager.featureFlags m
  /\ RolloutManager.userId m' = RolloutManager.userId m.

(** A step that leaves the plan stored under [rolloutId] as it is when
    that plan is not active. *)
Definition idle_plan_stays (rolloutId : string) (m m' : RolloutManager.t) : Prop :=
  forall plan,
    Dict.get (RolloutManager.activeRollouts m) rolloutId = Some plan ->
    RolloutManager.Plan.status plan <> RolloutManager.active ->
    Dict.get (RolloutManager.activeRollouts m') rolloutId = Some plan.

(** The entries into the rollout manager that the application does not
    make to drive a plan: timers coming due, monitor ticks, and the calls
    about flags. *)
Definition unattended (c : RolloutManager.Call) : bool :=
  match c with
  | RolloutManager.timer_fires _
  | RolloutManager.tick_checkActiveRollouts
  | RolloutManager.call_createFeatureFlag _
  | RolloutManager.call_isFeatureEnabled _ _
  | RolloutManager.call_getFeatureVariant _ _ => true
  | _ => false
  end.

End Conditions.

(** ** Further managers and histories *)

Module Cases.

Local Open Scope float_scope.
Local Open Scope string_scope.

(** An audience of returning users only. *)
Definition returning_users : ABTestManager.TargetAudience :=
  {| ABTestManager.criteria :=
       {| ABTestManager.userType := Some ABTestManager.returning;
          ABTestManager.experience := None;
          ABTestManager.platform := None; ABTestManager.location := None;
          ABTestManager.customAttributes := None |};
     ABTestManager.percentage := 100;
     ABTestManager.exclusions := None |}.

(** The sample experiment, active, for the given audience. *)
Definition test_for (audience : ABTestManager.TargetAudience)
    : ABTestManager.Test.t :=
  let test := Sample.test_in ABTestManager.active Sample.two_arms in
  {| ABTestManager.Test.id := ABTestManager.Test.id test;
     ABTestManager.Test.name := ABTestManager.Test.name test;
     ABTestManager.Test.description := ABTestManager.Test.description test;
     ABTestManager.Test.status := ABTestManager.Test.status test;
     ABTestManager.Test.variants := ABTestManager.Test.variants test;
     ABTestManager.Test.targetAudience := audience;
     ABTestManager.Test.allocation := ABTestManager.Test.allocation test;
     ABTestManager.Test.startDate := ABTestManager.Test.startDate test;
     ABTestManager.Test.endDate := ABTestManager.Test.endDate test;
     ABTestManager.Test.createdDate := ABTestManager.Test.createdDate test;
     ABTestManager.Test.primaryMetric := ABTestManager.Test.primaryMetric test;
     ABTestManager.Test.secondaryMetrics :=
       ABTestManager.Test.secondaryMetrics test;
     ABTestManager.Test.minimumSampleSize :=
       ABTestManager.Test.minimumSampleSize test;
     ABTestManager.Test.confidenceLevel :=
       ABTestManager.Test.confidenceLevel test;
     ABTestManager.Test.results := ABTestManager.Test.results test;
     ABTestManager.Test.safeguards := ABTestManager.Test.safeguards test;
     ABTestManager.Test.rollbackTriggers :=
       ABTestManager.Test.rollbackTriggers test;
     ABTestManager.Test.monitoring := ABTestManager.Test.monitoring test |}.

(** The sample experiment in the given status, with one rollback
    trigger: [customMetric > 10]. *)
Definition triggered_test (status : ABTestManager.Status)
    : ABTestManager.Test.t :=
  let test := Sample.test_in status Sample.two_arms in
  {| ABTestManager.Test.id := ABTestManager.Test.id test;
     ABTestManager.Test.name := ABTestManager.Test.name test;
     ABTestManager.Test.description := ABTestManager.Test.description test;
     ABTestManager.Test.status := ABTestManager.Test.status test;
     ABTestManager.Test.variants := ABTestManager.Test.variants test;
     ABTestManager.Test.targetAudience :=
       ABTestManager.Test.targetAudience test;
     ABTestManager.Test.allocation := ABTestManager.Test.allocation test;
     ABTestManager.Test.startDate := ABTestManager.Test.startDate test;
     ABTestManager.Test.endDate := ABTestManager.Test.endDate test;
     ABTestManager.Test.createdDate := ABTestManager.Test.createdDate test;
     ABTestManager.Test.primaryMetric := ABTestManager.Test.primaryMetric test;
     ABTestManager.Test.secondaryMetrics :=
       ABTestManager.Test.secondaryMetrics test;
     ABTestManager.Test.minimumSampleSize :=
       ABTestManager.Test.minimumSampleSize test;
     ABTestManager.Test.confidenceLevel :=
       ABTestManager.Test.confidenceLevel test;
     ABTestManager.Test.results := ABTestManager.Test.results test;
     ABTestManager.Test.safeguards := ABTestManager.Test.safeguards test;
     ABTestManager.Test.rollbackTriggers :=
       [{| ABTestManager.Trigger.metric := "customMetric";
           ABTestManager.Trigger.condition := ABTestManager.gt;
           ABTestManager.Trigger.threshold := 10;
           ABTestManager.Trigger.duration := 5 |}];
     ABTestManager.Test.monitoring := ABTestManager.Test.monitoring test |}.

(** The manager of [user-1] that holds that experiment. *)
Definition manager_of (test : ABTestManager.Test.t) : ABTestManager.t :=
  {| ABTestManager.activeTests := {[ "exp1" := test ]};
     ABTestManager.userAssignments := ∅;
     ABTestManager.testEvents := [];
     ABTestManager.userId := "user-1" |}.

Definition manager_for (audience : ABTestManager.TargetAudience)
    : ABTestManager.t :=
  {| ABTestManager.activeTests := {[ "exp1" := test_for audience ]};
     ABTestManager.userAssignments := ∅;
     ABTestManager.testEvents := [];
     ABTestManager.userId := "user-1" |}.

(** A conversion of [user-1] in the treatment of [exp1]. *)
Definition conversion (value : float) : ABTestManager.Event.t :=
  {| ABTestManager.Event.userId := "user-1";
     ABTestManager.Event.testId := "exp1";
     ABTestManager.Event.variantId := "treatment";
     ABTestManager.Event.eventType := "conversion";
     ABTestManager.Event.eventValue := Some value;
     ABTestManager.Event.metadata := None;
     ABTestManager.Event.timestamp := 1700000000000 |}.

(** The manager of [user-1], assigned to the treatment, after three
    conversions. *)
Definition manager_with_conversions : ABTestManager.t :=
  ABTestManager.set_testEvents [conversion 2; conversion 3; conversion 7]
    (Sample.ab_manager ABTestManager.active Sample.two_arms
       [Sample.assigned "treatment"]).

(** The user asks for an assignment, converts twice, and the test is
    stopped. *)
Definition assign_convert_stop : list ABTestManager.Call :=
  [ABTestManager.call_getAssignment "exp1";
   ABTestManager.call_trackEvent "exp1" "conversion" (Some 2) None;
   ABTestManager.call_trackEvent "exp1" "conversion" (Some 3) None;
   ABTestManager.call_stopTest "exp1" "done"].


(** The plan [r1] for the given feature, in the given status. *)
Definition plan_in (status : RolloutManager.Status) (feature : string)
    (phases : list RolloutManager.Phase.t) : RolloutManager.Plan.t :=
  RolloutManager.Plan.set_status status
    (RolloutManager.Plan.of_config "r1"
       (Sample.plan_config feature phases [Sample.warning_on_errors])).

(** The flag named [new-dashboard], stored under the id [f1]. *)
Definition stored_flag : RolloutManager.Flag.t :=
  RolloutManager.Flag.of_config "f1" (Sample.flag_config "new-dashboard" 100 None).

Definition timer_of_r1 : RolloutManager.Timer :=
  {| RolloutManager.timer_rolloutId := "r1";
     RolloutManager.timer_phaseIndex := 0;
     RolloutManager.timer_delay := 86400000 |}.

(** A rollout manager that holds the plan [r1], the flag [f1] and one
    pending timer of the plan; its A/B test manager holds no test. *)
Definition manager_with (plan : RolloutManager.Plan.t) : RolloutManager.t :=
  {| RolloutManager.abTestManager := Sample.fresh_ab_manager;
     RolloutManager.activeRollouts := [("r1", plan)];
     RolloutManager.featureFlags := [("f1", stored_flag)];
     RolloutManager.userId := "user-1";
     RolloutManager.timers := [timer_of_r1] |}.

(** The timer comes due, the monitor ticks, the flag is asked for. *)
Definition timer_tick_flag : list RolloutManager.Call :=
  [RolloutManager.timer_fires 0;
   RolloutManager.tick_checkActiveRollouts;
   RolloutManager.call_isFeatureEnabled "new-dashboard" None].

(** A condition on a field of the plan's metrics that no reading holds. *)
Definition critical_on_latency : RolloutManager.Condition.t :=
  {| RolloutManager.Condition.metric := "averageLatency";
     RolloutManager.Condition.threshold := 0;
     RolloutManager.Condition.operator := RolloutManager.gt;
     RolloutManager.Condition.duration := 15;
     RolloutManager.Condition.severity := RolloutManager.critical |}.

End Cases.

(** * Properties *)

(** ** Reasoning about methods *)

Module Methods.

Section Preservation.
Context {S : Type} (R : S -> S -> Prop) `{!PreOrder R}.

Lemma preserves_ret {A : Type} (a : A) : preserves R (ret a).
Proof. intros w s. reflexivity. Qed.

Lemma preserves_throw {A : Type} (e : Exception) : preserves R (throw (A := A) e).
Proof. intros w s. reflexivity. Qed.

Lemma preserves_bind {A B : Type} (m : M S A) (k : A -> M S B) :
  preserves R m -> (forall a, preserves R (k a)) -> preserves R (bind m k).
Proof.
  intros Hm Hk w s. specialize (Hm w s).
  unfold state_after, bind in *.
  destruct (m w s) as [[a | e] [w' s']]; simpl in *.
  - etransitivity; [exact Hm | apply Hk].
  - exact Hm.
Qed.

Lemma preserves_this : preserves R this.
Proof. intros w s. reflexivity. Qed.

Lemma preserves_the_host : preserves R the_host.
Proof. intros w s. reflexivity. Qed.

Lemma preserves_Math_random : preserves R Math_random.
Proof. intros w s. reflexivity. Qed.

Lemma preserves_Date_now : preserves R Date_now.
Proof. intros w s. reflexivity. Qed.

Lemma preserves_setItem (key : string) : preserves R (localStorage_setItem key).
Proof. intros w s. reflexivity. Qed.

Lemma preserves_update (f : S -> S) :
  (forall s, R s (f s)) -> preserves R (update f).
Proof. intros Hf w s. apply Hf. Qed.

Lemma preserves_detached {A : Type} (m : M S A) :
  preserves R m -> preserves R (detached m).
Proof. intros Hm w s. apply Hm. Qed.

Lemma preserves_for_each {A : Type} (l : list A) (body : A -> M S unit) :
  (forall a, preserves R (body a)) -> preserves R (for_each l body).
Proof.
  intros Hbody. induction l as [| a l IH]; simpl.
  - apply preserves_ret.
  - apply preserves_bind; [apply Hbody | intros _; exact IH].
Qed.

(** What follows a step maintains [R] from the state the step left. *)
Lemma rest_preserves {A B : Type} (m : M S A) (k : A -> M S B) (w : World) (s : S) :
  (forall a, preserves R (k a)) ->
  R (state_after m w s) (state_after (bind m k) w s).
Proof.
  intros Hk. unfold state_after, bind.
  destruct (m w s) as [[a | e] [w' s']]; simpl.
  - apply Hk.
  - reflexivity.
Qed.

Lemma preserves_on_field {T A : Type} (proj : S -> T) (inj : T -> S -> S)
    (m : M T A) :
  (forall t s, R s (inj t s)) -> preserves R (on_field proj inj m).
Proof.
  intros Hinj w s. unfold state_after, on_field.
  destruct (m w (proj s)) as [c [w' t']]. simpl. apply Hinj.
Qed.

End Preservation.

Lemma state_after_bind {S A B : Type} (m : M S A) (k : A -> M S B)
    (w : World) (s : S) :
  state_after (bind m k) w s
  = match m w s with
    | (Normal a, (w', s')) => state_after (k a) w' s'
    | (Throw _, (_, s')) => s'
    end.
Proof.
  unfold state_after, bind.
  destruct (m w s) as [[a | e] [w' s']]; reflexivity.
Qed.

(** *** Methods that always return *)

Section NeverThrows.
Context {S : Type}.

Lemma never_throws_ret {A : Type} (a : A) : never_throws (S := S) (ret a).
Proof. intros w s. exists a. reflexivity. Qed.

Lemma never_throws_bind {A B : Type} (m : M S A) (k : A -> M S B) :
  never_throws m -> (forall a, never_throws (k a)) -> never_throws (bind m k).
Proof.
  intros Hm Hk w s. destruct (Hm w s) as [a Ha].
  unfold completion_of, bind in *.
  destruct (m w s) as [c [w' s']]. simpl in Ha. subst c. apply Hk.
Qed.

Lemma never_throws_this : never_throws (S := S) this.
Proof. intros w s. exists s. reflexivity. Qed.

Lemma never_throws_the_host : never_throws (S := S) the_host.
Proof. intros w s. eexists. reflexivity. Qed.

Lemma never_throws_Math_random : never_throws (S := S) Math_random.
Proof. intros w s. eexists. reflexivity. Qed.

Lemma never_throws_Date_now : never_throws (S := S) Date_now.
Proof. intros w s. eexists. reflexivity. Qed.

Lemma never_throws_update (f : S -> S) : never_throws (update f).
Proof. intros w s. exists tt. reflexivity. Qed.

Lemma never_throws_detached {A : Type} (m : M S A) : never_throws (detached m).
Proof. intros w s. exists tt. reflexivity. Qed.

End NeverThrows.

(** A method that maintains equality of the fields leaves them as they
    were, whatever it returns. *)
Lemma unchanged {S A : Type} (m : M S A) (w : World) (s : S) :
  preserves eq m -> exists c w', m w s = (c, (w', s)).
Proof.
  intros Hm. specialize (Hm w s). unfold state_after in Hm.
  destruct (m w s) as [c [w' s']]. simpl in Hm. subst s'. eauto.
Qed.

End Methods.

Create HintDb preserve discriminated.

#[global] Hint Resolve Methods.preserves_ret Methods.preserves_throw
  Methods.preserves_this Methods.preserves_the_host
  Methods.preserves_Math_random Methods.preserves_Date_now
  Methods.preserves_setItem Methods.preserves_detached : preserve.

#[global] Hint Extern 1 (PreOrder _) => exact _ : preserve.

Create HintDb returns discriminated.

#[global] Hint Resolve Methods.never_throws_ret Methods.never_throws_this
  Methods.never_throws_the_host Methods.never_throws_Math_random
  Methods.never_throws_Date_now Methods.never_throws_update
  Methods.never_throws_detached : returns.

(** Walks through the binds and branches of a method body that cannot
    throw. *)
Ltac returns :=
  repeat first
    [ match goal with |- forall _, _ => intro end
    | simple apply Methods.never_throws_bind
    | match goal with
      | |- never_throws (match ?x with _ => _ end) => destruct x
      end
    | solve [auto with returns] ].

(** Walks through the binds and branches of a method body. *)
Ltac preserve :=
  repeat first
    [ match goal with |- PreOrder _ => exact _ end
    | match goal with |- forall _, _ => intro end
    | simple apply Methods.preserves_bind
    | match goal with
      | |- preserves _ (match ?x with _ => _ end) => destruct x
      end
    | solve [auto with preserve] ].

(** ** Dictionaries *)

Module DictFacts.

Lemma get_set_eq {V : Type} (d : Dict.t V) (k : string) (v : V) :
  Dict.get (Dict.set d k v) k = Some v.
Proof.
  induction d as [| [k' v'] d IH]; simpl.
  - rewrite String.eqb_refl. reflexivity.
  - destruct (String.eqb k' k) eqn:E; simpl; rewrite ?E, ?String.eqb_refl; auto.
Qed.

Lemma get_set_ne {V : Type} (d : Dict.t V) (k k' : string) (v : V) :
  k <> k' -> Dict.get (Dict.set d k v) k' = Dict.get d k'.
Proof.
  intros Hne. induction d as [| [k0 v0] d IH]; simpl.
  - destruct (String.eqb_spec k k'); [contradiction | reflexivity].
  - destruct (String.eqb_spec k0 k) as [-> | Hk]; simpl.
    + destruct (String.eqb_spec k k'); [contradiction | reflexivity].
    + destruct (String.eqb k0 k'); [reflexivity | exact IH].
Qed.

Lemma get_set {V : Type} (d : Dict.t V) (k k' : string) (v : V) :
  Dict.get (Dict.set d k v) k' =
  if String.eqb k k' then Some v else Dict.get d k'.
Proof.
  destruct (String.eqb_spec k k') as [-> | Hne].
  - apply get_set_eq.
  - apply get_set_ne, Hne.
Qed.

End DictFacts.
(** ** ABTestManager *)

Module ABTestManagerFacts.

Import ABTestManager.

#[global] Instance grows_preorder : PreOrder grows.
Proof.
  split.
  - intros m. repeat split; exists []; rewrite app_nil_r; reflexivity.
  - intros m1 m2 m3 (Hu1 & [a1 Ha1] & [e1 He1]) (Hu2 & [a2 Ha2] & [e2 He2]).
    rewrite Hu1 in Ha2. repeat split.
    + congruence.
    + exists (a1 ++ a2)%list. rewrite Ha2, Ha1, app_assoc. reflexivity.
    + exists (e1 ++ e2)%list. rewrite He2, He1, app_assoc. reflexivity.
Qed.

Lemma find_app_Some {A : Type} (f : A -> bool) (l more : list A) (a : A) :
  List.find f l = Some a -> List.find f (l ++ more) = Some a.
Proof.
  induction l as [| x l IH]; simpl; [discriminate |].
  destruct (f x); auto.
Qed.

Lemma find_app_None {A : Type} (f : A -> bool) (l more : list A) :
  List.find f l = None -> List.find f (l ++ more) = List.find f more.
Proof.
  induction l as [| x l IH]; simpl; [reflexivity |].
  destruct (f x); [discriminate | auto].
Qed.

Lemma grows_getUserAssignment (m m' : t) (testId : string) (a : UserAssignment) :
  grows m m' ->
  getUserAssignment m testId = Some a -> getUserAssignment m' testId = Some a.
Proof.
  intros (Hu & [more Hmore] & _). unfold getUserAssignment.
  rewrite Hu, Hmore. apply find_app_Some.
Qed.

(** *** Methods that only read the fields *)

Section ReadOnly.
Context (R : t -> t -> Prop) `{!PreOrder R}.

Lemma lift_preserves {A : Type} (c : Completion A) : preserves R (lift c).
Proof. intros w m. reflexivity. Qed.

Lemma generateId_preserves : preserves R generateId.
Proof. unfold generateId. preserve. Qed.

Lemma validateTestConfig_preserves test : preserves R (validateTestConfig test).
Proof. unfold validateTestConfig. preserve. Qed.

Lemma first_variant_id_preserves variants : preserves R (first_variant_id variants).
Proof. unfold first_variant_id. preserve. Qed.

Lemma isUserEligible_preserves test : preserves R (isUserEligible test).
Proof. unfold isUserEligible. preserve. Qed.

Lemma randomAssignment_preserves variants : preserves R (randomAssignment variants).
Proof.
  unfold randomAssignment. pose proof first_variant_id_preserves. preserve.
Qed.

Lemma deterministicAssignment_preserves variants seed :
  preserves R (deterministicAssignment variants seed).
Proof.
  unfold deterministicAssignment. pose proof first_variant_id_preserves.
  preserve.
Qed.

Lemma gradualAssignment_preserves test : preserves R (gradualAssignment test).
Proof.
  unfold gradualAssignment.
  pose proof first_variant_id_preserves. pose proof randomAssignment_preserves.
  preserve.
Qed.

Lemma assignUserToVariant_preserves test : preserves R (assignUserToVariant test).
Proof.
  unfold assignUserToVariant.
  pose proof randomAssignment_preserves.
  pose proof deterministicAssignment_preserves.
  pose proof gradualAssignment_preserves.
  preserve.
Qed.

Lemma calculateResults_preserves testId : preserves R (calculateResults testId).
Proof.
  unfold calculateResults, not_found. pose proof @lift_preserves. preserve.
Qed.

Lemma getCurrentMetrics_preserves testId : preserves R (getCurrentMetrics testId).
Proof. unfold getCurrentMetrics. preserve. Qed.

End ReadOnly.

(** *** Methods that write: tests are replaced, assignments and events are
    appended *)

Lemma set_activeTests_grows (f : t -> gmap string ABTest) :
  preserves grows (update (fun m => set_activeTests (f m) m)).
Proof.
  apply Methods.preserves_update; try exact _; intros m.
  repeat split; exists []; rewrite app_nil_r; reflexivity.
Qed.

Lemma write_test_grows testId f : preserves grows (write_test testId f).
Proof.
  apply Methods.preserves_update; try exact _; intros m.
  destruct (activeTests m !! testId); [| reflexivity].
  repeat split; exists []; rewrite app_nil_r; reflexivity.
Qed.

Lemma recordAssignment_grows testId variantId :
  preserves grows (recordAssignment testId variantId).
Proof.
  unfold recordAssignment, persistAssignment. preserve.
  apply Methods.preserves_update; try exact _; intros m. repeat split.
  - eexists. simpl. rewrite lookup_insert_eq. reflexivity.
  - exists []. rewrite app_nil_r. reflexivity.
Qed.

Lemma trackEvent_grows testId eventType eventValue metadata :
  preserves grows (trackEvent testId eventType eventValue metadata).
Proof.
  unfold trackEvent, persistEvent. preserve.
  apply Methods.preserves_update; try exact _; intros m. repeat split.
  - exists []. rewrite app_nil_r. reflexivity.
  - eexists. reflexivity.
Qed.

Lemma getAssignment_grows testId : preserves grows (getAssignment testId).
Proof.
  unfold getAssignment.
  pose proof (isUserEligible_preserves grows).
  pose proof (assignUserToVariant_preserves grows).
  pose proof recordAssignment_grows.
  preserve.
Qed.

Lemma createTest_grows testConfig : preserves grows (createTest testConfig).
Proof.
  unfold createTest, persistTest.
  pose proof (generateId_preserves grows).
  pose proof (validateTestConfig_preserves grows).
  pose proof set_activeTests_grows.
  preserve.
Qed.

Lemma startTest_grows testId : preserves grows (startTest testId).
Proof.
  unfold startTest, startMonitoring, persistTest, not_found.
  pose proof write_test_grows. preserve.
Qed.

Lemma stopTest_grows testId reason : preserves grows (stopTest testId reason).
Proof.
  unfold stopTest, stopMonitoring, persistTest, not_found.
  pose proof (calculateResults_preserves grows). pose proof write_test_grows.
  preserve.
Qed.

Lemma checkSafeguards_grows testId : preserves grows (checkSafeguards testId).
Proof.
  unfold checkSafeguards, triggerRollback.
  pose proof (getCurrentMetrics_preserves grows). pose proof write_test_grows.
  preserve.
Qed.

Lemma perform_grows (c : Call) : preserves grows (perform c).
Proof.
  destruct c; simpl.
  - pose proof createTest_grows. preserve.
  - apply startTest_grows.
  - apply stopTest_grows.
  - pose proof getAssignment_grows. preserve.
  - apply trackEvent_grows.
  - apply checkSafeguards_grows.
Qed.

Lemma run_grows (history : list Call) (w : World) (m : t) :
  grows m (snd (run history w m)).
Proof.
  revert w m. induction history as [| c rest IH]; intros w m; simpl.
  - reflexivity.
  - etransitivity; [apply (perform_grows c w m) | apply IH].
Qed.

(** *** What [getAssignment] leaves behind *)

Lemma getAssignment_Some (w w' : World) (m m' : t) (testId v : string) :
  getAssignment testId w m = (Normal (Some v), (w', m')) ->
  exists a, getUserAssignment m' testId = Some a /\ Assignment.variantId a = v.
Proof.
  unfold getAssignment. unfold bind at 1, this. simpl.
  destruct (activeTests m !! testId) as [test |]; [| discriminate].
  destruct (negb (status_eqb (Test.status test) active)); [discriminate |].
  destruct (getUserAssignment m testId) as [a |] eqn:Ha.
  - intros [= <- <- <-]. eauto.
  - unfold bind at 1.
    destruct (Methods.unchanged (isUserEligible test) w m
                (isUserEligible_preserves Logic.eq test)) as (c1 & w1 & E1).
    rewrite E1. destruct c1 as [[|] | e1]; simpl; try discriminate.
    unfold bind at 1.
    destruct (Methods.unchanged (assignUserToVariant test) w1 m
                (assignUserToVariant_preserves Logic.eq test)) as (c2 & w2 & E2).
    rewrite E2. destruct c2 as [variantId | e2]; simpl; [| discriminate].
    intros [= <- <- <-].
    eexists. split.
    + unfold getUserAssignment in *. simpl.
      rewrite lookup_insert_eq. simpl.
      rewrite find_app_None by exact Ha.
      simpl. rewrite String.eqb_refl. reflexivity.
    + reflexivity.
Qed.

Lemma getAssignment_records (w : World) (m : t) (testId v : string) :
  completion_of (getAssignment testId) w m = Normal (Some v) ->
  exists a,
    getUserAssignment (state_after (getAssignment testId) w m) testId = Some a
    /\ Assignment.variantId a = v.
Proof.
  unfold completion_of, state_after.
  destruct (getAssignment testId w m) as [c [w' m']] eqn:E. simpl.
  intros ->. eapply getAssignment_Some, E.
Qed.

(** *** The tables of [calculateResults] *)

Lemma per_variant_fold (events : list ABTestEvent) (primaryMetric : string)
    (variants : list ABVariant) (acc : Dict.t nat * Dict.t VariantMetrics)
    (id : string) :
  Dict.get
    (snd (fold_left
            (fun acc variant =>
               let variantEvents :=
                 List.filter
                   (fun e => String.eqb (Event.variantId e) (Variant.id variant))
                   events in
               let uniqueUsers := distinct_users variantEvents in
               (Dict.set_primitive (fst acc) (Variant.id variant) uniqueUsers,
                Dict.set (snd acc) (Variant.id variant)
                         (calculateVariantMetrics variantEvents primaryMetric)))
            variants acc))
    id
  = if existsb (fun v => String.eqb (Variant.id v) id) variants
    then Some (calculateVariantMetrics
                 (List.filter (fun e => String.eqb (Event.variantId e) id) events)
                 primaryMetric)
    else Dict.get (snd acc) id.
Proof.
  revert acc. induction variants as [| x rest IH]; intros acc; simpl.
  - reflexivity.
  - rewrite IH. simpl. rewrite DictFacts.get_set.
    destruct (String.eqb_spec (Variant.id x) id) as [-> | Hne]; simpl;
      destruct (existsb _ rest); reflexivity.
Qed.

Lemma per_variant_get (events : list ABTestEvent) (primaryMetric : string)
    (variants : list ABVariant) (v : ABVariant) :
  In v variants ->
  Dict.get (snd (per_variant events primaryMetric variants)) (Variant.id v)
  = Some (calculateVariantMetrics
            (List.filter
               (fun e => String.eqb (Event.variantId e) (Variant.id v)) events)
            primaryMetric).
Proof.
  intros Hin. unfold per_variant. rewrite per_variant_fold.
  replace (existsb _ variants) with true; [reflexivity |].
  symmetry. apply existsb_exists. exists v. split; [exact Hin |].
  apply String.eqb_refl.
Qed.

(** With fewer than two variants one of the two arms is missing. *)
Lemma an_arm_missing (variants : list ABVariant) :
  length variants < 2 ->
  List.find Variant.isControl variants = None
  \/ List.find (fun v => negb (Variant.isControl v)) variants = None.
Proof.
  destruct variants as [| v [| v' rest]]; simpl; intros Hlen.
  - left. reflexivity.
  - destruct (Variant.isControl v); simpl; auto.
  - lia.
Qed.

Lemma generateRecommendation_arms (significance : SignificanceTest)
    (metrics : Dict.t VariantMetrics) (test : ABTest) (c tr : ABVariant)
    (mc mt : VariantMetrics) :
  List.find Variant.isControl (Test.variants test) = Some c ->
  List.find (fun v => negb (Variant.isControl v)) (Test.variants test) = Some tr ->
  Dict.get metrics (Variant.id c) = Some mc ->
  Dict.get metrics (Variant.id tr) = Some mt ->
  generateRecommendation significance metrics test
  = Normal (if negb (significant significance) then inconclusive
            else if JS.gt (averageValue mt) (averageValue mc) then winner
            else rollback).
Proof.
  intros Hc Ht Hmc Hmt. unfold generateRecommendation.
  rewrite Hc, Ht, Hmc, Hmt.
  destruct (negb (significant significance)); [reflexivity |].
  destruct (JS.gt _ _); reflexivity.
Qed.

Lemma performSignificanceTest_arms (h : Host) (metrics : Dict.t VariantMetrics)
    (variants : list ABVariant) (c tr : ABVariant) (mc mt : VariantMetrics) :
  List.find Variant.isControl variants = Some c ->
  List.find (fun v => negb (Variant.isControl v)) variants = Some tr ->
  Dict.get metrics (Variant.id c) = Some mc ->
  Dict.get metrics (Variant.id tr) = Some mt ->
  exists significance,
    performSignificanceTest h metrics variants = Normal significance
    /\ zScore significance
       = (let pooledSE :=
            Math_sqrt (Math_pow2 (standardError mc)
                       + Math_pow2 (standardError mt)) in
          if JS.gt pooledSE 0
          then (averageValue mt - averageValue mc) / pooledSE else 0)%float
    /\ pValue significance = calculatePValue h (Math_abs (zScore significance))
    /\ significant significance = JS.lt (pValue significance) 0.05.
Proof.
  intros Hc Ht Hmc Hmt. unfold performSignificanceTest.
  rewrite Hc, Ht, Hmc, Hmt. eexists. split; [reflexivity |].
  repeat split.
Qed.

(** [calculateResults] on a known test, with its binds carried out. *)
Lemma calculateResults_known (w : World) (m : ABTestManager.t)
    (testId : string) (test : ABTest) :
  activeTests m !! testId = Some test ->
  calculateResults testId w m
  = (let tables :=
       per_variant
         (List.filter (fun e => String.eqb (Event.testId e) testId) (testEvents m))
         (Test.primaryMetric test) (Test.variants test) in
     match performSignificanceTest (host w) (snd tables) (Test.variants test) with
     | Normal significance =>
         match generateRecommendation significance (snd tables) test with
         | Normal recommendation =>
             Normal {| sampleSizes := fst tables;
                       metrics := snd tables;
                       significance := significance;
                       recommendation := recommendation;
                       winningVariant :=
                         if significant significance
                         then Some (findWinningVariant (snd tables)) else None;
                       confidence := Test.confidenceLevel test |}
         | Throw e => Throw e
         end
     | Throw e => Throw e
     end, (w, m)).
Proof.
  intros Htest.
  unfold calculateResults, bind, this, the_host, lift.
  cbn -[per_variant performSignificanceTest generateRecommendation].
  rewrite Htest.
  cbn -[per_variant performSignificanceTest generateRecommendation].
  destruct (performSignificanceTest _ _ _) as [significance | e]; [| reflexivity].
  destruct (generateRecommendation _ _ _); reflexivity.
Qed.

Lemma performSignificanceTest_neutral (h : Host)
    (metrics : Dict.t VariantMetrics) (variants : list ABVariant) :
  (List.find Variant.isControl variants = None
   \/ List.find (fun v => negb (Variant.isControl v)) variants = None) ->
  performSignificanceTest h metrics variants = Normal neutral.
Proof.
  intros Hmissing. unfold performSignificanceTest.
  destruct Hmissing as [-> | ->]; try reflexivity.
  destruct (List.find _ _); reflexivity.
Qed.

(** *** Evaluation does not throw *)

Lemma isUserEligible_returns test : never_throws (isUserEligible test).
Proof. unfold isUserEligible. returns. Qed.

Lemma first_variant_id_returns variants :
  variants <> [] -> never_throws (first_variant_id variants).
Proof.
  intros Hne. destruct variants as [| v rest]; [contradiction |].
  simpl. returns.
Qed.

Lemma randomAssignment_returns variants :
  variants <> [] -> never_throws (randomAssignment variants).
Proof.
  intros Hne. unfold randomAssignment.
  pose proof (first_variant_id_returns variants Hne). returns.
Qed.

Lemma deterministicAssignment_returns variants seed :
  variants <> [] -> never_throws (deterministicAssignment variants seed).
Proof.
  intros Hne. unfold deterministicAssignment.
  pose proof (first_variant_id_returns variants Hne). returns.
Qed.

Lemma gradualAssignment_returns test :
  Test.variants test <> [] -> never_throws (gradualAssignment test).
Proof.
  intros Hne. unfold gradualAssignment.
  pose proof (first_variant_id_returns _ Hne).
  pose proof (randomAssignment_returns _ Hne). returns.
Qed.

Lemma assignUserToVariant_returns test :
  Test.variants test <> [] -> never_throws (assignUserToVariant test).
Proof.
  intros Hne. unfold assignUserToVariant.
  pose proof (randomAssignment_returns _ Hne).
  pose proof (deterministicAssignment_returns (Test.variants test)
                (seed (Test.allocation test)) Hne).
  pose proof (gradualAssignment_returns _ Hne). returns.
Qed.

Lemma recordAssignment_returns testId variantId :
  never_throws (recordAssignment testId variantId).
Proof. unfold recordAssignment. returns. Qed.

Lemma generateId_returns : never_throws generateId.
Proof. unfold generateId. returns. Qed.

(** Tracking an event raises nothing, assigned or not. *)
Lemma trackEvent_returns testId eventType eventValue metadata :
  never_throws (trackEvent testId eventType eventValue metadata).
Proof. unfold trackEvent. returns. Qed.

Lemma getAssignment_returns (w : World) (m : ABTestManager.t) (testId : string) :
  (forall test, activeTests m !! testId = Some test -> Test.variants test <> []) ->
  exists r, completion_of (getAssignment testId) w m = Normal r.
Proof.
  intros Hvariants. unfold completion_of, getAssignment.
  unfold bind at 1, this. simpl.
  destruct (activeTests m !! testId) as [test |]; [| eauto].
  specialize (Hvariants test eq_refl).
  destruct (negb (status_eqb (Test.status test) active)); [eauto |].
  destruct (getUserAssignment m testId); [eauto |].
  pose proof (isUserEligible_returns test).
  pose proof (assignUserToVariant_returns test Hvariants).
  pose proof recordAssignment_returns.
  assert (never_throws
            (let* eligible := isUserEligible test
             in if negb eligible then ret None
                else let* variantId := assignUserToVariant test
                     in do* recordAssignment testId variantId
                        in ret (Some variantId))) as Hrest by returns.
  apply Hrest.
Qed.

(** A variant list that passes the check of [validateTestConfig] is not
    empty: the weights of no variants sum to 0. *)
Lemma valid_weights_nonempty (variants : list ABVariant) :
  JS.gt (Math_abs (fold_left (fun sum v => (sum + Variant.weight v)%float)
                             variants 0%float - 100)) 0.01 = false ->
  variants <> [].
Proof. intros Hvalid ->. vm_compute in Hvalid. discriminate. Qed.

Lemma calculateResults_returns (w : World) (m : ABTestManager.t)
    (testId : string) (test : ABTest) :
  activeTests m !! testId = Some test ->
  exists results, calculateResults testId w m = (Normal results, (w, m)).
Proof.
  intros Htest. rewrite (calculateResults_known w m testId test Htest).
  cbv zeta.
  destruct (List.find Variant.isControl (Test.variants test)) as [c |] eqn:Hc;
    [destruct (List.find (fun v => negb (Variant.isControl v)) (Test.variants test))
       as [tr |] eqn:Ht |].
  - pose proof (find_some _ _ Hc) as [Hcin _].
    pose proof (find_some _ _ Ht) as [Htin _].
    pose proof (per_variant_get
                  (List.filter (fun e => String.eqb (Event.testId e) testId)
                               (testEvents m))
                  (Test.primaryMetric test) _ c Hcin) as Hmc.
    pose proof (per_variant_get
                  (List.filter (fun e => String.eqb (Event.testId e) testId)
                               (testEvents m))
                  (Test.primaryMetric test) _ tr Htin) as Hmt.
    destruct (performSignificanceTest_arms (host w) _ _ c tr _ _ Hc Ht Hmc Hmt)
      as (significance & -> & _).
    rewrite (generateRecommendation_arms significance _ test c tr _ _
               Hc Ht Hmc Hmt).
    eauto.
  - rewrite performSignificanceTest_neutral by (right; exact Ht). eauto.
  - rewrite performSignificanceTest_neutral by (left; exact Hc). eauto.
Qed.

(** ** The claims about ABTestManager *)

(** C10: for a test id that is unknown, or whose test is not in status
    active (draft, paused or completed), getAssignment returns null and
    touches nothing, whatever assignments are recorded for the user. *)
Theorem getAssignment_null_unless_active (w : World) (m : t) (testId : string) :
  (activeTests m !! testId = None
   \/ exists test, activeTests m !! testId = Some test
                   /\ Test.status test <> active) ->
  getAssignment testId w m = (Normal None, (w, m)).
Proof.
  intros H. unfold getAssignment, bind, this. simpl.
  destruct H as [-> | (test & -> & Hstatus)]; [reflexivity |].
  destruct (Test.status test); try reflexivity. contradiction.
Qed.

Lemma getAssignment_null_unless_active_witness :
  getUserAssignment
    (Sample.ab_manager paused Sample.two_arms [Sample.assigned "treatment"])
    "exp1" = Some (Sample.assigned "treatment")
  /\ getAssignment "exp1" (Sample.world 0.75)
       (Sample.ab_manager paused Sample.two_arms [Sample.assigned "treatment"])
     = (Normal None,
        (Sample.world 0.75,
         Sample.ab_manager paused Sample.two_arms [Sample.assigned "treatment"])).
Proof.
  split; [reflexivity |].
  apply getAssignment_null_unless_active.
  right. exists (Sample.test_in paused Sample.two_arms).
  split; [reflexivity | discriminate].
Defined.

(** C4: once an active assignment of the user for the test is recorded,
    be it loaded from storage or recorded by getAssignment under whatever
    allocation strategy, then after any further history of calls and
    monitor ticks the record is still the one that is found and, as long as
    the test is in status active, getAssignment returns the variant of that
    record and changes neither the manager nor the host: no eligibility
    roll, no allocation. A variant that getAssignment returns is recorded
    in this way when the call ends. (The record meant is the first active
    one of the user for the test, the one every lookup finds; no method
    resets an assignment, and a test that is not active gives null.) *)
Theorem assignment_sticky (w : World) (m : t) (testId : string)
    (a : UserAssignment) (history : list Call) (test : ABTest) :
  getUserAssignment m testId = Some a ->
  let after := run history w m in
  activeTests (snd after) !! testId = Some test ->
  Test.status test = active ->
  getUserAssignment (snd after) testId = Some a
  /\ getAssignment testId (fst after) (snd after)
     = (Normal (Some (Assignment.variantId a)), (fst after, snd after))
  /\ forall w' m' v,
       completion_of (getAssignment testId) w' m' = Normal (Some v) ->
       exists a',
         getUserAssignment (state_after (getAssignment testId) w' m') testId
         = Some a'
         /\ Assignment.variantId a' = v.
Proof.
  intros Ha after Htest Hactive.
  pose proof (run_grows history w m) as Hgrows. fold after in Hgrows.
  apply (grows_getUserAssignment _ _ testId a Hgrows) in Ha.
  split; [exact Ha |]. split.
  - unfold getAssignment, bind, this. simpl.
    rewrite Htest, Hactive. simpl. rewrite Ha. reflexivity.
  - intros w' m' v Hv. apply (getAssignment_records w' m' testId v Hv).
Qed.

Lemma assignment_sticky_witness :
  let w := Sample.world 0.75 in
  let m := Sample.ab_manager active Sample.two_arms [Sample.assigned "control"] in
  let history :=
    [call_trackEvent "exp1" "conversion" (Some 2%float) None;
     tick_checkSafeguards "exp1"; call_getAssignment "exp1"] in
  let after := run history w m in
  getUserAssignment (snd after) "exp1" = Some (Sample.assigned "control")
  /\ getAssignment "exp1" (fst after) (snd after)
     = (Normal (Some "control"), (fst after, snd after)).
Proof.
  intros w m history after.
  destruct (assignment_sticky w m "exp1" (Sample.assigned "control") history
              (Sample.test_in active Sample.two_arms))
    as (Hfound & Hreturned & _).
  - reflexivity.
  - vm_compute. reflexivity.
  - reflexivity.
  - split; [exact Hfound | exact Hreturned].
Defined.

(** C8: for a user without an active assignment for the test, trackEvent
    returns normally and changes nothing; for a user with one, it returns
    normally and appends exactly one event, which carries the variantId of
    that assignment; and whatever is called afterwards, the events recorded
    so far stay as they are, at the front of the list. *)
Theorem trackEvent_drops_or_appends (w : World) (m : t)
    (testId eventType : string) (eventValue : option float)
    (metadata : option (Dict.t Value)) :
  (getUserAssignment m testId = None ->
   trackEvent testId eventType eventValue metadata w m = (Normal tt, (w, m)))
  /\ (forall a, getUserAssignment m testId = Some a ->
      exists event,
        completion_of (trackEvent testId eventType eventValue metadata) w m
        = Normal tt
        /\ testEvents (state_after (trackEvent testId eventType eventValue metadata) w m)
           = (testEvents m ++ [event])%list
        /\ Event.variantId event = Assignment.variantId a
        /\ Event.testId event = testId
        /\ Event.userId event = userId m
        /\ Event.eventType event = eventType
        /\ Event.eventValue event = eventValue)
  /\ (forall history w',
      exists later,
        testEvents (snd (run history w' m)) = (testEvents m ++ later)%list).
Proof.
  split; [| split].
  - intros Ha. unfold trackEvent, bind, this. simpl. rewrite Ha. reflexivity.
  - intros a Ha. unfold completion_of, state_after, trackEvent, bind, this.
    simpl. rewrite Ha. simpl. eexists. repeat split.
  - intros history w'. apply (run_grows history w' m).
Qed.

Lemma trackEvent_drops_or_appends_witness :
  trackEvent "exp1" "conversion" (Some 2%float) None (Sample.world 0.75)
    (Sample.ab_manager active Sample.two_arms [])
  = (Normal tt, (Sample.world 0.75, Sample.ab_manager active Sample.two_arms []))
  /\ exists event,
       testEvents
         (state_after (trackEvent "exp1" "conversion" (Some 2%float) None)
            (Sample.world 0.75)
            (Sample.ab_manager active Sample.two_arms [Sample.assigned "treatment"]))
       = [event]
       /\ Event.variantId event = "treatment".
Proof.
  split.
  - apply (trackEvent_drops_or_appends (Sample.world 0.75)
             (Sample.ab_manager active Sample.two_arms [])
             "exp1" "conversion" (Some 2%float) None).
    reflexivity.
  - destruct (trackEvent_drops_or_appends (Sample.world 0.75)
                (Sample.ab_manager active Sample.two_arms [Sample.assigned "treatment"])
                "exp1" "conversion" (Some 2%float) None) as (_ & H & _).
    destruct (H (Sample.assigned "treatment") eq_refl)
      as (event & _ & Hevents & Hvariant & _).
    exists event. split; [exact Hevents | exact Hvariant].
Defined.

(** C6: for a test with fewer than two variants, or without a control
    variant, or without a non-control variant, computing the results
    returns normally, raises nothing, and gives the neutral significance
    outcome pValue = 1, zScore = 0, significant = false (and with it the
    recommendation inconclusive). *)
Theorem neutral_without_two_arms (w : World) (m : ABTestManager.t)
    (testId : string) (test : ABTest) :
  activeTests m !! testId = Some test ->
  (length (Test.variants test) < 2
   \/ List.find Variant.isControl (Test.variants test) = None
   \/ List.find (fun v => negb (Variant.isControl v)) (Test.variants test) = None) ->
  exists results,
    calculateResults testId w m = (Normal results, (w, m))
    /\ pValue (significance results) = 1%float
    /\ zScore (significance results) = 0%float
    /\ significant (significance results) = false
    /\ recommendation results = inconclusive.
Proof.
  intros Htest Harms.
  assert (List.find Variant.isControl (Test.variants test) = None
          \/ List.find (fun v => negb (Variant.isControl v)) (Test.variants test)
             = None) as Hmissing.
  { destruct Harms as [Hlen | Hmissing]; [apply an_arm_missing, Hlen | exact Hmissing]. }
  rewrite (calculateResults_known w m testId test Htest). cbv zeta.
  rewrite (performSignificanceTest_neutral _ _ _ Hmissing).
  unfold generateRecommendation. simpl.
  eexists. split; [reflexivity |]. repeat split.
Qed.

Lemma neutral_without_two_arms_witness :
  exists results,
    calculateResults "exp1" (Sample.world 0.75)
      (Sample.ab_manager active [Sample.variant "only" 100 false] [])
    = (Normal results,
       (Sample.world 0.75,
        Sample.ab_manager active [Sample.variant "only" 100 false] []))
    /\ pValue (significance results) = 1%float
    /\ zScore (significance results) = 0%float
    /\ significant (significance results) = false
    /\ recommendation results = inconclusive.
Proof.
  apply (neutral_without_two_arms (Sample.world 0.75)
           (Sample.ab_manager active [Sample.variant "only" 100 false] [])
           "exp1" (Sample.test_in active [Sample.variant "only" 100 false])).
  - reflexivity.
  - left. simpl. lia.
Defined.

(** The arms the code compares. For a test with a control and a
    treatment, computing the results returns normally; the z-score of the
    significance test and the recommendation compare the first variant
    marked as control with the first variant in the list that is not a
    control, whatever the means of the other treatments are. *)
Lemma compared_arms (w : World)
    (m : ABTestManager.t) (testId : string) (test : ABTest) (c tr : ABVariant) :
  activeTests m !! testId = Some test ->
  List.find Variant.isControl (Test.variants test) = Some c ->
  List.find (fun v => negb (Variant.isControl v)) (Test.variants test) = Some tr ->
  exists results mc mt,
    calculateResults testId w m = (Normal results, (w, m))
    /\ Dict.get (metrics results) (Variant.id c) = Some mc
    /\ Dict.get (metrics results) (Variant.id tr) = Some mt
    /\ zScore (significance results)
       = (let pooledSE :=
            Math_sqrt (Math_pow2 (standardError mc)
                       + Math_pow2 (standardError mt)) in
          if JS.gt pooledSE 0
          then (averageValue mt - averageValue mc) / pooledSE else 0)%float
    /\ significant (significance results)
       = JS.lt (calculatePValue (host w) (Math_abs (zScore (significance results))))
               0.05
    /\ recommendation results
       = if negb (significant (significance results)) then inconclusive
         else if JS.gt (averageValue mt) (averageValue mc) then winner
         else rollback.
Proof.
  intros Htest Hc Ht.
  pose proof (find_some _ _ Hc) as [Hcin _].
  pose proof (find_some _ _ Ht) as [Htin _].
  set (events := List.filter (fun e => String.eqb (Event.testId e) testId)
                             (testEvents m)).
  pose proof (per_variant_get events (Test.primaryMetric test) _ c Hcin) as Hmc.
  pose proof (per_variant_get events (Test.primaryMetric test) _ tr Htin) as Hmt.
  destruct (performSignificanceTest_arms (host w) _ _ c tr _ _ Hc Ht Hmc Hmt)
    as (significance & Hsig & Hz & Hp & Hsignificant).
  pose proof (generateRecommendation_arms significance _ test c tr _ _
                Hc Ht Hmc Hmt) as Hrec.
  rewrite (calculateResults_known w m testId test Htest). cbv zeta.
  fold events. rewrite Hsig, Hrec.
  do 3 eexists. split; [reflexivity |].
  cbn -[per_variant calculateVariantMetrics].
  split; [exact Hmc |]. split; [exact Hmt |]. split; [exact Hz |].
  split; [| reflexivity]. rewrite Hsignificant, Hp. reflexivity.
Qed.

(** *** What [createTest] does with a configuration that passes *)

Lemma createTest_valid (testConfig : Config.t) (w : World) (m : t) :
  JS.gt (Math_abs
           (fold_left (fun sum v => (sum + Variant.weight v)%float)
                      (Config.variants testConfig) 0%float
            - 100)) 0.01 = false ->
  let testId :=
    (Number_toString36 (host w) (Date_now_at (host w) (calls w))
     +:+ substr_from 2
           (Number_toString36 (host w) (Math_random_at (host w) (S (calls w)))))%string in
  let test :=
    Test.of_config testId testConfig (Date_now_at (host w) (S (S (calls w)))) in
  createTest testConfig w m
  = (if setItem_throws (host w) (S (S (S (calls w))))
     then Throw (DOMException "QuotaExceededError") else Normal testId,
     (tick (tick (tick (tick w))),
      set_activeTests (<[testId := test]> (activeTests m)) m)).
Proof.
  intros Hvalid testId test.
  unfold createTest, generateId, validateTestConfig, persistTest.
  unfold bind, Date_now, Math_random, the_host, ret, throw, update,
    localStorage_setItem.
  cbn -[JS.gt Math_abs fold_left substr_from String.append]. rewrite Hvalid.
  cbn -[substr_from String.append]. destruct (setItem_throws _ _); reflexivity.
Qed.

End ABTestManagerFacts.

(** ** RolloutManager *)

Module RolloutManagerFacts.

Import RolloutManager.

#[global] Instance keeps_rollouts_preorder : PreOrder keeps_rollouts.
Proof. split; unfold keeps_rollouts; [intros m | intros a b c]; congruence. Qed.

#[global] Instance keeps_flags_preorder : PreOrder keeps_flags.
Proof. split; unfold keeps_flags; [intros m | intros a b c]; congruence. Qed.

(** *** Steps that only read the fields *)

Section RolloutReadOnly.
Context (R : t -> t -> Prop) `{!PreOrder R}.

Lemma rollout_generateId_preserves : preserves R generateId.
Proof. unfold generateId. preserve. Qed.

Lemma persistRollout_preserves plan : preserves R (persistRollout plan).
Proof. unfold persistRollout. preserve. Qed.

Lemma persistFeatureFlag_preserves flag : preserves R (persistFeatureFlag flag).
Proof. unfold persistFeatureFlag. preserve. Qed.

Lemma persistRollout_of_preserves rolloutId : preserves R (persistRollout_of rolloutId).
Proof. unfold persistRollout_of. pose proof persistRollout_preserves. preserve. Qed.

Lemma persistFeatureFlag_of_preserves key : preserves R (persistFeatureFlag_of key).
Proof.
  unfold persistFeatureFlag_of. pose proof persistFeatureFlag_preserves. preserve.
Qed.

Lemma rollout_getCurrentMetrics_preserves rolloutId : preserves R (getCurrentMetrics rolloutId).
Proof. unfold getCurrentMetrics. preserve. Qed.

Lemma isFeatureEnabled_preserves flagName userContext :
  preserves R (isFeatureEnabled flagName userContext).
Proof. unfold isFeatureEnabled. preserve. Qed.

Lemma getFeatureVariant_preserves flagName userContext :
  preserves R (getFeatureVariant flagName userContext).
Proof.
  unfold getFeatureVariant. pose proof isFeatureEnabled_preserves. preserve.
Qed.

End RolloutReadOnly.

(** *** Steps that leave the plans, or the flags, alone *)

Lemma on_abTestManager_keeps_rollouts {A : Type} (m : M ABTestManager.t A) :
  preserves keeps_rollouts (on_abTestManager m).
Proof. apply Methods.preserves_on_field; try exact _. reflexivity. Qed.

Lemma on_abTestManager_keeps_flags {A : Type} (m : M ABTestManager.t A) :
  preserves keeps_flags (on_abTestManager m).
Proof. apply Methods.preserves_on_field; try exact _. reflexivity. Qed.

Lemma write_flag_keeps_rollouts key f : preserves keeps_rollouts (write_flag key f).
Proof.
  apply Methods.preserves_update; try exact _. intros m.
  destruct (Dict.get (featureFlags m) key); reflexivity.
Qed.

Lemma set_timers_keeps_rollouts (f : t -> list Timer) :
  preserves keeps_rollouts (update (fun m => set_timers (f m) m)).
Proof. apply Methods.preserves_update; try exact _. reflexivity. Qed.

(** The steps that follow the write of the plan in [rollbackRollout],
    [completeRollout] and [transitionToPhase] leave the plans alone. *)
Lemma after_write_keeps_rollouts :
  (forall key f, preserves keeps_rollouts (write_flag key f))
  /\ (forall key, preserves keeps_rollouts (persistFeatureFlag_of key))
  /\ (forall m : M ABTestManager.t unit,
        preserves keeps_rollouts (on_abTestManager m))
  /\ (forall rolloutId, preserves keeps_rollouts (persistRollout_of rolloutId))
  /\ (forall f : t -> list Timer,
        preserves keeps_rollouts (update (fun m => set_timers (f m) m))).
Proof.
  split; [| split; [| split; [| split]]].
  - apply write_flag_keeps_rollouts.
  - apply persistFeatureFlag_of_preserves. exact _.
  - apply on_abTestManager_keeps_rollouts.
  - apply persistRollout_of_preserves. exact _.
  - apply set_timers_keeps_rollouts.
Qed.

Lemma stopTest_step_keeps_flags testId reason rolloutId :
  preserves keeps_flags
    (do* on_abTestManager (ABTestManager.stopTest testId reason)
     in persistRollout_of rolloutId).
Proof.
  pose proof (@on_abTestManager_keeps_flags unit).
  pose proof (persistRollout_of_preserves keeps_flags).
  preserve.
Qed.

(** *** What the writes of a plan and of a flag do *)

Lemma write_plan_state rolloutId f (w : World) (m : t) (plan : RolloutPlan) :
  Dict.get (activeRollouts m) rolloutId = Some plan ->
  write_plan rolloutId f w m
  = (Normal tt,
     (w, set_activeRollouts (Dict.set (activeRollouts m) rolloutId (f plan)) m)).
Proof. intros H. unfold write_plan, update. rewrite H. reflexivity. Qed.

(** The state a method that starts with a write to a known plan leaves:
    the plans are those after the write when the rest leaves them alone. *)
Lemma plans_after_write rolloutId f (rest : M t unit) (w : World) (m : t)
    (plan : RolloutPlan) :
  Dict.get (activeRollouts m) rolloutId = Some plan ->
  preserves keeps_rollouts rest ->
  activeRollouts (state_after (do* write_plan rolloutId f in rest) w m)
  = Dict.set (activeRollouts m) rolloutId (f plan).
Proof.
  intros Hplan Hrest.
  rewrite Methods.state_after_bind, (write_plan_state _ _ _ _ plan Hplan).
  rewrite (Hrest w _). reflexivity.
Qed.

(** Pausing and resuming write the status and nothing else of the plan. *)
Lemma set_status_only rolloutId (status : Status) (w : World) (m : t)
    (plan : RolloutPlan) :
  Dict.get (activeRollouts m) rolloutId = Some plan ->
  state_after
    (do* write_plan rolloutId (Plan.set_status status)
     in persistRollout_of rolloutId) w m
  = set_activeRollouts
      (Dict.set (activeRollouts m) rolloutId (Plan.set_status status plan)) m.
Proof.
  intros Hplan.
  rewrite Methods.state_after_bind, (write_plan_state _ _ _ _ plan Hplan).
  destruct (Methods.unchanged (persistRollout_of rolloutId) w
              (set_activeRollouts
                 (Dict.set (activeRollouts m) rolloutId
                    (Plan.set_status status plan)) m)
              (persistRollout_of_preserves Logic.eq rolloutId)) as (c & w' & E).
  unfold state_after. rewrite E. reflexivity.
Qed.

Lemma pauseRollout_state rolloutId (w : World) (m : t) (plan : RolloutPlan) :
  Dict.get (activeRollouts m) rolloutId = Some plan ->
  state_after (pauseRollout rolloutId) w m
  = set_activeRollouts
      (Dict.set (activeRollouts m) rolloutId (Plan.set_status paused plan)) m.
Proof.
  intros Hplan. unfold pauseRollout.
  rewrite Methods.state_after_bind. unfold this. rewrite Hplan.
  apply set_status_only, Hplan.
Qed.

Lemma resumeRollout_state rolloutId (w : World) (m : t) (plan : RolloutPlan) :
  Dict.get (activeRollouts m) rolloutId = Some plan ->
  state_after (resumeRollout rolloutId) w m
  = set_activeRollouts
      (Dict.set (activeRollouts m) rolloutId (Plan.set_status active plan)) m.
Proof.
  intros Hplan. unfold resumeRollout.
  rewrite Methods.state_after_bind. unfold this. rewrite Hplan.
  apply set_status_only, Hplan.
Qed.

(** The part of [rollbackRollout] and [completeRollout] that writes the
    flag. *)
Lemma flag_step_state key f (w : World) (m : t) (found : option FeatureFlag) :
  Dict.get (featureFlags m) key = found ->
  featureFlags
    (state_after
       match found with
       | Some _ => do* write_flag key f in persistFeatureFlag_of key
       | None => ret tt
       end w m)
  = match found with
    | Some flag => Dict.set (featureFlags m) key (f flag)
    | None => featureFlags m
    end.
Proof.
  intros Hflag. destruct found as [flag |]; [| reflexivity].
  rewrite Methods.state_after_bind. unfold write_flag at 1, update.
  rewrite Hflag.
  rewrite (persistFeatureFlag_of_preserves keeps_flags key w _). reflexivity.
Qed.

Lemma rollbackRollout_state rolloutId reason (w : World) (m : t)
    (plan : RolloutPlan) :
  Dict.get (activeRollouts m) rolloutId = Some plan ->
  activeRollouts (state_after (rollbackRollout rolloutId reason) w m)
  = Dict.set (activeRollouts m) rolloutId
      (count_rollback (Plan.set_status rolled_back plan))
  /\ featureFlags (state_after (rollbackRollout rolloutId reason) w m)
     = match Dict.get (featureFlags m) (Plan.feature plan) with
       | Some flag =>
           Dict.set (featureFlags m) (Plan.feature plan)
             (Flag.set_rolloutPercentage 0 (Flag.set_enabled false flag))
       | None => featureFlags m
       end.
Proof.
  intros Hplan. unfold rollbackRollout.
  rewrite Methods.state_after_bind. unfold this. rewrite Hplan. split.
  - rewrite (plans_after_write _ _ _ _ _ plan Hplan); [reflexivity |].
    destruct after_write_keeps_rollouts as (? & ? & ? & ? & ?). preserve.
  - rewrite Methods.state_after_bind, (write_plan_state _ _ _ _ plan Hplan).
    match goal with
    | |- featureFlags (state_after (JS.bind ?step ?rest) ?w' ?m') = _ =>
        rewrite (Methods.rest_preserves keeps_flags step rest w' m')
    end.
    + match goal with
      | |- featureFlags (state_after _ ?w' ?m') = _ =>
          exact (flag_step_state (Plan.feature plan) _ w' m' _ eq_refl)
      end.
    + intros _. apply stopTest_step_keeps_flags.
Qed.

(** [rollbackRollout] writes the status and the counter of the plan, and
    the flag; the plan's own [currentPhase] and [currentPercentage] stay. *)
Lemma rollbackRollout_keeps_percentage rolloutId reason (w : World) (m : t)
    (plan : RolloutPlan) :
  Dict.get (activeRollouts m) rolloutId = Some plan ->
  exists plan1,
    getRolloutStatus (state_after (rollbackRollout rolloutId reason) w m) rolloutId
    = Some plan1
    /\ Plan.status plan1 = rolled_back
    /\ Plan.currentPhase plan1 = Plan.currentPhase plan
    /\ Plan.currentPercentage plan1 = Plan.currentPercentage plan.
Proof.
  intros Hplan.
  destruct (rollbackRollout_state rolloutId reason w m plan Hplan) as [Hplans _].
  unfold getRolloutStatus. rewrite Hplans, DictFacts.get_set_eq.
  eexists. split; [reflexivity |]. repeat split.
Qed.

(** The body of the monitor's loop rolls an active plan back as soon as any
    of its rollback conditions is breached by the reading, whatever the
    severity of that condition. *)
Lemma check_rollout_ignores_severity rolloutId (w w' : World) (m : t)
    (plan : RolloutPlan) (reading : Dict.t float)
    (condition : RollbackCondition) :
  Dict.get (activeRollouts m) rolloutId = Some plan ->
  Plan.status plan = active ->
  getCurrentMetrics rolloutId w m = (Normal reading, (w', m)) ->
  In condition (Plan.rollbackConditions plan) ->
  evaluateRollbackCondition condition reading = true ->
  option_map Plan.status
    (getRolloutStatus (state_after (check_rollout rolloutId) w m) rolloutId)
  = Some rolled_back.
Proof.
  intros Hplan Hstatus Hmetrics Hin Hbreached. unfold check_rollout.
  rewrite Methods.state_after_bind. unfold this. rewrite Hplan, Hstatus.
  cbn [status_eqb negb].
  rewrite Methods.state_after_bind, Hmetrics.
  rewrite Methods.state_after_bind, (write_plan_state _ _ _ _ plan Hplan).
  cbn [Plan.rollbackConditions assign_metrics Plan.set_metrics].
  destruct (List.find _ (Plan.rollbackConditions plan)) as [first |] eqn:Hfind.
  - match goal with
    | |- context [state_after (rollbackRollout ?id ?reason) ?w1 ?m1] =>
        destruct (rollbackRollout_state id reason w1 m1
                    (assign_metrics reading plan)) as [Hplans _];
          [apply DictFacts.get_set_eq |]
    end.
    unfold getRolloutStatus. rewrite Hplans, DictFacts.get_set_eq. reflexivity.
  - pose proof (find_none _ _ Hfind condition Hin) as Hnot.
    cbv beta in Hnot. congruence.
Qed.

Lemma completeRollout_state rolloutId (w : World) (m : t) (plan : RolloutPlan) :
  Dict.get (activeRollouts m) rolloutId = Some plan ->
  exists now,
    activeRollouts (state_after (completeRollout rolloutId) w m)
    = Dict.set (activeRollouts m) rolloutId
        (Plan.set_currentPercentage 100
           (Plan.set_actualCompletion (Some now)
              (Plan.set_status completed plan))).
Proof.
  intros Hplan. unfold completeRollout.
  rewrite Methods.state_after_bind. unfold this. rewrite Hplan.
  rewrite Methods.state_after_bind. unfold Date_now at 1.
  eexists.
  rewrite (plans_after_write _ _ _ _ _ plan Hplan); [reflexivity |].
  destruct after_write_keeps_rollouts as (? & ? & ? & ? & ?). preserve.
Qed.

Lemma transitionToPhase_state rolloutId phaseIndex (w : World) (m : t)
    (plan : RolloutPlan) (phase : RolloutPhase) :
  Dict.get (activeRollouts m) rolloutId = Some plan ->
  nth_error (Plan.phases plan) phaseIndex = Some phase ->
  exists transition,
    activeRollouts (state_after (transitionToPhase rolloutId phaseIndex) w m)
    = Dict.set (activeRollouts m) rolloutId
        (Plan.set_currentPercentage (Phase.percentage phase)
           (Plan.set_currentPhase phaseIndex
              (push_transition transition plan))).
Proof.
  intros Hplan Hphase. unfold transitionToPhase.
  rewrite Methods.state_after_bind. unfold this. rewrite Hplan, Hphase.
  rewrite Methods.state_after_bind. unfold Date_now at 1.
  eexists.
  rewrite (plans_after_write _ _ _ _ _ plan Hplan); [reflexivity |].
  destruct after_write_keeps_rollouts as (? & ? & ? & ? & ?). preserve.
Qed.

(** Two numbers that [===] tells apart are different. *)
Lemma float_neq (a b : float) :
  PrimFloat.eqb a b = false -> PrimFloat.eqb a a = true -> a <> b.
Proof. intros Hab Haa E. rewrite <- E in Hab. congruence. Qed.

(** ** The claims about RolloutManager *)

(** C1, as the code has it: once rollbackRollout has run on a known plan,
    whether it returned or threw after its writes, the plan's status is
    rolled_back and the flag stored under plan.feature, when there is one,
    has enabled = false and rolloutPercentage = 0. A subsequent
    resumeRollout is not a no-op: it sets the status to active, and leaves
    the flags as the rollback left them. *)
Theorem rollback_then_resume (w : World) (m : t) (rolloutId reason : string)
    (plan : RolloutPlan) :
  Dict.get (activeRollouts m) rolloutId = Some plan ->
  let m1 := state_after (rollbackRollout rolloutId reason) w m in
  (exists plan1,
     getRolloutStatus m1 rolloutId = Some plan1
     /\ Plan.status plan1 = rolled_back)
  /\ (forall flag,
        Dict.get (featureFlags m) (Plan.feature plan) = Some flag ->
        exists flag1,
          Dict.get (featureFlags m1) (Plan.feature plan) = Some flag1
          /\ Flag.enabled flag1 = false
          /\ Flag.rolloutPercentage flag1 = 0%float)
  /\ (forall w1,
        let m2 := state_after (resumeRollout rolloutId) w1 m1 in
        (exists plan2,
           getRolloutStatus m2 rolloutId = Some plan2
           /\ Plan.status plan2 = active)
        /\ featureFlags m2 = featureFlags m1).
Proof.
  intros Hplan m1.
  destruct (rollbackRollout_state rolloutId reason w m plan Hplan) as [Hplans Hflags].
  fold m1 in Hplans, Hflags.
  assert (Dict.get (activeRollouts m1) rolloutId
          = Some (count_rollback (Plan.set_status rolled_back plan))) as Hplan1.
  { rewrite Hplans. apply DictFacts.get_set_eq. }
  split; [| split].
  - eexists. split; [exact Hplan1 | reflexivity].
  - intros flag Hflag. rewrite Hflags, Hflag.
    eexists. split; [apply DictFacts.get_set_eq |]. split; reflexivity.
  - intros w1 m2. subst m2.
    rewrite (resumeRollout_state rolloutId w1 m1 _ Hplan1).
    split; [| reflexivity].
    eexists. split; [apply DictFacts.get_set_eq | reflexivity].
Qed.

Lemma rollback_then_resume_witness :
  let start :=
    run Sample.flag_then_plan (Sample.world 0.75)
        (Sample.rollout_manager Sample.ab_manager_with_mirror) in
  let m1 :=
    state_after (rollbackRollout Sample.generated_id "operator request")
      (fst start) (snd start) in
  (exists plan1,
     getRolloutStatus m1 Sample.generated_id = Some plan1
     /\ Plan.status plan1 = rolled_back)
  /\ (exists flag1,
        Dict.get (featureFlags m1) Sample.generated_id = Some flag1
        /\ Flag.enabled flag1 = false
        /\ Flag.rolloutPercentage flag1 = 0%float)
  /\ (exists plan2,
        getRolloutStatus
          (state_after (resumeRollout Sample.generated_id) (Sample.world 0.75) m1)
          Sample.generated_id = Some plan2
        /\ Plan.status plan2 = active).
Proof.
  intros start m1.
  destruct (rollback_then_resume (fst start) (snd start) Sample.generated_id
              "operator request"
              (Plan.of_config Sample.generated_id
                 (Sample.plan_config Sample.generated_id Sample.three_phases
                    [Sample.warning_on_errors]))
              eq_refl) as (Hstatus & Hflag & Hresume).
  split; [exact Hstatus |]. split.
  - apply (Hflag (Flag.of_config Sample.generated_id
                    (Sample.flag_config "new-dashboard" 100 None))).
    reflexivity.
  - apply (Hresume (Sample.world 0.75)).
Defined.

(** C1, as the specification words it, fails: a flag and a plan that
    targets it are created, rollbackRollout returns normally and leaves the
    status rolled_back, and the resumeRollout that follows returns normally
    and leaves the status active. *)
Lemma resume_after_rollback_reactivates :
  let start :=
    run Sample.flag_then_plan (Sample.world 0.75)
        (Sample.rollout_manager Sample.ab_manager_with_mirror) in
  let rolled :=
    rollbackRollout Sample.generated_id "operator request"
      (fst start) (snd start) in
  let resumed :=
    resumeRollout Sample.generated_id (fst (snd rolled)) (snd (snd rolled)) in
  fst rolled = Normal tt
  /\ option_map Plan.status
       (getRolloutStatus (snd (snd rolled)) Sample.generated_id)
     = Some rolled_back
  /\ fst resumed = Normal tt
  /\ option_map Plan.status
       (getRolloutStatus (snd (snd resumed)) Sample.generated_id)
     = Some active.
Proof. vm_compute. repeat split; reflexivity. Qed.

(** C2, as the code has it: a transition into an existing phase sets
    currentPhase to its index and currentPercentage to its percentage and
    leaves the status, so that an active or paused plan then has the
    percentage of its current phase; completion sets the status to
    completed and currentPercentage to 100; pauseRollout and resumeRollout
    write the status only, so they keep the equality on a plan that was
    active or paused, and do not establish it on a plan in another
    status. *)
Theorem percentage_follows_transitions (w : World) (m : t) (rolloutId : string)
    (plan : RolloutPlan) :
  Dict.get (activeRollouts m) rolloutId = Some plan ->
  (forall phaseIndex phase,
     nth_error (Plan.phases plan) phaseIndex = Some phase ->
     exists plan',
       getRolloutStatus (state_after (transitionToPhase rolloutId phaseIndex) w m)
         rolloutId = Some plan'
       /\ Plan.currentPhase plan' = phaseIndex
       /\ Plan.currentPercentage plan' = Phase.percentage phase
       /\ Plan.status plan' = Plan.status plan
       /\ (Plan.status plan = active \/ Plan.status plan = paused ->
           percentage_invariant plan'))
  /\ (exists plan',
        getRolloutStatus (state_after (completeRollout rolloutId) w m) rolloutId
        = Some plan'
        /\ Plan.status plan' = completed
        /\ Plan.currentPercentage plan' = 100%float
        /\ percentage_invariant plan')
  /\ (exists plan',
        getRolloutStatus (state_after (pauseRollout rolloutId) w m) rolloutId
        = Some plan'
        /\ Plan.status plan' = paused
        /\ Plan.currentPhase plan' = Plan.currentPhase plan
        /\ Plan.currentPercentage plan' = Plan.currentPercentage plan
        /\ (Plan.status plan = active \/ Plan.status plan = paused ->
            percentage_invariant plan -> percentage_invariant plan'))
  /\ (exists plan',
        getRolloutStatus (state_after (resumeRollout rolloutId) w m) rolloutId
        = Some plan'
        /\ Plan.status plan' = active
        /\ Plan.currentPhase plan' = Plan.currentPhase plan
        /\ Plan.currentPercentage plan' = Plan.currentPercentage plan
        /\ (Plan.status plan = active \/ Plan.status plan = paused ->
            percentage_invariant plan -> percentage_invariant plan')).
Proof.
  intros Hplan.
  assert (forall status',
            status' = paused \/ status' = active ->
            Plan.status plan = active \/ Plan.status plan = paused ->
            percentage_invariant plan ->
            percentage_invariant (Plan.set_status status' plan)) as Hkept.
  { unfold percentage_invariant. simpl. intros status' Hstatus' Hwas Hinv.
    assert (exists phase,
              nth_error (Plan.phases plan) (Plan.currentPhase plan) = Some phase
              /\ Plan.currentPercentage plan = Phase.percentage phase) as Hphase.
    { destruct Hwas as [Hwas | Hwas]; rewrite Hwas in Hinv; exact Hinv. }
    destruct Hstatus' as [-> | ->]; exact Hphase. }
  split; [| split; [| split]].
  - intros phaseIndex phase Hphase.
    destruct (transitionToPhase_state rolloutId phaseIndex w m plan phase
                Hplan Hphase) as [transition Hplans].
    unfold getRolloutStatus. rewrite Hplans, DictFacts.get_set_eq.
    eexists. split; [reflexivity |]. simpl.
    repeat split.
    unfold percentage_invariant. simpl.
    intros [-> | ->]; exists phase; split; auto.
  - destruct (completeRollout_state rolloutId w m plan Hplan) as [now Hplans].
    unfold getRolloutStatus. rewrite Hplans, DictFacts.get_set_eq.
    eexists. split; [reflexivity |]. repeat split.
  - rewrite (pauseRollout_state rolloutId w m plan Hplan).
    unfold getRolloutStatus. simpl. rewrite DictFacts.get_set_eq.
    eexists. split; [reflexivity |]. simpl. repeat split.
    apply Hkept. left. reflexivity.
  - rewrite (resumeRollout_state rolloutId w m plan Hplan).
    unfold getRolloutStatus. simpl. rewrite DictFacts.get_set_eq.
    eexists. split; [reflexivity |]. simpl. repeat split.
    apply Hkept. right. reflexivity.
Qed.

Lemma percentage_follows_transitions_witness :
  let start :=
    run Sample.flag_then_plan (Sample.world 0.75)
        (Sample.rollout_manager Sample.ab_manager_with_mirror) in
  (exists plan',
     getRolloutStatus
       (state_after (transitionToPhase Sample.generated_id 1)
          (fst start) (snd start)) Sample.generated_id = Some plan'
     /\ Plan.currentPhase plan' = 1
     /\ Plan.currentPercentage plan' = 50%float)
  /\ (exists plan',
        getRolloutStatus
          (state_after (pauseRollout Sample.generated_id) (fst start) (snd start))
          Sample.generated_id = Some plan'
        /\ Plan.status plan' = paused
        /\ Plan.currentPercentage plan' = 0%float).
Proof.
  intros start.
  destruct (percentage_follows_transitions (fst start) (snd start)
              Sample.generated_id
              (Plan.of_config Sample.generated_id
                 (Sample.plan_config Sample.generated_id Sample.three_phases
                    [Sample.warning_on_errors]))
              eq_refl) as (Htransition & _ & Hpause & _).
  split.
  - destruct (Htransition 1 (Sample.phase "half" 50 48) eq_refl)
      as (plan' & Hget & Hphase & Hpercentage & _).
    exists plan'. split; [exact Hget |]. split; [exact Hphase | exact Hpercentage].
  - destruct Hpause as (plan' & Hget & Hstatus & _ & Hpercentage & _).
    exists plan'. split; [exact Hget |]. split; [exact Hstatus | exact Hpercentage].
Defined.

(** C2, as the specification words it, fails: a plan with the phases 10,
    50 and 100 is created and paused; its status is paused, its current
    phase is 0 and its current percentage is 0, not the 10 of that phase. *)
Lemma paused_plan_without_phase_percentage :
  let after :=
    run [call_createRolloutPlan
           (Sample.plan_config "no-flag" Sample.three_phases
              [Sample.warning_on_errors]);
         call_pauseRollout Sample.generated_id]
        (Sample.world 0.75) (Sample.rollout_manager Sample.fresh_ab_manager) in
  match getRolloutStatus (snd after) Sample.generated_id with
  | Some plan => Plan.status plan = paused /\ ~ percentage_invariant plan
  | None => False
  end.
Proof.
  vm_compute. split; [reflexivity |].
  intros (phase & Hphase & Hpercentage).
  injection Hphase as <-. simpl in Hpercentage.
  revert Hpercentage. apply float_neq; reflexivity.
Qed.

(** On the phase-evaluation path only critical conditions count: when no
    critical condition is breached, [shouldTriggerRollback] is false. *)
Lemma shouldTriggerRollback_only_critical (plan : RolloutPlan)
    (metrics : Dict.t float) :
  (forall condition,
     In condition (Plan.rollbackConditions plan) ->
     evaluateRollbackCondition condition metrics = true ->
     Condition.severity condition = warning) ->
  shouldTriggerRollback plan metrics = false.
Proof.
  intros Hwarnings. unfold shouldTriggerRollback.
  apply not_true_is_false. intros Hexists.
  apply existsb_exists in Hexists as (condition & Hin & Hboth).
  apply andb_true_iff in Hboth as [Hcritical Hbreached].
  specialize (Hwarnings condition Hin Hbreached).
  unfold is_critical in Hcritical. rewrite Hwarnings in Hcritical. discriminate.
Qed.

(** C3 fails on the code: a plan whose only rollback condition is the
    warning errorRate > 0.01 is created and started; the periodic check
    reads errorRate = 0.015, a reading on which the phase-evaluation path
    does not ask for a rollback, and rolls the plan back. *)
Lemma monitor_rolls_back_on_warning :
  let started :=
    run [call_createRolloutPlan
           (Sample.plan_config "no-flag" Sample.three_phases
              [Sample.warning_on_errors]);
         call_startRollout Sample.generated_id]
        (Sample.world 0.75) (Sample.rollout_manager Sample.fresh_ab_manager) in
  match getRolloutStatus (snd started) Sample.generated_id,
        completion_of (getCurrentMetrics Sample.generated_id)
          (fst started) (snd started) with
  | Some plan, Normal reading =>
      Plan.status plan = active
      /\ map Condition.severity (Plan.rollbackConditions plan) = [warning]
      /\ Dict.get reading "errorRate" = Some (0.75 * 0.02)%float
      /\ shouldTriggerRollback plan reading = false
      /\ option_map Plan.status
           (getRolloutStatus
              (state_after checkActiveRollouts (fst started) (snd started))
              Sample.generated_id)
         = Some rolled_back
  | _, _ => False
  end.
Proof. vm_compute. repeat split; reflexivity. Qed.

(** *** The two deterministic paths *)

(** What [getFeatureVariant] returns is settled by the fields and the flag
    name up to one bit, the answer of [isFeatureEnabled], and only that bit
    depends on the host and on the draw. *)
Lemma getFeatureVariant_shape (flagName : string)
    (userContext : option (Dict.t Value)) (m : t) :
  exists (pick : option string) (enabled : Host -> float -> bool),
    forall w,
      completion_of (getFeatureVariant flagName userContext) w m
      = Normal (if enabled (host w) (Math_random_at (host w) (calls w))
                then pick else None).
Proof.
  unfold completion_of, getFeatureVariant. unfold bind at 1, this.
  cbn beta iota.
  destruct (flag_named m flagName) as [flag |] eqn:Hflag;
    [| exists None, (fun _ _ => false); reflexivity].
  destruct (Flag.enabled flag) eqn:Henabled; cbn [negb];
    [| exists None, (fun _ _ => false); reflexivity].
  destruct (Flag.variants flag) as [variants |];
    [| exists None, (fun _ _ => false); reflexivity].
  exists
    (match walk_weights
             (of_Z (Z.rem (simpleHash (userId m +:+ flagName)) 10000) / 100)
             0 variants with
     | Some variantId => Some variantId
     | None =>
         match variants with
         | v :: _ =>
             if String.eqb (FlagVariant.id v) EmptyString then None
             else Some (FlagVariant.id v)
         | [] => None
         end
     end),
    (fun h r =>
       negb (JS.gt (r * 100) (Flag.rolloutPercentage flag))
       && negb match Flag.targetAudiences flag with
               | [] => false
               | targetAudiences =>
                   negb (existsb
                           (fun audience =>
                              existsb (String.eqb audience) getUserAudiences)
                           targetAudiences)
               end
       && negb match Flag.conditions flag with
               | [] => false
               | conditions =>
                   negb (evaluateConditions h conditions
                           (Dict.assign (getUserContext m)
                              (default [] userContext)))
               end).
  intros w.
  unfold isFeatureEnabled, bind, this, the_host, Math_random, ret.
  cbn beta iota. rewrite Hflag. cbn beta iota. rewrite Henabled.
  cbn [negb fst snd].
  destruct (JS.gt _ (Flag.rolloutPercentage flag)); cbn [negb andb fst snd];
    [reflexivity |].
  destruct (match Flag.targetAudiences flag with [] => false | _ => _ end);
    cbn [negb andb fst snd]; [reflexivity |].
  destruct (match Flag.conditions flag with [] => false | _ => _ end);
    cbn [negb andb fst snd]; [reflexivity |].
  destruct (walk_weights _ 0 variants); [reflexivity |].
  destruct variants as [| v rest]; [reflexivity |].
  destruct (String.eqb (FlagVariant.id v) EmptyString); reflexivity.
Qed.

Lemma deterministicAssignment_by_user (variants : list ABTestManager.Variant.t)
    (seed : option string) (w1 w2 : World) (m1 m2 : ABTestManager.t) :
  ABTestManager.userId m1 = ABTestManager.userId m2 ->
  completion_of (ABTestManager.deterministicAssignment variants seed) w1 m1
  = completion_of (ABTestManager.deterministicAssignment variants seed) w2 m2.
Proof.
  intros Huser.
  unfold completion_of, ABTestManager.deterministicAssignment, bind, this.
  simpl. rewrite Huser.
  destruct (ABTestManager.walk_weights _ _ variants); [reflexivity |].
  destruct variants; reflexivity.
Qed.

(** C5, as the code has it: the deterministic allocation returns the same
    completion in any two runs that agree on the user id, the seed and the
    variant list, whatever the host and the rest of the manager. For a
    fixed flag, user and context on one host, getFeatureVariant always
    returns, two calls that both return a variant return the same variant,
    and two calls whose percentage roll draws the same number return the
    same result; the roll is drawn afresh by every call, so one call may
    return null and another a variant. *)
Theorem deterministic_up_to_the_roll :
  (forall variants seed w1 w2 m1 m2,
     ABTestManager.userId m1 = ABTestManager.userId m2 ->
     completion_of (ABTestManager.deterministicAssignment variants seed) w1 m1
     = completion_of (ABTestManager.deterministicAssignment variants seed) w2 m2)
  /\ (forall flagName userContext (m : t) w1 w2,
        host w1 = host w2 ->
        exists r1 r2,
          completion_of (getFeatureVariant flagName userContext) w1 m = Normal r1
          /\ completion_of (getFeatureVariant flagName userContext) w2 m = Normal r2
          /\ (forall v1 v2, r1 = Some v1 -> r2 = Some v2 -> v1 = v2)
          /\ (Math_random_at (host w1) (calls w1)
              = Math_random_at (host w2) (calls w2) -> r1 = r2)).
Proof.
  split; [exact deterministicAssignment_by_user |].
  intros flagName userContext m w1 w2 Hhost.
  destruct (getFeatureVariant_shape flagName userContext m) as (pick & enabled & Hshape).
  do 2 eexists. split; [apply Hshape |]. split; [apply Hshape |]. split.
  - intros v1 v2.
    destruct (enabled (host w1) _), (enabled (host w2) _); congruence.
  - intros Hdraw. rewrite Hdraw, Hhost. reflexivity.
Qed.

Lemma deterministic_up_to_the_roll_witness :
  let created :=
    run [call_createFeatureFlag
           (Sample.flag_config "new-ui" 50 (Some [Sample.flag_variant "blue" 100]))]
        (Sample.world 0.25) (Sample.rollout_manager Sample.fresh_ab_manager) in
  completion_of
    (ABTestManager.deterministicAssignment Sample.two_arms (Some "salt"))
    (Sample.world 0.25) (Sample.ab_manager ABTestManager.active Sample.two_arms [])
  = completion_of
      (ABTestManager.deterministicAssignment Sample.two_arms (Some "salt"))
      (Sample.world 0.75) Sample.fresh_ab_manager
  /\ exists r1 r2,
       completion_of (getFeatureVariant "new-ui" None) (fst created) (snd created)
       = Normal r1
       /\ completion_of (getFeatureVariant "new-ui" None) (tick (fst created))
            (snd created) = Normal r2
       /\ (forall v1 v2, r1 = Some v1 -> r2 = Some v2 -> v1 = v2)
       /\ r1 = r2.
Proof.
  intros created.
  destruct deterministic_up_to_the_roll as [Hallocation Hflag]. split.
  - apply Hallocation. reflexivity.
  - destruct (Hflag "new-ui" None (snd created) (fst created)
                (tick (fst created)) eq_refl)
      as (r1 & r2 & H1 & H2 & Hsame & Hdraw).
    exists r1, r2. repeat split; try assumption. apply Hdraw. reflexivity.
Defined.

(** C5, as the specification words it, fails: on a host whose draws
    alternate between 0.25 and 0.75, a flag at 50 percent with the single
    variant blue is created, and two calls of getFeatureVariant for the same
    flag, user and context follow; the first returns null, the second
    blue. *)
Lemma flag_variant_differs_between_calls :
  let created :=
    run [call_createFeatureFlag
           (Sample.flag_config "new-ui" 50 (Some [Sample.flag_variant "blue" 100]))]
        Sample.alternating_world (Sample.rollout_manager Sample.fresh_ab_manager) in
  let first := getFeatureVariant "new-ui" None (fst created) (snd created) in
  let second := getFeatureVariant "new-ui" None (fst (snd first)) (snd (snd first)) in
  snd (snd first) = snd created
  /\ fst first = Normal None
  /\ fst second = Normal (Some "blue").
Proof. vm_compute. repeat split; reflexivity. Qed.

(** *** Creation and evaluation *)

Lemma createTest_rejects_weights (testConfig : ABTestManager.Config.t)
    (w : World) (m : ABTestManager.t) :
  JS.gt (Math_abs
           (fold_left (fun sum v => (sum + ABTestManager.Variant.weight v)%float)
                      (ABTestManager.Config.variants testConfig) 0%float
            - 100)) 0.01 = true ->
  completion_of (ABTestManager.createTest testConfig) w m
  = Throw (Error "Variant weights must sum to 100")
  /\ state_after (ABTestManager.createTest testConfig) w m = m.
Proof.
  intros Hweights.
  unfold completion_of, state_after, ABTestManager.createTest,
    ABTestManager.generateId, ABTestManager.validateTestConfig.
  unfold bind, Date_now, Math_random, the_host, ret, throw. simpl.
  rewrite Hweights. split; reflexivity.
Qed.

Lemma createFeatureFlag_stores (flag : FlagConfig.t) (w : World) (m : t) :
  exists flagId,
    completion_of (createFeatureFlag flag) w m = Normal flagId
    /\ Dict.get (featureFlags (state_after (createFeatureFlag flag) w m)) flagId
       = Some (Flag.of_config flagId flag).
Proof.
  unfold completion_of, state_after, createFeatureFlag, generateId.
  unfold bind, Date_now, Math_random, the_host, ret, update, detached. simpl.
  eexists. split; [reflexivity |]. apply DictFacts.get_set_eq.
Qed.

Lemma createRolloutPlan_stores (plan : PlanConfig.t) (w : World) (m : t) :
  exists rolloutId,
    Dict.get (activeRollouts (state_after (createRolloutPlan plan) w m)) rolloutId
    = Some (Plan.of_config rolloutId plan)
    /\ completion_of (createRolloutPlan plan) w m
       = if setItem_throws (host w) (S (S (calls w)))
         then Throw (DOMException "QuotaExceededError")
         else Normal rolloutId.
Proof.
  unfold completion_of, state_after, createRolloutPlan, generateId,
    persistRollout.
  unfold bind, Date_now, Math_random, the_host, ret, update,
    localStorage_setItem. simpl.
  eexists. split.
  - destruct (setItem_throws _ _); simpl; apply DictFacts.get_set_eq.
  - destruct (setItem_throws _ _); reflexivity.
Qed.

Lemma isFeatureEnabled_returns flagName userContext :
  never_throws (isFeatureEnabled flagName userContext).
Proof. unfold isFeatureEnabled. returns. Qed.

Lemma getFeatureVariant_returns flagName userContext :
  never_throws (getFeatureVariant flagName userContext).
Proof.
  unfold getFeatureVariant. pose proof isFeatureEnabled_returns. returns.
Qed.

(** C9, as the code has it: of the configuration errors only the weight
    check exists. createTest raises before the experiment is stored when
    the variant weights are further than 0.01 from 100, and the manager is
    left as it was. Every other configuration is accepted: when the weights
    pass, createTest stores the experiment as given under the generated
    id, with a control among its variants or without one, and returns the
    id; createFeatureFlag checks nothing, always returns and stores the
    flag as given, whatever the weights of its variants; createRolloutPlan
    checks nothing and stores the plan as given, whatever its phases, and
    returns the id. None of them raises a configuration error: the one
    exception that leaves createTest after the check, and
    createRolloutPlan, is the one localStorage.setItem throws when the
    storage is full, after the experiment or plan is stored in the
    manager. Evaluation raises nothing: getAssignment returns for every
    test whose weights pass the check, the computation of results returns
    for every known test, isFeatureEnabled and getFeatureVariant always
    return. *)
Theorem configuration_checks :
  (forall testConfig w m,
     JS.gt (Math_abs
              (fold_left (fun sum v => (sum + ABTestManager.Variant.weight v)%float)
                         (ABTestManager.Config.variants testConfig) 0%float
               - 100)) 0.01 = true ->
     completion_of (ABTestManager.createTest testConfig) w m
     = Throw (Error "Variant weights must sum to 100")
     /\ state_after (ABTestManager.createTest testConfig) w m = m)
  /\ (forall testConfig w m,
        JS.gt (Math_abs
                 (fold_left
                    (fun sum v => (sum + ABTestManager.Variant.weight v)%float)
                    (ABTestManager.Config.variants testConfig) 0%float
                  - 100)) 0.01 = false ->
        exists testId created,
          ABTestManager.activeTests
            (state_after (ABTestManager.createTest testConfig) w m) !! testId
          = Some (ABTestManager.Test.of_config testId testConfig created)
          /\ completion_of (ABTestManager.createTest testConfig) w m
             = if setItem_throws (host w) (S (S (S (calls w))))
               then Throw (DOMException "QuotaExceededError")
               else Normal testId)
  /\ (forall flag w m,
        exists flagId,
          completion_of (createFeatureFlag flag) w m = Normal flagId
          /\ Dict.get (featureFlags (state_after (createFeatureFlag flag) w m))
               flagId
             = Some (Flag.of_config flagId flag))
  /\ (forall plan w m,
        exists rolloutId,
          Dict.get (activeRollouts (state_after (createRolloutPlan plan) w m))
            rolloutId
          = Some (Plan.of_config rolloutId plan)
          /\ completion_of (createRolloutPlan plan) w m
             = if setItem_throws (host w) (S (S (calls w)))
               then Throw (DOMException "QuotaExceededError")
               else Normal rolloutId)
  /\ (forall testId w (m : ABTestManager.t),
        (forall test,
           ABTestManager.activeTests m !! testId = Some test ->
           JS.gt (Math_abs
                    (fold_left
                       (fun sum v => (sum + ABTestManager.Variant.weight v)%float)
                       (ABTestManager.Test.variants test) 0%float
                     - 100)) 0.01 = false) ->
        exists r, completion_of (ABTestManager.getAssignment testId) w m = Normal r)
  /\ (forall testId test w (m : ABTestManager.t),
        ABTestManager.activeTests m !! testId = Some test ->
        exists results,
          completion_of (ABTestManager.calculateResults testId) w m
          = Normal results)
  /\ (forall flagName userContext,
        never_throws (isFeatureEnabled flagName userContext)
        /\ never_throws (getFeatureVariant flagName userContext)).
Proof.
  split; [exact createTest_rejects_weights |].
  split.
  { intros testConfig w m Hvalid.
    pose proof (ABTestManagerFacts.createTest_valid testConfig w m Hvalid)
      as Hcreate.
    cbv zeta in Hcreate. do 2 eexists.
    unfold state_after, completion_of. rewrite Hcreate. cbn [fst snd].
    split; [| reflexivity].
    cbn [ABTestManager.activeTests ABTestManager.set_activeTests].
    apply lookup_insert_eq. }
  split; [exact createFeatureFlag_stores |].
  split; [exact createRolloutPlan_stores |].
  split; [| split].
  - intros testId w m Hvalid.
    apply ABTestManagerFacts.getAssignment_returns.
    intros test Htest.
    apply ABTestManagerFacts.valid_weights_nonempty, Hvalid, Htest.
  - intros testId test w m Htest.
    destruct (ABTestManagerFacts.calculateResults_returns w m testId test Htest)
      as [results E].
    exists results. unfold completion_of. rewrite E. reflexivity.
  - intros flagName userContext. split.
    + apply isFeatureEnabled_returns.
    + apply getFeatureVariant_returns.
Qed.

Lemma configuration_checks_witness :
  (completion_of
     (ABTestManager.createTest
        (Sample.experiment [Sample.variant "control" 50 true;
                            Sample.variant "treatment" 30 false]))
     (Sample.world 0.75) Sample.fresh_ab_manager
   = Throw (Error "Variant weights must sum to 100")
   /\ state_after
        (ABTestManager.createTest
           (Sample.experiment [Sample.variant "control" 50 true;
                               Sample.variant "treatment" 30 false]))
        (Sample.world 0.75) Sample.fresh_ab_manager
      = Sample.fresh_ab_manager)
  /\ (exists testId created,
        ABTestManager.activeTests
          (state_after
             (ABTestManager.createTest
                (Sample.experiment [Sample.variant "A" 50 false;
                                    Sample.variant "B" 50 false]))
             (Sample.world 0.75) Sample.fresh_ab_manager) !! testId
        = Some (ABTestManager.Test.of_config testId
                  (Sample.experiment [Sample.variant "A" 50 false;
                                      Sample.variant "B" 50 false]) created)
        /\ completion_of
             (ABTestManager.createTest
                (Sample.experiment [Sample.variant "A" 50 false;
                                    Sample.variant "B" 50 false]))
             (Sample.world 0.75) Sample.fresh_ab_manager
           = Normal testId)
  /\ (exists r,
        completion_of (ABTestManager.getAssignment "exp1") (Sample.world 0.75)
          (Sample.ab_manager ABTestManager.active Sample.two_arms [])
        = Normal r)
  /\ (exists results,
        completion_of (ABTestManager.calculateResults "exp1") (Sample.world 0.75)
          (Sample.ab_manager ABTestManager.active Sample.two_arms [])
        = Normal results).
Proof.
  destruct configuration_checks
    as (Hweights & Haccepted & _ & _ & Hassign & Hresults & _).
  split; [| split; [| split]].
  - apply Hweights. reflexivity.
  - destruct (Haccepted
                (Sample.experiment [Sample.variant "A" 50 false;
                                    Sample.variant "B" 50 false])
                (Sample.world 0.75) Sample.fresh_ab_manager eq_refl)
      as (testId & created & Hstored & Hreturned).
    exists testId, created. split; [exact Hstored | exact Hreturned].
  - apply Hassign. intros test Htest.
    assert (test = Sample.test_in ABTestManager.active Sample.two_arms) as ->.
    { vm_compute in Htest. injection Htest as <-. reflexivity. }
    reflexivity.
  - apply (Hresults "exp1" (Sample.test_in ABTestManager.active Sample.two_arms)).
    reflexivity.
Defined.

(** C9, as the specification words it, fails: an experiment whose two
    variants are both treatments, a feature flag whose only variant weighs
    30 and a rollout plan without phases are each created without an error
    and stored. *)
Lemma creation_accepts_unchecked_configurations :
  let w := Sample.world 0.75 in
  let no_control :=
    Sample.experiment [Sample.variant "A" 50 false; Sample.variant "B" 50 false] in
  let light_flag :=
    Sample.flag_config "new-ui" 100 (Some [Sample.flag_variant "blue" 30]) in
  let no_phases := Sample.plan_config "no-flag" [] [] in
  let m := Sample.rollout_manager Sample.fresh_ab_manager in
  (completion_of (ABTestManager.createTest no_control) w Sample.fresh_ab_manager
   = Normal Sample.generated_id
   /\ option_map ABTestManager.Test.variants
        (ABTestManager.activeTests
           (state_after (ABTestManager.createTest no_control) w
              Sample.fresh_ab_manager) !! Sample.generated_id)
      = Some (ABTestManager.Config.variants no_control))
  /\ (completion_of (createFeatureFlag light_flag) w m = Normal Sample.generated_id
      /\ option_map Flag.variants
           (Dict.get (featureFlags (state_after (createFeatureFlag light_flag) w m))
              Sample.generated_id)
         = Some (Some [Sample.flag_variant "blue" 30]))
  /\ (completion_of (createRolloutPlan no_phases) w m = Normal Sample.generated_id
      /\ option_map Plan.phases
           (getRolloutStatus (state_after (createRolloutPlan no_phases) w m)
              Sample.generated_id)
         = Some []).
Proof. vm_compute. repeat split; reflexivity. Qed.

End RolloutManagerFacts.

(** * Further properties *)

Module HashFacts.

Lemma ToInt32_range (z : Z) : (- 2 ^ 31 <= ToInt32 z < 2 ^ 31)%Z.
Proof.
  unfold ToInt32.
  change (2 ^ 31)%Z with 2147483648%Z. change (2 ^ 32)%Z with 4294967296%Z.
  pose proof (Z.mod_pos_bound (z + 2147483648) 4294967296 eq_refl) as H.
  revert H. generalize ((z + 2147483648) mod 4294967296)%Z. intros r H. lia.
Qed.

Lemma band_self_range (z : Z) : (- 2 ^ 31 <= band z z < 2 ^ 31)%Z.
Proof. unfold band. rewrite Z.land_diag. apply ToInt32_range. Qed.

Lemma hash_loop_range (codes : list Z) (start : Z) :
  (- 2 ^ 31 <= start < 2 ^ 31)%Z ->
  (- 2 ^ 31 <=
   fold_left (fun hash char =>
                let hash := (shl hash 5 - hash + char)%Z in band hash hash)
             codes start < 2 ^ 31)%Z.
Proof.
  revert start. induction codes as [| c codes IH]; intros start Hstart; simpl.
  - exact Hstart.
  - apply IH, band_self_range.
Qed.

(** X1: simpleHash, the same function in both classes, returns a number
    between 0 and 2^31 inclusive (2^31 when the 32-bit hash is the most
    negative integer), so the bucket hash % 10000 lies in 0 .. 9999. *)
Theorem simpleHash_range (str : string) :
  (0 <= ABTestManager.simpleHash str <= 2 ^ 31)%Z
  /\ (0 <= Z.rem (ABTestManager.simpleHash str) 10000 < 10000)%Z
  /\ RolloutManager.simpleHash str = ABTestManager.simpleHash str.
Proof.
  assert (0 <= ABTestManager.simpleHash str <= 2 ^ 31)%Z as Hrange.
  { unfold ABTestManager.simpleHash.
    match goal with
    | |- (0 <= Z.abs ?h <= _)%Z =>
        assert (- 2 ^ 31 <= h < 2 ^ 31)%Z as H
          by (apply hash_loop_range; split; [discriminate | reflexivity]);
        revert H; generalize h
    end.
    change (2 ^ 31)%Z with 2147483648%Z. intros z Hz. lia. }
  split; [exact Hrange |]. split; [| reflexivity].
  apply Z.rem_bound_pos; [apply Hrange | reflexivity].
Qed.

End HashFacts.

Module EnsuresFacts.

Import Conditions.

Section Ensures.
Context {S A : Type} (Q : A -> Prop).

Lemma ensures_ret (a : A) : Q a -> ensures (S := S) Q (ret a).
Proof. intros Ha w s b [= <-]. exact Ha. Qed.

Lemma ensures_throw (e : Exception) : ensures (S := S) Q (throw e).
Proof. intros w s b. discriminate. Qed.

Lemma ensures_bind {B : Type} (m : M S B) (k : B -> M S A) :
  (forall b, ensures Q (k b)) -> ensures Q (bind m k).
Proof.
  intros Hk w s a. unfold completion_of, bind.
  destruct (m w s) as [[b | e] [w' s']]; simpl; [apply Hk | discriminate].
Qed.

End Ensures.

End EnsuresFacts.

Module ABTestManagerMore.

Import ABTestManager.
Import Conditions.

Lemma walk_weights_In (x cumulative : float) (variants : list ABVariant)
    (variantId : string) :
  walk_weights x cumulative variants = Some variantId ->
  In variantId (map Variant.id variants).
Proof.
  revert cumulative. induction variants as [| v rest IH]; intros cumulative; simpl.
  - discriminate.
  - destruct (JS.le x _); [intros [= <-]; left; reflexivity |].
    intros H. right. eapply IH, H.
Qed.

Lemma first_variant_id_In (variants : list ABVariant) :
  ensures (fun v => In v (map Variant.id variants)) (first_variant_id variants).
Proof.
  destruct variants as [| v rest]; simpl.
  - apply EnsuresFacts.ensures_throw.
  - apply EnsuresFacts.ensures_ret. left. reflexivity.
Qed.

Lemma randomAssignment_In (variants : list ABVariant) :
  ensures (fun v => In v (map Variant.id variants)) (randomAssignment variants).
Proof.
  unfold randomAssignment. apply EnsuresFacts.ensures_bind. intros r.
  destruct (walk_weights _ 0 variants) as [variantId |] eqn:Hwalk.
  - apply EnsuresFacts.ensures_ret. eapply walk_weights_In, Hwalk.
  - apply first_variant_id_In.
Qed.

Lemma no_variants_throws (w : World) (m : ABTestManager.t) (test : ABTest) :
  Test.variants test = [] ->
  exists e, completion_of (assignUserToVariant test) w m = Throw e.
Proof.
  intros Hnone.
  unfold completion_of, assignUserToVariant, randomAssignment,
    deterministicAssignment, gradualAssignment.
  rewrite Hnone.
  destruct (type (Test.allocation test)); simpl.
  - eauto.
  - eauto.
  - destruct (gradualRollout (Test.allocation test)); simpl; [| eauto].
    unfold bind, Date_now, Math_random. simpl.
    destruct (JS.gt _ _); simpl; eauto.
Qed.

Lemma deterministicAssignment_In (variants : list ABVariant)
    (seed : option string) :
  ensures (fun v => In v (map Variant.id variants))
          (deterministicAssignment variants seed).
Proof.
  unfold deterministicAssignment. apply EnsuresFacts.ensures_bind. intros m.
  destruct (walk_weights _ 0 variants) as [variantId |] eqn:Hwalk.
  - apply EnsuresFacts.ensures_ret. eapply walk_weights_In, Hwalk.
  - apply first_variant_id_In.
Qed.

Lemma gradualAssignment_In (test : ABTest) :
  ensures (fun v => In v (map Variant.id (Test.variants test)))
          (gradualAssignment test).
Proof.
  unfold gradualAssignment.
  destruct (gradualRollout (Test.allocation test)); [| apply randomAssignment_In].
  apply EnsuresFacts.ensures_bind. intros currentTime.
  apply EnsuresFacts.ensures_bind. intros r.
  destruct (JS.gt _ _); [| apply randomAssignment_In].
  destruct (List.find Variant.isControl (Test.variants test)) as [v |] eqn:Hfind;
    [| apply first_variant_id_In].
  destruct (String.eqb (Variant.id v) EmptyString); [apply first_variant_id_In |].
  apply EnsuresFacts.ensures_ret. apply in_map.
  apply (find_some _ _ Hfind).
Qed.

(** X2: whatever the allocation strategy (random, deterministic, gradual),
    a variant id that assignUserToVariant returns is the id of one of the
    test's variants; on a test without variants it throws. *)
Theorem allocation_returns_a_variant (test : ABTest) :
  ensures (fun v => In v (map Variant.id (Test.variants test)))
          (assignUserToVariant test)
  /\ (Test.variants test = [] ->
      forall w m, exists e, completion_of (assignUserToVariant test) w m = Throw e).
Proof.
  split; [| intros Hnone w m; apply no_variants_throws, Hnone].
  unfold assignUserToVariant.
  destruct (type (Test.allocation test)).
  - apply randomAssignment_In.
  - apply deterministicAssignment_In.
  - apply gradualAssignment_In.
Qed.

Lemma allocation_returns_a_variant_witness :
  In "treatment" (map Variant.id Sample.two_arms)
  /\ exists e,
       completion_of (assignUserToVariant (Sample.test_in active []))
         (Sample.world 0.75) Sample.fresh_ab_manager = Throw e.
Proof.
  destruct (allocation_returns_a_variant (Sample.test_in active Sample.two_arms))
    as [Hin _].
  destruct (allocation_returns_a_variant (Sample.test_in active []))
    as [_ Hthrows].
  split.
  - apply (Hin (Sample.world 0.75) Sample.fresh_ab_manager "treatment").
    reflexivity.
  - apply Hthrows. reflexivity.
Defined.

(** X3: getAssignment records at most one assignment. When it returns null
    or throws, the manager is left as it was. When it returns a variant,
    either an active assignment was already recorded and nothing changes,
    or none was and exactly one record is appended to the assignments of
    the user: for this test, active, with the returned variant, which is
    one of the test's variants. *)
Theorem getAssignment_effect (w : World) (m : ABTestManager.t) (testId : string) :
  match completion_of (getAssignment testId) w m with
  | Normal (Some v) =>
      (exists a,
         getUserAssignment m testId = Some a
         /\ Assignment.variantId a = v
         /\ state_after (getAssignment testId) w m = m)
      \/ (exists test assignedAt,
            activeTests m !! testId = Some test
            /\ getUserAssignment m testId = None
            /\ In v (map Variant.id (Test.variants test))
            /\ state_after (getAssignment testId) w m
               = set_userAssignments
                   (<[userId m :=
                        (default [] (userAssignments m !! userId m)
                         ++ [{| Assignment.userId := userId m;
                                Assignment.testId := testId;
                                Assignment.variantId := v;
                                Assignment.assignedAt := assignedAt;
                                Assignment.isActive := true |}])%list]>
                      (userAssignments m)) m)
  | _ => state_after (getAssignment testId) w m = m
  end.
Proof.
  unfold completion_of, state_after.
  destruct (getAssignment testId w m) as [c [w' m']] eqn:E. cbn [fst snd].
  revert E. unfold getAssignment. unfold bind at 1, this. cbn beta iota.
  destruct (activeTests m !! testId) as [test |] eqn:Htest;
    [| intros [= <- _ <-]; reflexivity].
  destruct (negb (status_eqb (Test.status test) active));
    [intros [= <- _ <-]; reflexivity |].
  destruct (getUserAssignment m testId) as [a |] eqn:Ha.
  - intros [= <- _ <-]. left. exists a. repeat split.
  - unfold bind at 1.
    destruct (Methods.unchanged (isUserEligible test) w m
                (ABTestManagerFacts.isUserEligible_preserves Logic.eq test))
      as (c1 & w1 & E1).
    rewrite E1. destruct c1 as [[|] | e1]; cbn [negb fst snd];
      try (intros [= <- _ <-]; reflexivity).
    unfold bind at 1.
    destruct (Methods.unchanged (assignUserToVariant test) w1 m
                (ABTestManagerFacts.assignUserToVariant_preserves Logic.eq test))
      as (c2 & w2 & E2).
    rewrite E2. destruct c2 as [variantId | e2];
      [| intros [= <- _ <-]; reflexivity].
    cbn. intros [= <- _ <-]. right. exists test. eexists. repeat split.
    assert (ensures (fun v => In v (map Variant.id (Test.variants test)))
                    (assignUserToVariant test)) as Hin.
    { unfold assignUserToVariant.
      destruct (type (Test.allocation test));
        [apply randomAssignment_In | apply deterministicAssignment_In
        | apply gradualAssignment_In]. }
    apply (Hin w1 m variantId). unfold completion_of. rewrite E2. reflexivity.
Qed.

(** X4: the user data of the manager is fixed (type beta, experience
    intermediate, platform desktop), so an experiment whose audience
    criteria name another user type, experience or platform takes nobody:
    isUserEligible returns false, and getAssignment returns null and
    records nothing for a user without a recorded assignment. *)
Theorem other_audiences_exclude_everyone (w : World) (m : ABTestManager.t)
    (testId : string) (test : ABTest) :
  activeTests m !! testId = Some test ->
  getUserAssignment m testId = None ->
  ((exists u, userType (criteria (Test.targetAudience test)) = Some u /\ u <> beta)
   \/ (exists e, experience (criteria (Test.targetAudience test)) = Some e
                 /\ e <> intermediate)
   \/ (exists p, platform (criteria (Test.targetAudience test)) = Some p
                 /\ p <> desktop)) ->
  completion_of (isUserEligible test) w m = Normal false
  /\ completion_of (getAssignment testId) w m = Normal None
  /\ state_after (getAssignment testId) w m = m.
Proof.
  intros Htest Hnone Hother.
  assert (forall w', isUserEligible test w' m = (Normal false, (tick w', m)))
    as Hfalse.
  { intros w'. unfold isUserEligible, bind, Math_random, ret. cbn.
    match goal with
    | |- context [if ?b then _ else _] => destruct b; [reflexivity |]
    end.
    destruct Hother as [(u & -> & Hu) | [(e & He & Hne) | (p & Hp & Hnp)]].
    - destruct u; try reflexivity. contradiction.
    - rewrite He.
      destruct (userType _) as [[] |]; cbn; try reflexivity;
        destruct e; try reflexivity; contradiction.
    - rewrite Hp.
      destruct (userType _) as [[] |]; cbn; try reflexivity;
        destruct (experience _) as [[] |]; cbn; try reflexivity;
        destruct p; try reflexivity; contradiction. }
  split; [unfold completion_of; rewrite Hfalse; reflexivity |].
  unfold completion_of, state_after, getAssignment, bind, this. cbn beta iota.
  rewrite Htest.
  destruct (negb (status_eqb (Test.status test) active)); [split; reflexivity |].
  rewrite Hnone, Hfalse. split; reflexivity.
Qed.

Lemma other_audiences_exclude_everyone_witness :
  completion_of (isUserEligible (Cases.test_for Cases.returning_users))
    (Sample.world 0.25) (Cases.manager_for Cases.returning_users)
  = Normal false
  /\ completion_of (getAssignment "exp1") (Sample.world 0.25)
       (Cases.manager_for Cases.returning_users)
     = Normal None
  /\ state_after (getAssignment "exp1") (Sample.world 0.25)
       (Cases.manager_for Cases.returning_users)
     = Cases.manager_for Cases.returning_users.
Proof.
  apply (other_audiences_exclude_everyone (Sample.world 0.25)
           (Cases.manager_for Cases.returning_users) "exp1"
           (Cases.test_for Cases.returning_users)).
  - reflexivity.
  - reflexivity.
  - left. exists returning. split; [reflexivity | discriminate].
Defined.

(** *** Events carry the variant of the assignment *)

#[global] Instance grows_recorded_preorder : PreOrder grows_recorded.
Proof.
  split.
  - intros m. split; [reflexivity |].
    exists []. rewrite app_nil_r. split; [reflexivity | constructor].
  - intros m1 m2 m3 [G1 (l1 & E1 & F1)] [G2 (l2 & E2 & F2)].
    split; [etransitivity; eassumption |].
    exists (l1 ++ l2)%list. split.
    + rewrite E2, E1, app_assoc. reflexivity.
    + apply Forall_app. split; [| exact F2].
      eapply List.Forall_impl; [| exact F1].
      intros e (Hu & a & Ha & Hv). split.
      * destruct G2 as (-> & _). exact Hu.
      * exists a. split; [| exact Hv].
        eapply ABTestManagerFacts.grows_getUserAssignment; eassumption.
Qed.

(** A step that appends assignments and leaves the events alone. *)
Lemma quiet_step (m m' : ABTestManager.t) :
  grows m m' -> testEvents m' = testEvents m -> grows_recorded m m'.
Proof.
  intros G E. split; [exact G |].
  exists []. rewrite app_nil_r. split; [exact E | constructor].
Qed.

Lemma set_activeTests_recorded (f : ABTestManager.t -> gmap string ABTest) :
  preserves grows_recorded (update (fun m => set_activeTests (f m) m)).
Proof.
  intros w m. apply quiet_step; [| reflexivity].
  apply (ABTestManagerFacts.set_activeTests_grows f w m).
Qed.

Lemma write_test_recorded testId f :
  preserves grows_recorded (write_test testId f).
Proof.
  intros w m. apply quiet_step.
  - apply (ABTestManagerFacts.write_test_grows testId f w m).
  - unfold state_after, write_test, update. simpl.
    destruct (activeTests m !! testId); reflexivity.
Qed.

Lemma recordAssignment_recorded testId variantId :
  preserves grows_recorded (recordAssignment testId variantId).
Proof.
  intros w m. apply quiet_step.
  - apply (ABTestManagerFacts.recordAssignment_grows testId variantId w m).
  - reflexivity.
Qed.

Lemma trackEvent_recorded testId eventType eventValue metadata :
  preserves grows_recorded (trackEvent testId eventType eventValue metadata).
Proof.
  intros w m. split.
  - apply (ABTestManagerFacts.trackEvent_grows testId eventType eventValue
             metadata w m).
  - unfold state_after, trackEvent, bind, this. simpl.
    destruct (getUserAssignment m testId) as [a |] eqn:Ha; simpl.
    + eexists. split; [reflexivity |].
      constructor; [| constructor]. split; [reflexivity |].
      exists a. split; [exact Ha | reflexivity].
    + exists []. rewrite app_nil_r. split; [reflexivity | constructor].
Qed.

Lemma getAssignment_recorded testId :
  preserves grows_recorded (getAssignment testId).
Proof.
  unfold getAssignment.
  pose proof (ABTestManagerFacts.isUserEligible_preserves grows_recorded).
  pose proof (ABTestManagerFacts.assignUserToVariant_preserves grows_recorded).
  pose proof recordAssignment_recorded.
  preserve.
Qed.

Lemma createTest_recorded testConfig :
  preserves grows_recorded (createTest testConfig).
Proof.
  unfold createTest, persistTest.
  pose proof (ABTestManagerFacts.generateId_preserves grows_recorded).
  pose proof (ABTestManagerFacts.validateTestConfig_preserves grows_recorded).
  pose proof set_activeTests_recorded.
  preserve.
Qed.

Lemma startTest_recorded testId : preserves grows_recorded (startTest testId).
Proof.
  unfold startTest, startMonitoring, persistTest, not_found.
  pose proof write_test_recorded. preserve.
Qed.

Lemma stopTest_recorded testId reason :
  preserves grows_recorded (stopTest testId reason).
Proof.
  unfold stopTest, stopMonitoring, persistTest, not_found.
  pose proof (ABTestManagerFacts.calculateResults_preserves grows_recorded).
  pose proof write_test_recorded.
  preserve.
Qed.

Lemma checkSafeguards_recorded testId :
  preserves grows_recorded (checkSafeguards testId).
Proof.
  unfold checkSafeguards, triggerRollback.
  pose proof (ABTestManagerFacts.getCurrentMetrics_preserves grows_recorded).
  pose proof write_test_recorded.
  preserve.
Qed.

Lemma perform_recorded (c : Call) : preserves grows_recorded (perform c).
Proof.
  destruct c; simpl.
  - pose proof createTest_recorded. preserve.
  - apply startTest_recorded.
  - apply stopTest_recorded.
  - pose proof getAssignment_recorded. preserve.
  - apply trackEvent_recorded.
  - apply checkSafeguards_recorded.
Qed.

Lemma run_recorded (history : list Call) (w : World) (m : ABTestManager.t) :
  grows_recorded m (snd (run history w m)).
Proof.
  revert w m. induction history as [| c rest IH]; intros w m; simpl.
  - reflexivity.
  - etransitivity; [apply (perform_recorded c w m) | apply IH].
Qed.

Lemma recorded_after (m m' : ABTestManager.t) :
  grows_recorded m m' ->
  Forall (recorded_for m) (testEvents m) ->
  Forall (recorded_for m') (testEvents m').
Proof.
  intros [G (later & E & F)] Hm. rewrite E. apply Forall_app. split; [| exact F].
  eapply List.Forall_impl; [| exact Hm].
  intros e (Hu & a & Ha & Hv). split.
  - destruct G as (-> & _). exact Hu.
  - exists a. split; [| exact Hv].
    eapply ABTestManagerFacts.grows_getUserAssignment; eassumption.
Qed.

(** X5: every event the manager holds carries the user of the manager and
    the variant of that user's active assignment for the event's test, and
    no history of calls (creating, starting and stopping tests, asking for
    assignments, tracking events, monitor ticks) breaks this: the events of
    one test in one manager all carry one and the same variant. A manager
    starts without events, where the condition holds trivially. *)
Theorem events_carry_the_assignment (history : list Call) (w : World)
    (m : ABTestManager.t) :
  Forall (recorded_for m) (testEvents m) ->
  let m' := snd (run history w m) in
  Forall (recorded_for m') (testEvents m')
  /\ forall e e',
       In e (testEvents m') -> In e' (testEvents m') ->
       Event.testId e = Event.testId e' ->
       Event.variantId e = Event.variantId e' /\ Event.userId e = Event.userId e'.
Proof.
  intros Hm m'.
  assert (Forall (recorded_for m') (testEvents m')) as Hall.
  { apply (recorded_after m m'); [apply run_recorded | exact Hm]. }
  split; [exact Hall |].
  intros e e' He He' Hsame.
  rewrite List.Forall_forall in Hall.
  destruct (Hall e He) as (Hu & a & Ha & Hv).
  destruct (Hall e' He') as (Hu' & a' & Ha' & Hv').
  rewrite Hsame in Ha. rewrite Ha in Ha'. injection Ha' as <-.
  split; congruence.
Qed.

Lemma events_carry_the_assignment_witness :
  let m' :=
    snd (run Cases.assign_convert_stop (Sample.world 0.25)
           (Sample.ab_manager active Sample.two_arms [])) in
  Forall (recorded_for m') (testEvents m')
  /\ forall e e',
       In e (testEvents m') -> In e' (testEvents m') ->
       Event.testId e = Event.testId e' ->
       Event.variantId e = Event.variantId e' /\ Event.userId e = Event.userId e'.
Proof.
  apply (events_carry_the_assignment Cases.assign_convert_stop
           (Sample.world 0.25) (Sample.ab_manager active Sample.two_arms [])).
  constructor.
Defined.

(** *** The statistics of one user *)

Lemma nan_add_l (x : float) : (nan + x)%float = nan.
Proof.
  rewrite <- (FloatAxioms.SF2Prim_Prim2SF (nan + x)), FloatAxioms.add_spec.
  reflexivity.
Qed.

Lemma nan_add_r (x : float) : (x + nan)%float = nan.
Proof.
  rewrite <- (FloatAxioms.SF2Prim_Prim2SF (x + nan)), FloatAxioms.add_spec.
  change (Prim2SF nan) with S754_nan.
  destruct (Prim2SF x); reflexivity.
Qed.

(** Without conversion events the standard error is the square root of
    0 / 0. *)
Lemma no_events_standardError (primaryMetric : string) :
  standardError (calculateVariantMetrics [] primaryMetric) = nan.
Proof. reflexivity. Qed.

Lemma remove_dups_constant (u : string) (l : list string) :
  Forall (fun x => x = u) l -> length (remove_dups l) <= 1.
Proof.
  induction l as [| x l IH]; intros Hall; simpl; [lia |].
  apply Forall_cons in Hall as [-> Hall].
  destruct (decide_rel elem_of u l) as [Hin | Hout]; [apply IH, Hall |].
  destruct l as [| y l]; [simpl; lia |].
  apply Forall_cons in Hall as [-> _].
  exfalso. apply Hout. left.
Qed.

Lemma distinct_users_one (u : string) (events : list ABTestEvent) :
  Forall (fun e => Event.userId e = u) events -> distinct_users events <= 1.
Proof.
  intros Hall. unfold distinct_users. apply (remove_dups_constant u).
  induction Hall; simpl; constructor; assumption.
Qed.

Lemma per_variant_sizes (events : list ABTestEvent) (primaryMetric : string)
    (variants : list ABVariant) (acc : Dict.t nat * Dict.t VariantMetrics)
    (id : string) :
  Dict.get
    (fst (fold_left
            (fun acc variant =>
               let variantEvents :=
                 List.filter
                   (fun e => String.eqb (Event.variantId e) (Variant.id variant))
                   events in
               let uniqueUsers := distinct_users variantEvents in
               (Dict.set_primitive (fst acc) (Variant.id variant) uniqueUsers,
                Dict.set (snd acc) (Variant.id variant)
                         (calculateVariantMetrics variantEvents primaryMetric)))
            variants acc))
    id
  = if existsb (fun v => String.eqb (Variant.id v) id) variants
       && negb (String.eqb id "__proto__")
    then Some (distinct_users
                 (List.filter (fun e => String.eqb (Event.variantId e) id) events))
    else Dict.get (fst acc) id.
Proof.
  revert acc. induction variants as [| x rest IH]; intros acc; simpl.
  - reflexivity.
  - rewrite IH. simpl. unfold Dict.set_primitive.
    destruct (String.eqb_spec (Variant.id x) id) as [-> | Hne]; simpl.
    + destruct (String.eqb id "__proto__"); simpl.
      * rewrite andb_false_r. reflexivity.
      * rewrite DictFacts.get_set_eq, !andb_true_r.
        destruct (existsb _ rest); reflexivity.
    + destruct (String.eqb (Variant.id x) "__proto__"); [reflexivity |].
      rewrite DictFacts.get_set_ne by exact Hne. reflexivity.
Qed.

Lemma filter_Forall {A : Type} (P : A -> Prop) (f : A -> bool) (l : list A) :
  Forall P l -> Forall P (List.filter f l).
Proof.
  induction 1 as [| x l Hx Hl IH]; simpl; [constructor |].
  destruct (f x); [constructor; assumption | assumption].
Qed.

Lemma filter_other_variant (v0 id : string) (events : list ABTestEvent) :
  Forall (fun e => Event.variantId e = v0) events -> id <> v0 ->
  List.filter (fun e => String.eqb (Event.variantId e) id) events = [].
Proof.
  intros Hall Hne. induction Hall as [| e l He Hl IH]; simpl; [reflexivity |].
  rewrite He. destruct (String.eqb_spec v0 id) as [E | _]; [| exact IH].
  symmetry in E. contradiction.
Qed.

(** The events of one test in a manager that recorded them itself carry
    one user and one variant. *)
Lemma events_of_test (m : ABTestManager.t) (testId : string) :
  Forall (recorded_for m) (testEvents m) ->
  let events :=
    List.filter (fun e => String.eqb (Event.testId e) testId) (testEvents m) in
  Forall (fun e => Event.userId e = userId m) events
  /\ exists v0, Forall (fun e => Event.variantId e = v0) events.
Proof.
  intros Hall events. split.
  - apply filter_Forall. eapply List.Forall_impl; [| exact Hall].
    intros e [Hu _]. exact Hu.
  - exists (match getUserAssignment m testId with
            | Some a => Assignment.variantId a
            | None => EmptyString
            end).
    subst events. induction Hall as [| e l He Hl IH]; simpl; [constructor |].
    destruct (String.eqb_spec (Event.testId e) testId) as [E | _]; [| exact IH].
    constructor; [| exact IH].
    destruct He as (_ & a & Ha & Hv). rewrite <- E, Ha. symmetry. exact Hv.
Qed.

Lemma pooled_without_events (se : float) :
  JS.gt (Math_sqrt (Math_pow2 nan + Math_pow2 se)) 0 = false
  /\ JS.gt (Math_sqrt (Math_pow2 se + Math_pow2 nan)) 0 = false.
Proof.
  unfold Math_pow2. change (nan * nan)%float with nan.
  rewrite nan_add_l, nan_add_r. split; reflexivity.
Qed.

(** Ids that differ, from a list without duplicate ids. *)
Lemma arms_differ (variants : list ABVariant) (c tr : ABVariant) :
  NoDup (map Variant.id variants) ->
  List.find Variant.isControl variants = Some c ->
  List.find (fun v => negb (Variant.isControl v)) variants = Some tr ->
  Variant.id c <> Variant.id tr.
Proof.
  intros Hnodup Hc Ht Hid.
  apply find_some in Hc as [Hcin Hcc]. apply find_some in Ht as [Htin Htc].
  assert (c = tr) as ->.
  { clear Hcc Htc. induction variants as [| x rest IH]; [contradiction |].
    simpl in Hnodup. apply NoDup_cons in Hnodup as [Hx Hrest].
    destruct Hcin as [-> | Hcin], Htin as [-> | Htin]; auto.
    - exfalso. apply Hx. rewrite Hid. apply list_elem_of_In, in_map, Htin.
    - exfalso. apply Hx. rewrite <- Hid. apply list_elem_of_In, in_map, Hcin. }
  rewrite Hcc in Htc. discriminate.
Qed.

(** X6: the statistics of a manager that recorded its events itself say
    nothing. Its events all come from one user, and those of one test from
    one variant; so for a test whose variant ids are distinct the results
    are computed, every sample size is at most 1, one of the two compared
    arms has no events and the standard error NaN, the z-score is 0, and,
    on a host with Math.exp(-0) = 1, the outcome is never significant: the
    recommendation is inconclusive and no winning variant is named. *)
Theorem single_user_statistics (w : World) (m : ABTestManager.t)
    (testId : string) (test : ABTest) :
  Forall (recorded_for m) (testEvents m) ->
  activeTests m !! testId = Some test ->
  NoDup (map Variant.id (Test.variants test)) ->
  exists results,
    calculateResults testId w m = (Normal results, (w, m))
    /\ (forall id n, Dict.get (sampleSizes results) id = Some n -> n <= 1)
    /\ zScore (significance results) = 0%float
    /\ (Math_exp (host w) (-0)%float = 1%float ->
        significant (significance results) = false
        /\ recommendation results = inconclusive
        /\ winningVariant results = None).
Proof.
  intros Hown Htest Hnodup.
  destruct (events_of_test m testId Hown) as [Husers [v0 Hvariant]].
  rewrite (ABTestManagerFacts.calculateResults_known w m testId test Htest).
  cbv zeta.
  set (events := List.filter (fun e => String.eqb (Event.testId e) testId)
                             (testEvents m)) in *.
  assert (forall id n,
            Dict.get (fst (per_variant events (Test.primaryMetric test)
                                       (Test.variants test))) id = Some n ->
            n <= 1) as Hsizes.
  { intros id n. unfold per_variant. rewrite per_variant_sizes.
    destruct (_ && _); [| discriminate].
    intros [= <-]. apply (distinct_users_one (userId m)).
    apply filter_Forall, Husers. }
  destruct (List.find Variant.isControl (Test.variants test)) as [c |] eqn:Hc;
    [destruct (List.find (fun v => negb (Variant.isControl v)) (Test.variants test))
       as [tr |] eqn:Ht |].
  - pose proof (find_some _ _ Hc) as [Hcin _].
    pose proof (find_some _ _ Ht) as [Htin _].
    pose proof (ABTestManagerFacts.per_variant_get events
                  (Test.primaryMetric test) _ c Hcin) as Hmc.
    pose proof (ABTestManagerFacts.per_variant_get events
                  (Test.primaryMetric test) _ tr Htin) as Hmt.
    destruct (ABTestManagerFacts.performSignificanceTest_arms (host w) _ _ c tr
                _ _ Hc Ht Hmc Hmt)
      as (outcome & -> & Hz & Hp & Hs).
    rewrite (ABTestManagerFacts.generateRecommendation_arms outcome _ test
               c tr _ _ Hc Ht Hmc Hmt).
    assert (zScore outcome = 0%float) as Hzero.
    { rewrite Hz. cbv zeta.
      pose proof (arms_differ _ c tr Hnodup Hc Ht) as Hdiffer.
      destruct (String.eqb_spec (Variant.id c) v0) as [Ec | Nc].
      - rewrite (filter_other_variant v0 (Variant.id tr) events Hvariant)
          by congruence.
        rewrite no_events_standardError.
        destruct (pooled_without_events
                    (standardError
                       (calculateVariantMetrics
                          (List.filter
                             (fun e => String.eqb (Event.variantId e) (Variant.id c))
                             events)
                          (Test.primaryMetric test)))) as [_ ->].
        reflexivity.
      - rewrite (filter_other_variant v0 (Variant.id c) events Hvariant Nc).
        rewrite no_events_standardError.
        destruct (pooled_without_events
                    (standardError
                       (calculateVariantMetrics
                          (List.filter
                             (fun e => String.eqb (Event.variantId e) (Variant.id tr))
                             events)
                          (Test.primaryMetric test)))) as [-> _].
        reflexivity. }
    eexists. split; [reflexivity |]. cbn [sampleSizes significance
      recommendation winningVariant].
    split; [exact Hsizes |]. split; [exact Hzero |].
    intros Hexp.
    assert (significant outcome = false) as Hnot.
    { rewrite Hs, Hp, Hzero.
      unfold calculatePValue, normalCDF, erf.
      vm_compute in Hexp. vm_compute. rewrite Hexp. vm_compute. reflexivity. }
    rewrite Hnot. repeat split.
  - rewrite ABTestManagerFacts.performSignificanceTest_neutral by (right; exact Ht).
    unfold generateRecommendation. simpl.
    eexists. split; [reflexivity |]. simpl.
    split; [exact Hsizes |]. repeat split.
  - rewrite ABTestManagerFacts.performSignificanceTest_neutral by (left; exact Hc).
    unfold generateRecommendation. simpl.
    eexists. split; [reflexivity |]. simpl.
    split; [exact Hsizes |]. repeat split.
Qed.

Lemma single_user_statistics_witness :
  exists results,
    calculateResults "exp1" (Sample.world 0.25) Cases.manager_with_conversions
    = (Normal results, (Sample.world 0.25, Cases.manager_with_conversions))
    /\ (forall id n, Dict.get (sampleSizes results) id = Some n -> n <= 1)
    /\ zScore (significance results) = 0%float
    /\ significant (significance results) = false
    /\ recommendation results = inconclusive
    /\ winningVariant results = None.
Proof.
  destruct (single_user_statistics (Sample.world 0.25)
              Cases.manager_with_conversions "exp1"
              (Sample.test_in active Sample.two_arms))
    as (results & Hrun & Hsizes & Hzero & Hhost).
  - repeat (constructor;
            [split; [reflexivity
                    | exists (Sample.assigned "treatment"); split; reflexivity] |]).
    constructor.
  - reflexivity.
  - simpl.
    repeat (apply NoDup_cons_2;
            [rewrite ?elem_of_cons, elem_of_nil; intuition discriminate |]).
    apply NoDup_nil_2.
  - exists results. split; [exact Hrun |]. split; [exact Hsizes |].
    split; [exact Hzero |]. apply Hhost. reflexivity.
Defined.

(** *** The recommendation on the events a manager can hold *)












(** *** Starting, stopping and monitoring a test *)

Lemma only_test_insert (testId : string) (test : ABTest) (m : ABTestManager.t) :
  only_test testId m (set_activeTests (<[testId := test]> (activeTests m)) m).
Proof.
  repeat split. intros k Hk. simpl. apply lookup_insert_ne. congruence.
Qed.

#[global] Instance only_test_preorder (testId : string) :
  PreOrder (only_test testId).
Proof.
  split.
  - intros m. repeat split.
  - intros m1 m2 m3 (A1 & E1 & U1 & T1) (A2 & E2 & U2 & T2).
    repeat split; try congruence.
    intros k Hk. rewrite T2, T1 by exact Hk. reflexivity.
Qed.

Lemma write_test_only testId f : preserves (only_test testId) (write_test testId f).
Proof.
  apply Methods.preserves_update; try exact _; intros m.
  destruct (activeTests m !! testId); [apply only_test_insert | reflexivity].
Qed.

Lemma write_test_known (testId : string) (f : ABTest -> ABTest) (w : World)
    (m : ABTestManager.t) (test : ABTest) :
  activeTests m !! testId = Some test ->
  write_test testId f w m
  = (Normal tt, (w, set_activeTests (<[testId := f test]> (activeTests m)) m)).
Proof. intros Htest. unfold write_test, update. rewrite Htest. reflexivity. Qed.

Lemma startTest_known (w : World) (m : ABTestManager.t) (testId : string)
    (test : ABTest) :
  activeTests m !! testId = Some test ->
  startTest testId w m
  = (if setItem_throws (host w) (S (calls w))
     then Throw (DOMException "QuotaExceededError") else Normal tt,
     (tick (tick w),
      set_activeTests
        (<[testId := Test.set_monitoring true
                       (Test.set_startDate (Date_now_at (host w) (calls w))
                          (Test.set_status active test))]>
           (activeTests m)) m)).
Proof.
  intros Htest. unfold startTest, startMonitoring.
  unfold bind at 1, this. cbn beta iota. rewrite Htest.
  unfold bind at 1, Date_now. cbn beta iota.
  unfold bind at 1. rewrite (write_test_known _ _ _ _ test Htest).
  unfold bind at 1.
  erewrite write_test_known by (simpl; apply lookup_insert_eq).
  unfold persistTest, localStorage_setItem. simpl.
  rewrite insert_insert_eq. reflexivity.
Qed.

(** X7: startTest on a known test does not look at its status: a draft, a
    paused and a completed test alike become active, with startDate set to
    the clock and monitoring on, also when persisting throws afterwards;
    nothing else in the manager changes, and the call returns or throws
    the storage error. *)
Theorem startTest_activates_any (w : World) (m : ABTestManager.t)
    (testId : string) (test : ABTest) :
  activeTests m !! testId = Some test ->
  let m' := state_after (startTest testId) w m in
  activeTests m' !! testId
  = Some (Test.set_monitoring true
            (Test.set_startDate (Date_now_at (host w) (calls w))
               (Test.set_status active test)))
  /\ only_test testId m m'
  /\ completion_of (startTest testId) w m
     = if setItem_throws (host w) (S (calls w))
       then Throw (DOMException "QuotaExceededError") else Normal tt.
Proof.
  intros Htest m'. subst m'. unfold state_after, completion_of.
  rewrite (startTest_known w m testId test Htest). cbn [fst snd].
  split; [| split].
  - simpl. apply lookup_insert_eq.
  - apply only_test_insert.
  - reflexivity.
Qed.

Lemma startTest_activates_any_witness :
  let m := Sample.ab_manager completed Sample.two_arms [] in
  let m' := state_after (startTest "exp1") (Sample.world 0.25) m in
  activeTests m' !! "exp1"
  = Some (Test.set_monitoring true
            (Test.set_startDate 1700000000000%float
               (Test.set_status active (Sample.test_in completed Sample.two_arms))))
  /\ only_test "exp1" m m'
  /\ completion_of (startTest "exp1") (Sample.world 0.25) m = Normal tt.
Proof.
  apply (startTest_activates_any (Sample.world 0.25)
           (Sample.ab_manager completed Sample.two_arms []) "exp1"
           (Sample.test_in completed Sample.two_arms)).
  reflexivity.
Defined.


(** X8: a monitor tick on a known test does not read the status of the
    test. It takes a reading and returns normally; when the reading
    exceeds maxErrorRate or maxLatencyIncrease, falls below
    minSuccessRate, or meets a rollback trigger, the status of that test
    becomes paused, whatever it was: a completed test and a draft are
    paused like an active one. Otherwise, and in everything else, the
    manager stays as it was. *)
Theorem checkSafeguards_pauses_when_tripped (w w' : World)
    (m : ABTestManager.t) (testId : string) (test : ABTest)
    (reading : Dict.t float) :
  activeTests m !! testId = Some test ->
  getCurrentMetrics testId w m = (Normal reading, (w', m)) ->
  checkSafeguards testId w m
  = (Normal tt,
     (w', if safeguard_tripped test reading
          then set_activeTests
                 (<[testId := Test.set_status paused test]> (activeTests m)) m
          else m)).
Proof.
  intros Htest Hreading. unfold checkSafeguards.
  unfold bind at 1, this. cbn beta iota. rewrite Htest.
  unfold bind at 1. rewrite Hreading.
  unfold safeguard_tripped, triggerRollback.
  destruct (exceeds reading "errorRate" _); cbn [orb];
    [apply (write_test_known _ _ _ _ test Htest) |].
  destruct (exceeds reading "latency" _); cbn [orb];
    [apply (write_test_known _ _ _ _ test Htest) |].
  destruct (below reading "successRate" _); cbn [orb];
    [apply (write_test_known _ _ _ _ test Htest) |].
  destruct (List.find _ (Test.rollbackTriggers test));
    [apply (write_test_known _ _ _ _ test Htest) | reflexivity].
Qed.

Lemma checkSafeguards_pauses_when_tripped_witness :
  option_map Test.status
    (activeTests
       (state_after (checkSafeguards "exp1") (Sample.world 0.75)
          (Cases.manager_of (Cases.triggered_test completed))) !! "exp1")
  = Some paused
  /\ option_map Test.status
       (activeTests
          (state_after (checkSafeguards "exp1") (Sample.world 0.75)
             (Cases.manager_of (Cases.triggered_test draft))) !! "exp1")
     = Some paused
  /\ state_after (checkSafeguards "exp1") (Sample.world 0.75)
       (Cases.manager_of (Sample.test_in completed Sample.two_arms))
     = Cases.manager_of (Sample.test_in completed Sample.two_arms).
Proof.
  unfold state_after.
  rewrite (checkSafeguards_pauses_when_tripped (Sample.world 0.75) _
             (Cases.manager_of (Cases.triggered_test completed)) "exp1"
             (Cases.triggered_test completed) _ eq_refl eq_refl).
  rewrite (checkSafeguards_pauses_when_tripped (Sample.world 0.75) _
             (Cases.manager_of (Cases.triggered_test draft)) "exp1"
             (Cases.triggered_test draft) _ eq_refl eq_refl).
  rewrite (checkSafeguards_pauses_when_tripped (Sample.world 0.75) _
             (Cases.manager_of (Sample.test_in completed Sample.two_arms)) "exp1"
             (Sample.test_in completed Sample.two_arms) _ eq_refl eq_refl).
  repeat split.
Defined.

Lemma stopTest_only testId reason :
  preserves (only_test testId) (stopTest testId reason).
Proof.
  unfold stopTest, stopMonitoring, persistTest, not_found.
  pose proof (write_test_only testId).
  pose proof (ABTestManagerFacts.calculateResults_preserves (only_test testId)).
  preserve.
Qed.

(** X9: stopTest on a known test, whatever its status, sets the status to
    completed and endDate to the clock and stores the results computed
    from the events recorded so far, also when persisting throws
    afterwards; the rest of the test (the interval handle aside) and the
    rest of the manager stay as they were. In the state stopTest leaves
    getAssignment returns null for the test. That is no final state: a
    later startTest makes the test active again, and getAssignment then
    returns the variant of the assignment the user had before the stop. *)
Theorem stopTest_completes (w : World) (m : ABTestManager.t)
    (testId reason : string) (test : ABTest) :
  activeTests m !! testId = Some test ->
  let m' := state_after (stopTest testId reason) w m in
  let stopped :=
    Test.set_endDate (Some (Date_now_at (host w) (calls w)))
      (Test.set_status completed test) in
  exists results stored,
    completion_of (calculateResults testId) (tick w)
      (set_activeTests (<[testId := stopped]> (activeTests m)) m)
    = Normal results
    /\ activeTests m' !! testId = Some stored
    /\ Test.set_monitoring false stored
       = Test.set_monitoring false (Test.set_results (Some results) stopped)
    /\ only_test testId m m'
    /\ completion_of (stopTest testId reason) w m
       = (if setItem_throws (host w) (S (calls w))
          then Throw (DOMException "QuotaExceededError") else Normal tt)
    /\ (forall w2, getAssignment testId w2 m' = (Normal None, (w2, m')))
    /\ (forall w3 w4,
          let m2 := state_after (startTest testId) w3 m' in
          option_map Test.status (activeTests m2 !! testId) = Some active
          /\ forall a,
               getUserAssignment m testId = Some a ->
               getAssignment testId w4 m2
               = (Normal (Some (Assignment.variantId a)), (w4, m2))).
Proof.
  intros Htest m' stopped.
  set (m1 := set_activeTests (<[testId := stopped]> (activeTests m)) m).
  assert (activeTests m1 !! testId = Some stopped) as Hstopped
    by (simpl; apply lookup_insert_eq).
  destruct (ABTestManagerFacts.calculateResults_returns (tick w) m1 testId
              stopped Hstopped) as [results Hresults].
  exists results,
    (Test.set_monitoring false (Test.set_results (Some results) stopped)).
  assert (stopTest testId reason w m
          = (if setItem_throws (host w) (S (calls w))
             then Throw (DOMException "QuotaExceededError") else Normal tt,
             (tick (tick w),
              set_activeTests
                (<[testId := Test.set_monitoring false
                               (Test.set_results (Some results) stopped)]>
                   (activeTests m)) m))) as Hrun.
  { unfold stopTest, stopMonitoring.
    unfold bind at 1, this. cbn beta iota. rewrite Htest.
    unfold bind at 1, Date_now. cbn beta iota.
    unfold bind at 1. rewrite (write_test_known _ _ _ _ test Htest).
    fold stopped. fold m1.
    unfold bind at 1. rewrite Hresults.
    unfold bind at 1. rewrite (write_test_known _ _ _ _ stopped Hstopped).
    unfold bind at 1.
    erewrite write_test_known by (simpl; apply lookup_insert_eq).
    unfold persistTest, localStorage_setItem. simpl.
    rewrite !insert_insert_eq. reflexivity. }
  split; [unfold completion_of; rewrite Hresults; reflexivity |].
  assert (activeTests m' !! testId
          = Some (Test.set_monitoring false
                    (Test.set_results (Some results) stopped))) as Hafter.
  { subst m'. unfold state_after. rewrite Hrun. simpl. apply lookup_insert_eq. }
  split; [exact Hafter |].
  split; [reflexivity |].
  assert (only_test testId m m') as Honly by apply stopTest_only.
  split; [exact Honly |].
  split; [unfold completion_of; rewrite Hrun; reflexivity |].
  split.
  { intros w2. unfold getAssignment, bind, this. rewrite Hafter. reflexivity. }
  intros w3 w4 m2.
  assert (activeTests m2 !! testId
          = Some (Test.set_monitoring true
                    (Test.set_startDate (Date_now_at (host w3) (calls w3))
                       (Test.set_status active
                          (Test.set_monitoring false
                             (Test.set_results (Some results) stopped)))))
          /\ only_test testId m' m2) as [Hstarted Hrest].
  { subst m2. unfold state_after.
    rewrite (startTest_known w3 m' testId _ Hafter). cbn [fst snd].
    split; [simpl; apply lookup_insert_eq | apply only_test_insert]. }
  split; [rewrite Hstarted; reflexivity |].
  intros a Ha.
  assert (getUserAssignment m2 testId = Some a) as Hfound.
  { destruct Honly as (A1 & _ & U1 & _), Hrest as (A2 & _ & U2 & _).
    unfold getUserAssignment in *. rewrite A2, U2, A1, U1. exact Ha. }
  unfold getAssignment, bind, this. rewrite Hstarted. cbn [Test.status
    Test.set_monitoring Test.set_startDate Test.set_status status_eqb negb].
  rewrite Hfound. reflexivity.
Qed.

Lemma stopTest_completes_witness :
  let m := Cases.manager_with_conversions in
  let m' := state_after (stopTest "exp1" "done") (Sample.world 0.25) m in
  let m2 := state_after (startTest "exp1") (Sample.world 0.25) m' in
  option_map Test.status (activeTests m' !! "exp1") = Some completed
  /\ completion_of (stopTest "exp1" "done") (Sample.world 0.25) m = Normal tt
  /\ getAssignment "exp1" (Sample.world 0.75) m'
     = (Normal None, (Sample.world 0.75, m'))
  /\ getAssignment "exp1" (Sample.world 0.75) m2
     = (Normal (Some "treatment"), (Sample.world 0.75, m2)).
Proof.
  destruct (stopTest_completes (Sample.world 0.25) Cases.manager_with_conversions
              "exp1" "done" (Sample.test_in active Sample.two_arms) eq_refl)
    as (results & stored & _ & Hstored & _ & _ & Hreturned & Hnull & Hagain).
  split; [reflexivity |]. split; [exact Hreturned |].
  split; [apply Hnull |].
  destruct (Hagain (Sample.world 0.25) (Sample.world 0.75)) as [_ Hsticky].
  apply (Hsticky (Sample.assigned "treatment")). reflexivity.
Defined.


(** X10: the methods that take a test id check it differently. For an id
    that is not stored, startTest, stopTest and calculateResults throw
    Error [Test <id> not found] and the monitor tick returns silently; all
    of them leave the manager and the host as they were. *)
Theorem unknown_test_is_rejected (w : World) (m : ABTestManager.t)
    (testId reason : string) :
  activeTests m !! testId = None ->
  let rejected {A : Type} : Completion A * (World * ABTestManager.t) :=
    (Throw (Error ("Test " +:+ testId +:+ " not found")), (w, m)) in
  startTest testId w m = rejected
  /\ stopTest testId reason w m = rejected
  /\ calculateResults testId w m = rejected
  /\ checkSafeguards testId w m = (Normal tt, (w, m)).
Proof.
  intros Hnone.
  unfold startTest, stopTest, calculateResults, checkSafeguards, not_found,
    bind, this, throw, ret.
  rewrite Hnone. repeat split.
Qed.

Lemma unknown_test_is_rejected_witness :
  startTest "exp2" (Sample.world 0.25) (Sample.ab_manager active Sample.two_arms [])
  = (Throw (Error "Test exp2 not found"),
     (Sample.world 0.25, Sample.ab_manager active Sample.two_arms []))
  /\ stopTest "exp2" "done" (Sample.world 0.25)
       (Sample.ab_manager active Sample.two_arms [])
     = (Throw (Error "Test exp2 not found"),
        (Sample.world 0.25, Sample.ab_manager active Sample.two_arms [])).
Proof.
  destruct (unknown_test_is_rejected (Sample.world 0.25)
              (Sample.ab_manager active Sample.two_arms []) "exp2" "done" eq_refl)
    as (Hstart & Hstop & _).
  split; [exact Hstart | exact Hstop].
Defined.


(** *** The tables of the results *)

Lemma existsb_id_In (variants : list ABVariant) (id : string) :
  existsb (fun v => String.eqb (Variant.id v) id) variants = true
  <-> In id (map Variant.id variants).
Proof.
  rewrite existsb_exists, in_map_iff. split.
  - intros (v & Hin & E). exists v. apply String.eqb_eq in E. auto.
  - intros (v & E & Hin). exists v. split; [exact Hin |].
    apply String.eqb_eq, E.
Qed.

Lemma findWinningVariant_fold (entries : list (string * VariantMetrics))
    (best : string * float) :
  let winner :=
    fst (fold_left
           (fun best entry =>
              if JS.gt (averageValue (snd entry)) (snd best)
              then (fst entry, averageValue (snd entry))
              else best)
           entries best) in
  winner = fst best \/ In winner (map fst entries).
Proof.
  revert best. induction entries as [| entry rest IH]; intros best; simpl.
  - left. reflexivity.
  - destruct (JS.gt _ _).
    + destruct (IH (fst entry, averageValue (snd entry))) as [-> | Hin]; auto.
    + destruct (IH best) as [-> | Hin]; auto.
Qed.

Lemma get_In_keys {V : Type} (d : Dict.t V) (k : string) :
  is_Some (Dict.get d k) <-> In k (map fst d).
Proof.
  unfold Dict.get. induction d as [| [k' v] d IH]; simpl.
  - split; [intros [x Hx]; discriminate | contradiction].
  - destruct (String.eqb_spec k' k) as [-> | Hne].
    + split; eauto.
    + rewrite IH. split; [auto |]. intros [E | Hin]; [contradiction | exact Hin].
Qed.

(** The entries that [Object.entries] lists are the own properties, in
    another order. *)
Lemma insert_indexed_In {V : Type} (n : N) (kv : string * V)
    (sorted : list (N * (string * V))) (x : N * (string * V)) :
  In x (Dict.insert_indexed n kv sorted) <-> x = (n, kv) \/ In x sorted.
Proof.
  induction sorted as [| [n' kv'] rest IH]; simpl.
  - split; [intros [E | []]; auto | intros [E | []]; auto].
  - destruct (n <? n')%N; simpl.
    + split; [intros [E | H]; auto | intros [E | H]; auto].
    + rewrite IH. split.
      * intros [E | [E | H]]; auto.
      * intros [E | [E | H]]; auto.
Qed.

Lemma indexed_In {V : Type} (d : Dict.t V) (kv : string * V) :
  In kv (map snd (Dict.indexed d))
  <-> In kv d /\ exists n, Dict.array_index (fst kv) = Some n.
Proof.
  unfold Dict.indexed.
  assert (forall (sorted : list (N * (string * V))),
            In kv (map snd
                     (fold_left
                        (fun sorted kv =>
                           match Dict.array_index (fst kv) with
                           | Some n => Dict.insert_indexed n kv sorted
                           | None => sorted
                           end)
                        d sorted))
            <-> In kv (map snd sorted)
                \/ (In kv d /\ exists n, Dict.array_index (fst kv) = Some n))
    as Hgen.
  { induction d as [| x d IH]; intros sorted; simpl.
    - split; [auto | intros [H | [[] _]]; exact H].
    - rewrite IH. destruct (Dict.array_index (fst x)) as [n |] eqn:Hx.
      + rewrite !in_map_iff. split.
        * intros [(y & E & Hy) | (Hin & Hn)]; [| right; auto].
          apply insert_indexed_In in Hy as [-> | Hy].
          -- simpl in E. subst kv. right. split; [left; reflexivity | eauto].
          -- left. exists y. auto.
        * intros [(y & E & Hy) | ([-> | Hin] & Hn)].
          -- left. exists y. split; [exact E |].
             apply insert_indexed_In. right. exact Hy.
          -- left. exists (n, kv). split; [reflexivity |].
             apply insert_indexed_In. left. reflexivity.
          -- right. auto.
      + split.
        * intros [H | (Hin & Hn)]; auto.
        * intros [H | ([E | Hin] & (n & Hn))].
          -- left. exact H.
          -- subst x. rewrite Hx in Hn. discriminate.
          -- right. eauto. }
  rewrite Hgen. simpl. split; [intros [[] | H]; exact H | auto].
Qed.

Lemma object_entries_In {V : Type} (d : Dict.t V) (kv : string * V) :
  In kv (Dict.object_entries d)
  <-> In kv d /\ fst kv <> "__proto__"%string.
Proof.
  unfold Dict.object_entries. rewrite in_app_iff, indexed_In, filter_In.
  unfold Dict.own. rewrite filter_In.
  assert (negb (fst kv =? "__proto__")%string = true
          <-> fst kv <> "__proto__"%string) as Hown.
  { destruct (String.eqb_spec (fst kv) "__proto__"); simpl.
    - split; [discriminate | contradiction].
    - split; auto. }
  rewrite Hown.
  destruct (Dict.array_index (fst kv)) as [n |].
  - split.
    + intros [[H _] | [_ H]]; [exact H | discriminate].
    + intros H. left. eauto.
  - split.
    + intros [[_ [n Hn]] | [H _]]; [discriminate | exact H].
    + intros H. right. auto.
Qed.

Lemma object_entries_keys {V : Type} (d : Dict.t V) (k : string) :
  In k (map fst (Dict.object_entries d))
  <-> In k (map fst d) /\ k <> "__proto__"%string.
Proof.
  rewrite !in_map_iff. split.
  - intros ([k' v] & E & Hin). simpl in E. subst k'.
    apply object_entries_In in Hin as [Hin Hown]. split; [| exact Hown].
    exists (k, v). auto.
  - intros [([k' v] & E & Hin) Hown]. simpl in E. subst k'.
    exists (k, v). split; [reflexivity |].
    apply object_entries_In. auto.
Qed.

(** X11: the two tables of the results of a known test, as JavaScript
    objects. sampleSizes has an own property for exactly the variant ids
    of the test other than [__proto__]; the own properties of metrics,
    those Object.entries lists, are the same ids; metrics[id] reads the
    metrics of every variant id of the test, those of [__proto__] from
    the prototype of the object. The winning variant, when one is named,
    is the empty string (when no mean exceeds -Infinity) or one of these
    own ids. *)
Theorem results_cover_the_variants (w : World) (m : ABTestManager.t)
    (testId : string) (test : ABTest) (results : ABTestResults) :
  activeTests m !! testId = Some test ->
  completion_of (calculateResults testId) w m = Normal results ->
  let ids := map Variant.id (Test.variants test) in
  (forall id,
     is_Some (Dict.get (sampleSizes results) id)
     <-> In id ids /\ id <> "__proto__"%string)
  /\ (forall id,
        In id (map fst (Dict.object_entries (metrics results)))
        <-> In id ids /\ id <> "__proto__"%string)
  /\ (forall id, In id ids -> is_Some (Dict.get (metrics results) id))
  /\ (forall winner,
        winningVariant results = Some winner ->
        winner = EmptyString
        \/ (In winner ids /\ winner <> "__proto__"%string)).
Proof.
  intros Htest. unfold completion_of.
  rewrite (ABTestManagerFacts.calculateResults_known w m testId test Htest).
  cbv zeta. cbn [fst].
  set (events := List.filter (fun e => String.eqb (Event.testId e) testId)
                             (testEvents m)).
  assert (forall id,
            is_Some (Dict.get (snd (per_variant events (Test.primaryMetric test)
                                                (Test.variants test))) id)
            <-> In id (map Variant.id (Test.variants test))) as Hmetrics.
  { intros id. unfold per_variant. rewrite ABTestManagerFacts.per_variant_fold.
    rewrite <- existsb_id_In. destruct (existsb _ _); simpl.
    - split; eauto.
    - split; [intros [x Hx]; discriminate | discriminate]. }
  assert (forall id,
            In id (map fst
                     (Dict.object_entries
                        (snd (per_variant events (Test.primaryMetric test)
                                          (Test.variants test)))))
            <-> In id (map Variant.id (Test.variants test))
                /\ id <> "__proto__"%string) as Hown.
  { intros id. rewrite object_entries_keys, <- get_In_keys, Hmetrics.
    reflexivity. }
  destruct (performSignificanceTest _ _ _) as [outcome | e]; [| discriminate].
  destruct (generateRecommendation _ _ _) as [r | e]; [| discriminate].
  intros [= <-]. cbn [sampleSizes metrics winningVariant].
  split; [| split; [exact Hown | split; [intros id; apply Hmetrics |]]].
  - intros id. unfold per_variant. rewrite per_variant_sizes.
    rewrite <- existsb_id_In.
    destruct (existsb _ _); destruct (String.eqb_spec id "__proto__"); simpl.
    + split; [intros [x Hx]; discriminate | intros [_ H]; contradiction].
    + split; [intros _; split; [reflexivity | assumption] | eauto].
    + split; [intros [x Hx]; discriminate | intros [H _]; discriminate].
    + split; [intros [x Hx]; discriminate | intros [H _]; discriminate].
  - intros winner. destruct (significant outcome); [| discriminate].
    intros [= <-]. unfold findWinningVariant.
    destruct (findWinningVariant_fold
                (Dict.object_entries
                   (snd (per_variant events (Test.primaryMetric test)
                                     (Test.variants test))))
                (EmptyString, neg_infinity)) as [E | Hin].
    + left. exact E.
    + right. apply Hown, Hin.
Qed.

Lemma results_cover_the_variants_witness :
  exists results,
    completion_of (calculateResults "exp1") (Sample.world 0.25)
      Cases.manager_with_conversions = Normal results
    /\ (forall id,
          is_Some (Dict.get (sampleSizes results) id)
          <-> In id ["control"; "treatment"] /\ id <> "__proto__"%string)
    /\ (forall id,
          In id (map fst (Dict.object_entries (metrics results)))
          <-> In id ["control"; "treatment"] /\ id <> "__proto__"%string).
Proof.
  destruct (ABTestManagerFacts.calculateResults_returns (Sample.world 0.25)
              Cases.manager_with_conversions "exp1"
              (Sample.test_in active Sample.two_arms) eq_refl)
    as [results Hrun].
  assert (completion_of (calculateResults "exp1") (Sample.world 0.25)
            Cases.manager_with_conversions = Normal results) as Hresults
    by (unfold completion_of; rewrite Hrun; reflexivity).
  exists results. split; [exact Hresults |].
  destruct (results_cover_the_variants (Sample.world 0.25)
              Cases.manager_with_conversions "exp1"
              (Sample.test_in active Sample.two_arms) results eq_refl Hresults)
    as (Hsizes & Hmetrics & _).
  split; [exact Hsizes | exact Hmetrics].
Defined.

(** *** From creation to the first assignment *)


(** A variant that [getAssignment] returns is recorded already or is one
    of the test's. *)
Lemma getAssignment_recorded_or_fresh (w : World) (m : ABTestManager.t)
    (testId v : string) :
  completion_of (getAssignment testId) w m = Normal (Some v) ->
  (exists a, getUserAssignment m testId = Some a /\ Assignment.variantId a = v)
  \/ (exists test,
        activeTests m !! testId = Some test
        /\ In v (map Variant.id (Test.variants test))).
Proof.
  unfold completion_of, getAssignment. unfold bind at 1, this. cbn beta iota.
  destruct (activeTests m !! testId) as [test |]; [| discriminate].
  destruct (negb (status_eqb (Test.status test) active)); [discriminate |].
  destruct (getUserAssignment m testId) as [a |].
  - intros [= <-]. left. eauto.
  - unfold bind at 1.
    destruct (isUserEligible test w m) as [[[|] | e1] [w1 m1]];
      cbn [negb fst snd]; try discriminate.
    unfold bind at 1.
    destruct (assignUserToVariant test w1 m1) as [[variantId | e2] [w2 m2]] eqn:E;
      [| discriminate].
    unfold bind, recordAssignment, this, Date_now, update, detached, ret.
    cbn [fst snd]. intros [= <-]. right. exists test. split; [reflexivity |].
    assert (ensures (fun v => In v (map Variant.id (Test.variants test)))
                    (assignUserToVariant test)) as Hin.
    { unfold assignUserToVariant.
      destruct (type (Test.allocation test));
        [apply randomAssignment_In | apply deterministicAssignment_In
        | apply gradualAssignment_In]. }
    apply (Hin w1 m1 variantId). unfold completion_of. rewrite E. reflexivity.
Qed.

(** X12: the life of a test from its creation. A configuration whose
    weights pass the check is stored as a draft under the generated id,
    also when persisting throws; while it is a draft getAssignment returns
    null; once startTest has run on it, getAssignment returns and gives
    null, or one of the configured variants, or the variant of an
    assignment for that id that the user already had. *)
Theorem created_test_lifecycle (testConfig : Config.t) (w w1 w2 w3 : World)
    (m : ABTestManager.t) :
  JS.gt (Math_abs
           (fold_left (fun sum v => (sum + Variant.weight v)%float)
                      (Config.variants testConfig) 0%float
            - 100)) 0.01 = false ->
  exists testId created,
    let m1 := state_after (createTest testConfig) w m in
    let m2 := state_after (startTest testId) w2 m1 in
    (completion_of (createTest testConfig) w m = Normal testId
     \/ completion_of (createTest testConfig) w m
        = Throw (DOMException "QuotaExceededError"))
    /\ activeTests m1 !! testId = Some (Test.of_config testId testConfig created)
    /\ getAssignment testId w1 m1 = (Normal None, (w1, m1))
    /\ option_map Test.status (activeTests m2 !! testId) = Some active
    /\ match completion_of (getAssignment testId) w3 m2 with
       | Normal (Some v) =>
           In v (map Variant.id (Config.variants testConfig))
           \/ exists a, getUserAssignment m testId = Some a
                        /\ Assignment.variantId a = v
       | Normal None => True
       | Throw _ => False
       end.
Proof.
  intros Hvalid.
  pose proof (ABTestManagerFacts.createTest_valid testConfig w m Hvalid)
    as Hcreate.
  cbv zeta in Hcreate.
  set (testId := (Number_toString36 (host w) (Date_now_at (host w) (calls w))
                  +:+ substr_from 2
                        (Number_toString36 (host w)
                           (Math_random_at (host w) (S (calls w)))))%string) in *.
  set (test := Test.of_config testId testConfig
                 (Date_now_at (host w) (S (S (calls w))))) in *.
  exists testId, (Date_now_at (host w) (S (S (calls w)))).
  intros m1 m2.
  assert (m1 = set_activeTests (<[testId := test]> (activeTests m)) m) as Hm1
    by (subst m1; unfold state_after; rewrite Hcreate; reflexivity).
  assert (activeTests m1 !! testId = Some test) as Hstored
    by (rewrite Hm1; simpl; apply lookup_insert_eq).
  split.
  { unfold completion_of. rewrite Hcreate. simpl.
    destruct (setItem_throws _ _); auto. }
  split; [exact Hstored |].
  split.
  { unfold getAssignment, bind, this. rewrite Hstored. reflexivity. }
  assert (activeTests m2 !! testId
          = Some (Test.set_monitoring true
                    (Test.set_startDate (Date_now_at (host w2) (calls w2))
                       (Test.set_status active test)))
          /\ only_test testId m1 m2) as [Hstarted Honly].
  { subst m2. unfold state_after.
    rewrite (startTest_known w2 m1 testId test Hstored). cbn [fst snd].
    split; [simpl; apply lookup_insert_eq | apply only_test_insert]. }
  split; [rewrite Hstarted; reflexivity |].
  destruct (ABTestManagerFacts.getAssignment_returns w3 m2 testId) as [r Hr].
  { intros test' Htest'. rewrite Hstarted in Htest'. injection Htest' as <-.
    simpl. apply ABTestManagerFacts.valid_weights_nonempty, Hvalid. }
  pose proof (getAssignment_recorded_or_fresh w3 m2 testId) as Heffect.
  rewrite Hr in *. destruct r as [v |]; [| exact I].
  destruct Honly as (Hassignments & _ & Huser & _).
  assert (forall k, getUserAssignment m2 k = getUserAssignment m k) as Hsame.
  { intros k. unfold getUserAssignment. rewrite Hassignments, Huser, Hm1.
    reflexivity. }
  destruct (Heffect v eq_refl) as [(a & Ha & Hv) | (test' & Htest' & Hin)].
  - right. exists a. rewrite <- Hsame. auto.
  - left. rewrite Hstarted in Htest'. injection Htest' as <-. exact Hin.
Qed.

Lemma created_test_lifecycle_witness :
  exists testId,
    completion_of (createTest (Sample.experiment Sample.two_arms))
      (Sample.world 0.75) Sample.fresh_ab_manager = Normal testId
    /\ getAssignment testId (Sample.world 0.25)
         (state_after (createTest (Sample.experiment Sample.two_arms))
            (Sample.world 0.75) Sample.fresh_ab_manager)
       = (Normal None,
          (Sample.world 0.25,
           state_after (createTest (Sample.experiment Sample.two_arms))
             (Sample.world 0.75) Sample.fresh_ab_manager)).
Proof.
  destruct (created_test_lifecycle (Sample.experiment Sample.two_arms)
              (Sample.world 0.75) (Sample.world 0.25) (Sample.world 0.25)
              (Sample.world 0.25) Sample.fresh_ab_manager eq_refl)
    as (testId & created & Hcreated & _ & Hdraft & _).
  exists testId. split; [| exact Hdraft].
  destruct Hcreated as [Hreturned | Hthrew]; [exact Hreturned |].
  exfalso. revert Hthrew. vm_compute. discriminate.
Defined.

End ABTestManagerMore.

Module RolloutManagerMore.

Import RolloutManager.
Import Conditions.

(** A sequence throws when what follows a normal first step throws. *)
Lemma bind_throws {S A B : Type} (m : M S A) (k : A -> M S B)
    (w : World) (s : S) :
  (forall a w' s',
     m w s = (Normal a, (w', s')) -> exists e, completion_of (k a) w' s' = Throw e) ->
  exists e, completion_of (bind m k) w s = Throw e.
Proof.
  intros Hk. unfold completion_of, bind.
  destruct (m w s) as [[a | e] [w' s']]; [apply (Hk a w' s' eq_refl) | eauto].
Qed.

(** The state a step left, from what the step maintains. *)
Lemma after_step {S A : Type} (R : S -> S -> Prop) (m : M S A) (w w' : World)
    (s s' : S) (c : Completion A) :
  preserves R m -> m w s = (c, (w', s')) -> R s s'.
Proof.
  intros Hm E. specialize (Hm w s). unfold state_after in Hm.
  rewrite E in Hm. exact Hm.
Qed.

#[global] Instance keeps_tests_preorder : PreOrder keeps_tests.
Proof. split; unfold keeps_tests; [intros m | intros a b c]; congruence. Qed.

Lemma flag_step_keeps_rollouts key f (found : option FeatureFlag) :
  preserves keeps_rollouts
    match found with
    | Some _ => do* write_flag key f in persistFeatureFlag_of key
    | None => ret tt
    end.
Proof.
  pose proof RolloutManagerFacts.write_flag_keeps_rollouts.
  pose proof (RolloutManagerFacts.persistFeatureFlag_of_preserves keeps_rollouts).
  preserve.
Qed.

Lemma flag_step_keeps_tests key f (found : option FeatureFlag) :
  preserves keeps_tests
    match found with
    | Some _ => do* write_flag key f in persistFeatureFlag_of key
    | None => ret tt
    end.
Proof.
  pose proof (RolloutManagerFacts.persistFeatureFlag_of_preserves keeps_tests).
  assert (forall k g, preserves keeps_tests (write_flag k g)) as Hwrite.
  { intros k g. apply Methods.preserves_update; try exact _. intros m.
    destruct (Dict.get (featureFlags m) k); reflexivity. }
  preserve.
Qed.

(** Persisting a plan whose log holds a transition throws. *)
Lemma persistRollout_of_shared (rolloutId : string) (w : World) (m : t)
    (plan : RolloutPlan) :
  Dict.get (activeRollouts m) rolloutId = Some plan ->
  existsb Transition.sharesLog (phaseTransitions (Plan.metrics plan)) = true ->
  persistRollout_of rolloutId w m
  = (Throw (TypeError "Converting circular structure to JSON"), (w, m)).
Proof.
  intros Hplan Hshared. unfold persistRollout_of, bind, this.
  rewrite Hplan. unfold persistRollout. rewrite Hshared. reflexivity.
Qed.

Lemma transitionToPhase_throws (rolloutId : string) (phaseIndex : nat)
    (w : World) (m : t) (plan : RolloutPlan) (phase : RolloutPhase) :
  Dict.get (activeRollouts m) rolloutId = Some plan ->
  nth_error (Plan.phases plan) phaseIndex = Some phase ->
  exists e, completion_of (transitionToPhase rolloutId phaseIndex) w m = Throw e.
Proof.
  intros Hplan Hphase. unfold transitionToPhase.
  apply bind_throws. intros m0 w0 s0 [= <- <- <-]. rewrite Hplan, Hphase.
  apply bind_throws. intros now w1 s1 [= <- <- <-].
  apply bind_throws. intros [] w2 s2.
  rewrite (RolloutManagerFacts.write_plan_state _ _ _ _ plan Hplan).
  intros [= <- <-].
  apply bind_throws. intros [] w3 s3 Hflag.
  apply (after_step keeps_rollouts) in Hflag; [| apply flag_step_keeps_rollouts].
  apply bind_throws. intros [] w4 s4 Htimer.
  assert (keeps_rollouts s3 s4) as Hkeep.
  { revert Htimer. destruct (_ <? _)%nat.
    - unfold update. intros [= <- <-]. reflexivity.
    - intros [= <- <-]. reflexivity. }
  unfold keeps_rollouts in Hflag, Hkeep. simpl in Hflag.
  unfold completion_of.
  erewrite persistRollout_of_shared; [eauto | |].
  - rewrite Hkeep, Hflag. apply DictFacts.get_set_eq.
  - simpl. rewrite existsb_app. simpl. apply orb_true_r.
Qed.

(** X13: a transition into a phase of the plan never completes. The entry
    it pushes on the log holds a copy of plan.metrics and with it the log
    itself, so JSON.stringify(plan) in persistRollout throws (when storing
    the flag has not thrown before); the phase, the percentage and the log
    of the plan are written all the same. *)
Theorem transitionToPhase_never_completes (rolloutId : string)
    (phaseIndex : nat) (w : World) (m : t) (plan : RolloutPlan)
    (phase : RolloutPhase) :
  Dict.get (activeRollouts m) rolloutId = Some plan ->
  nth_error (Plan.phases plan) phaseIndex = Some phase ->
  (exists e,
     completion_of (transitionToPhase rolloutId phaseIndex) w m = Throw e)
  /\ (Dict.get (featureFlags m) (Plan.feature plan) = None ->
      completion_of (transitionToPhase rolloutId phaseIndex) w m
      = Throw (TypeError "Converting circular structure to JSON"))
  /\ exists plan',
       Dict.get
         (activeRollouts (state_after (transitionToPhase rolloutId phaseIndex) w m))
         rolloutId = Some plan'
       /\ Plan.currentPhase plan' = phaseIndex
       /\ Plan.currentPercentage plan' = Phase.percentage phase
       /\ length (phaseTransitions (Plan.metrics plan'))
          = S (length (phaseTransitions (Plan.metrics plan))).
Proof.
  intros Hplan Hphase. split; [| split].
  - apply (transitionToPhase_throws _ _ _ _ plan phase Hplan Hphase).
  - intros Hnoflag. unfold completion_of, transitionToPhase.
    unfold bind at 1, this. rewrite Hplan, Hphase.
    unfold bind at 1, Date_now.
    unfold bind at 1.
    rewrite (RolloutManagerFacts.write_plan_state _ _ _ _ plan Hplan).
    rewrite Hnoflag. unfold bind at 1, ret.
    unfold bind at 1.
    match goal with
    | |- context [if ?b then _ else _] => destruct b
    end; unfold update, ret;
      (erewrite persistRollout_of_shared;
       [reflexivity
       | simpl; apply DictFacts.get_set_eq
       | simpl; rewrite existsb_app; simpl; apply orb_true_r]).
  - destruct (RolloutManagerFacts.transitionToPhase_state rolloutId phaseIndex
                w m plan phase Hplan Hphase) as [transition ->].
    rewrite DictFacts.get_set_eq. eexists. split; [reflexivity |].
    repeat split. simpl. rewrite length_app. simpl. lia.
Qed.

Lemma transitionToPhase_never_completes_witness :
  let m := Cases.manager_with
             (Cases.plan_in active "new-dashboard" Sample.three_phases) in
  completion_of (transitionToPhase "r1" 1) (Sample.world 0.25) m
  = Throw (TypeError "Converting circular structure to JSON")
  /\ exists plan',
       Dict.get
         (activeRollouts (state_after (transitionToPhase "r1" 1) (Sample.world 0.25) m))
         "r1" = Some plan'
       /\ Plan.currentPhase plan' = 1
       /\ Plan.currentPercentage plan' = 50%float.
Proof.
  destruct (transitionToPhase_never_completes "r1" 1 (Sample.world 0.25)
              (Cases.manager_with
                 (Cases.plan_in active "new-dashboard" Sample.three_phases))
              (Cases.plan_in active "new-dashboard" Sample.three_phases)
              (Sample.phase "half" 50 48) eq_refl eq_refl)
    as (_ & Hthrows & plan' & Hplan & Hphase & Hpercentage & _).
  split; [apply Hthrows; reflexivity |].
  exists plan'. split; [exact Hplan |]. split; [exact Hphase | exact Hpercentage].
Defined.


Lemma createRolloutABTest_keeps_rollouts plan :
  preserves keeps_rollouts (createRolloutABTest plan).
Proof.
  unfold createRolloutABTest.
  destruct (Plan.phases plan); [apply Methods.preserves_throw; exact _ |].
  pose proof (@RolloutManagerFacts.on_abTestManager_keeps_rollouts unit).
  pose proof (@RolloutManagerFacts.on_abTestManager_keeps_rollouts string).
  preserve.
Qed.

(** X14: startRollout never returns normally, whatever the plan, the
    manager and the host. An unknown id is rejected; a plan without phases
    fails in createRolloutABTest; otherwise, when creating and starting the
    mirrored test has not thrown, the transition into phase 0 does. *)
Theorem startRollout_never_returns (rolloutId : string) :
  always_throws (startRollout rolloutId).
Proof.
  intros w m. unfold startRollout.
  apply bind_throws. intros m0 w0 s0 [= <- <- <-].
  destruct (Dict.get (activeRollouts m) rolloutId) as [plan |] eqn:Hplan;
    [| unfold not_found, completion_of, throw; eauto].
  apply bind_throws. intros now w1 s1 [= <- <- <-].
  apply bind_throws. intros [] w2 s2.
  rewrite (RolloutManagerFacts.write_plan_state _ _ _ _ plan Hplan).
  intros [= <- <-].
  apply bind_throws. intros m2 w3 s3 [= <- <- <-].
  cbn [activeRollouts set_activeRollouts]. rewrite DictFacts.get_set_eq.
  apply bind_throws. intros [] w4 s4 Hab.
  pose proof (after_step keeps_rollouts _ _ _ _ _ _
                (createRolloutABTest_keeps_rollouts _) Hab) as Hkeep.
  destruct (Plan.phases plan) as [| phase0 rest] eqn:Hphases.
  - revert Hab. unfold createRolloutABTest. cbn [Plan.phases Plan.set_startDate
      Plan.set_status]. rewrite Hphases. discriminate.
  - apply (transitionToPhase_throws rolloutId 0 w4 s4
             (Plan.set_startDate (Date_now_at (host w) (calls w))
                (Plan.set_status active plan)) phase0).
    + rewrite Hkeep. apply DictFacts.get_set_eq.
    + simpl. rewrite Hphases. reflexivity.
Qed.

(** *** Ids that are not stored *)

(** X15: the public methods reject a rollout id that is not stored with
    Error [Rollout <id> not found]; the private steps that timers and the
    monitor run return silently on it; all leave the manager and the host
    as they were. *)
Theorem unknown_rollout_is_rejected (w : World) (m : t)
    (rolloutId reason : string) (phaseIndex : nat) :
  Dict.get (activeRollouts m) rolloutId = None ->
  let rejected : Completion unit * (World * t) :=
    (Throw (Error ("Rollout " +:+ rolloutId +:+ " not found")), (w, m)) in
  startRollout rolloutId w m = rejected
  /\ pauseRollout rolloutId w m = rejected
  /\ resumeRollout rolloutId w m = rejected
  /\ rollbackRollout rolloutId reason w m = rejected
  /\ transitionToPhase rolloutId phaseIndex w m = (Normal tt, (w, m))
  /\ evaluatePhaseTransition rolloutId phaseIndex w m = (Normal tt, (w, m))
  /\ completeRollout rolloutId w m = (Normal tt, (w, m))
  /\ check_rollout rolloutId w m = (Normal tt, (w, m))
  /\ getRolloutStatus m rolloutId = None.
Proof.
  intros Hnone.
  unfold startRollout, pauseRollout, resumeRollout, rollbackRollout,
    transitionToPhase, evaluatePhaseTransition, completeRollout, check_rollout,
    getRolloutStatus, not_found, bind, this, throw, ret.
  rewrite Hnone. repeat split.
Qed.

Lemma unknown_rollout_is_rejected_witness :
  let m := Cases.manager_with
             (Cases.plan_in active "new-dashboard" Sample.three_phases) in
  pauseRollout "r2" (Sample.world 0.25) m
  = (Throw (Error "Rollout r2 not found"), (Sample.world 0.25, m))
  /\ evaluatePhaseTransition "r2" 0 (Sample.world 0.25) m
     = (Normal tt, (Sample.world 0.25, m)).
Proof.
  destruct (unknown_rollout_is_rejected (Sample.world 0.25)
              (Cases.manager_with
                 (Cases.plan_in active "new-dashboard" Sample.three_phases))
              "r2" "why" 0 eq_refl)
    as (_ & Hpause & _ & _ & _ & Hevaluate & _).
  split; [exact Hpause | exact Hevaluate].
Defined.


(** *** The flag of a plan *)

#[global] Instance keeps_flag_inputs_preorder : PreOrder keeps_flag_inputs.
Proof.
  split.
  - intros m. split; reflexivity.
  - intros a b c [F1 U1] [F2 U2]. split; congruence.
Qed.

Lemma write_plan_keeps_flag_inputs rolloutId f :
  preserves keeps_flag_inputs (write_plan rolloutId f).
Proof.
  apply Methods.preserves_update; try exact _. intros m.
  destruct (Dict.get (activeRollouts m) rolloutId); split; reflexivity.
Qed.

Lemma on_abTestManager_keeps_flag_inputs {A : Type} (m : M ABTestManager.t A) :
  preserves keeps_flag_inputs (on_abTestManager m).
Proof. apply Methods.preserves_on_field; try exact _. split; reflexivity. Qed.

Lemma set_timers_keeps_flag_inputs (f : t -> list Timer) :
  preserves keeps_flag_inputs (update (fun m => set_timers (f m) m)).
Proof. apply Methods.preserves_update; try exact _. split; reflexivity. Qed.

(** The evaluation of a flag reads the flags and the user id only. *)
Lemma isFeatureEnabled_inputs (flagName : string)
    (userContext : option (Dict.t Value)) (w : World) (m m' : t) :
  keeps_flag_inputs m m' ->
  completion_of (isFeatureEnabled flagName userContext) w m'
  = completion_of (isFeatureEnabled flagName userContext) w m.
Proof.
  intros [Hflags Huser].
  unfold completion_of, isFeatureEnabled, bind, this, Math_random, the_host, ret.
  unfold flag_named, getUserContext. rewrite Hflags, Huser.
  destruct (List.find _ _) as [flag |]; [| reflexivity].
  destruct (negb (Flag.enabled flag)); [reflexivity |].
  cbn [fst snd].
  repeat match goal with
         | |- context [if ?b then _ else _] => destruct b; try reflexivity
         end.
Qed.

(** X16: the plan's feature is looked up among the ids of the flags, the
    keys createFeatureFlag generates, while isFeatureEnabled looks a flag
    up by its name. When no flag is stored under plan.feature (the feature
    names the flag by its name, say), a rollback, a completion and a phase
    transition leave every flag as it is, and isFeatureEnabled answers
    after the rollback what it answered before. *)
Theorem plans_reach_flags_by_id (w : World) (m : t)
    (rolloutId reason : string) (phaseIndex : nat) (plan : RolloutPlan) :
  Dict.get (activeRollouts m) rolloutId = Some plan ->
  Dict.get (featureFlags m) (Plan.feature plan) = None ->
  keeps_flag_inputs m (state_after (rollbackRollout rolloutId reason) w m)
  /\ keeps_flag_inputs m (state_after (completeRollout rolloutId) w m)
  /\ keeps_flag_inputs m (state_after (transitionToPhase rolloutId phaseIndex) w m)
  /\ forall flagName userContext w',
       completion_of (isFeatureEnabled flagName userContext) w'
         (state_after (rollbackRollout rolloutId reason) w m)
       = completion_of (isFeatureEnabled flagName userContext) w' m.
Proof.
  intros Hplan Hnoflag.
  pose proof write_plan_keeps_flag_inputs as Hwrite.
  pose proof (@on_abTestManager_keeps_flag_inputs unit) as Hab.
  pose proof (RolloutManagerFacts.persistRollout_of_preserves keeps_flag_inputs)
    as Hpersist.
  pose proof set_timers_keeps_flag_inputs as Htimers.
  assert (keeps_flag_inputs m (state_after (rollbackRollout rolloutId reason) w m))
    as Hrollback.
  { unfold rollbackRollout. rewrite Methods.state_after_bind. unfold this.
    rewrite Hplan, Hnoflag.
    assert (preserves keeps_flag_inputs
              (do* write_plan rolloutId
                     (fun plan => count_rollback (Plan.set_status rolled_back plan))
               in do* ret tt
               in do* on_abTestManager
                        (ABTestManager.stopTest ("rollout-" +:+ rolloutId)
                           ("rollback: " +:+ reason))
               in persistRollout_of rolloutId)) as H by preserve.
    apply H. }
  split; [exact Hrollback |]. split; [| split].
  - unfold completeRollout. rewrite Methods.state_after_bind. unfold this.
    rewrite Hplan, Hnoflag.
    assert (preserves keeps_flag_inputs
              (let* now := Date_now
               in do* write_plan rolloutId
                        (fun plan =>
                           Plan.set_currentPercentage 100
                             (Plan.set_actualCompletion (Some now)
                                (Plan.set_status completed plan)))
               in do* ret tt
               in do* on_abTestManager
                        (ABTestManager.stopTest ("rollout-" +:+ rolloutId)
                           "rollout_complete")
               in persistRollout_of rolloutId)) as H by preserve.
    apply H.
  - unfold transitionToPhase. rewrite Methods.state_after_bind. unfold this.
    rewrite Hplan.
    destruct (nth_error (Plan.phases plan) phaseIndex) as [phase |].
    + rewrite Hnoflag.
      match goal with
      | |- keeps_flag_inputs m (state_after ?body w m) =>
          assert (preserves keeps_flag_inputs body) as H by preserve
      end.
      apply H.
    + unfold completeRollout. rewrite Methods.state_after_bind. unfold this.
      rewrite Hplan, Hnoflag.
      match goal with
      | |- keeps_flag_inputs m (state_after ?body w m) =>
          assert (preserves keeps_flag_inputs body) as H by preserve
      end.
      apply H.
  - intros flagName userContext w'. apply isFeatureEnabled_inputs, Hrollback.
Qed.

Lemma plans_reach_flags_by_id_witness :
  let m := Cases.manager_with
             (Cases.plan_in active "new-dashboard" Sample.three_phases) in
  featureFlags (state_after (rollbackRollout "r1" "errors") (Sample.world 0.25) m)
  = [("f1", Cases.stored_flag)]
  /\ completion_of (isFeatureEnabled "new-dashboard" None) (Sample.world 0.25)
       (state_after (rollbackRollout "r1" "errors") (Sample.world 0.25) m)
     = Normal true.
Proof.
  destruct (plans_reach_flags_by_id (Sample.world 0.25)
              (Cases.manager_with
                 (Cases.plan_in active "new-dashboard" Sample.three_phases))
              "r1" "errors" 0
              (Cases.plan_in active "new-dashboard" Sample.three_phases)
              eq_refl eq_refl)
    as ([Hflags _] & _ & _ & Hanswer).
  split; [exact Hflags |]. rewrite Hanswer. reflexivity.
Defined.


(** *** The mirrored test *)

Lemma stopTest_unknown (testId reason : string) (w : World) (m : t) :
  ABTestManager.activeTests (abTestManager m) !! testId = None ->
  exists m',
    on_abTestManager (ABTestManager.stopTest testId reason) w m
    = (Throw (Error ("Test " +:+ testId +:+ " not found")), (w, m')).
Proof.
  intros Hnone. unfold on_abTestManager, on_field, ABTestManager.stopTest,
    ABTestManager.not_found, bind, this, throw.
  rewrite Hnone. eauto.
Qed.

Lemma throws_first {S A B : Type} (m : M S A) (k : A -> M S B) (w : World)
    (s : S) (e : Exception) (ws : World * S) :
  m w s = (Throw e, ws) -> completion_of (bind m k) w s = Throw e.
Proof. intros E. unfold completion_of, bind. rewrite E. reflexivity. Qed.

(** X17: rollbackRollout and completeRollout stop the test named
    rollout-<id> in the A/B test manager before they persist the plan.
    When that manager holds no test of this name, neither returns normally;
    with no flag stored under plan.feature each throws Error
    [Test rollout-<id> not found], after the status of the plan is written
    and before the plan is persisted. *)
Theorem no_mirrored_test_no_return (w : World) (m : t)
    (rolloutId reason : string) (plan : RolloutPlan) :
  Dict.get (activeRollouts m) rolloutId = Some plan ->
  ABTestManager.activeTests (abTestManager m) !! ("rollout-" +:+ rolloutId) = None ->
  (exists e, completion_of (rollbackRollout rolloutId reason) w m = Throw e)
  /\ (exists e, completion_of (completeRollout rolloutId) w m = Throw e)
  /\ (Dict.get (featureFlags m) (Plan.feature plan) = None ->
      completion_of (rollbackRollout rolloutId reason) w m
      = Throw (Error ("Test rollout-" +:+ rolloutId +:+ " not found"))
      /\ completion_of (completeRollout rolloutId) w m
         = Throw (Error ("Test rollout-" +:+ rolloutId +:+ " not found"))).
Proof.
  intros Hplan Hnotest. split; [| split].
  - unfold rollbackRollout.
    apply bind_throws. intros m0 w0 s0 [= <- <- <-]. rewrite Hplan.
    apply bind_throws. intros [] w1 s1.
    rewrite (RolloutManagerFacts.write_plan_state _ _ _ _ plan Hplan).
    intros [= <- <-].
    apply bind_throws. intros [] w2 s2 Hflag.
    apply (after_step keeps_tests) in Hflag; [| apply flag_step_keeps_tests].
    unfold keeps_tests in Hflag. simpl in Hflag.
    destruct (stopTest_unknown ("rollout-" +:+ rolloutId)
                ("rollback: " +:+ reason) w2 s2) as [m' E];
      [rewrite Hflag; exact Hnotest |].
    eexists. apply (throws_first _ _ _ _ _ _ E).
  - unfold completeRollout.
    apply bind_throws. intros m0 w0 s0 [= <- <- <-]. rewrite Hplan.
    apply bind_throws. intros now w1 s1 [= <- <- <-].
    apply bind_throws. intros [] w2 s2.
    rewrite (RolloutManagerFacts.write_plan_state _ _ _ _ plan Hplan).
    intros [= <- <-].
    apply bind_throws. intros [] w3 s3 Hflag.
    apply (after_step keeps_tests) in Hflag; [| apply flag_step_keeps_tests].
    unfold keeps_tests in Hflag. simpl in Hflag.
    destruct (stopTest_unknown ("rollout-" +:+ rolloutId)
                "rollout_complete" w3 s3) as [m' E];
      [rewrite Hflag; exact Hnotest |].
    eexists. apply (throws_first _ _ _ _ _ _ E).
  - intros Hnoflag. split.
    + unfold completion_of, rollbackRollout.
      unfold bind at 1, this. rewrite Hplan, Hnoflag.
      unfold bind at 1.
      rewrite (RolloutManagerFacts.write_plan_state _ _ _ _ plan Hplan).
      unfold bind at 1, ret.
      match goal with
      | |- fst (JS.bind _ _ ?w' ?s') = _ =>
          destruct (stopTest_unknown ("rollout-" +:+ rolloutId)
                      ("rollback: " +:+ reason) w' s' Hnotest) as [m' E]
      end.
      apply (throws_first _ _ _ _ _ _ E).
    + unfold completion_of, completeRollout.
      unfold bind at 1, this. rewrite Hplan, Hnoflag.
      unfold bind at 1, Date_now.
      unfold bind at 1.
      rewrite (RolloutManagerFacts.write_plan_state _ _ _ _ plan Hplan).
      unfold bind at 1, ret.
      match goal with
      | |- fst (JS.bind _ _ ?w' ?s') = _ =>
          destruct (stopTest_unknown ("rollout-" +:+ rolloutId)
                      "rollout_complete" w' s' Hnotest) as [m' E]
      end.
      apply (throws_first _ _ _ _ _ _ E).
Qed.

Lemma no_mirrored_test_no_return_witness :
  let m := Cases.manager_with
             (Cases.plan_in active "new-dashboard" Sample.three_phases) in
  completion_of (rollbackRollout "r1" "errors") (Sample.world 0.25) m
  = Throw (Error "Test rollout-r1 not found")
  /\ completion_of (completeRollout "r1") (Sample.world 0.25) m
     = Throw (Error "Test rollout-r1 not found").
Proof.
  destruct (no_mirrored_test_no_return (Sample.world 0.25)
              (Cases.manager_with
                 (Cases.plan_in active "new-dashboard" Sample.three_phases))
              "r1" "errors"
              (Cases.plan_in active "new-dashboard" Sample.three_phases)
              eq_refl eq_refl)
    as (_ & _ & Hboth).
  apply Hboth. reflexivity.
Defined.


(** *** Plans that are not active *)

#[global] Instance idle_plan_stays_preorder (rolloutId : string) :
  PreOrder (idle_plan_stays rolloutId).
Proof.
  split.
  - intros m plan Hplan _. exact Hplan.
  - intros m1 m2 m3 H12 H23 plan Hplan Hidle.
    apply H23; [apply H12; assumption | exact Hidle].
Qed.

Lemma keeps_rollouts_idle (rolloutId : string) {A : Type} (m : M t A) :
  preserves keeps_rollouts m -> preserves (idle_plan_stays rolloutId) m.
Proof.
  intros Hm w s plan Hplan _. rewrite (Hm w s). exact Hplan.
Qed.

Lemma write_plan_other (rolloutId other : string) f :
  other <> rolloutId -> preserves (idle_plan_stays rolloutId) (write_plan other f).
Proof.
  intros Hne. apply Methods.preserves_update; try exact _. intros m.
  destruct (Dict.get (activeRollouts m) other); [| reflexivity].
  intros plan Hplan _. simpl. rewrite DictFacts.get_set_ne by exact Hne.
  exact Hplan.
Qed.

(** A step behind the check [plan.status === 'active']. *)
Lemma behind_the_status_check (rolloutId : string) (body : RolloutPlan -> M t unit) :
  preserves (idle_plan_stays rolloutId)
    (let* m := this in
     match Dict.get (activeRollouts m) rolloutId with
     | None => ret tt
     | Some plan =>
         if negb (status_eqb (Plan.status plan) active) then ret tt
         else body plan
     end).
Proof.
  intros w m plan Hplan Hidle. unfold state_after, bind, this. rewrite Hplan.
  destruct (Plan.status plan); try contradiction; exact Hplan.
Qed.

Section OtherPlan.
Context (rolloutId other : string) (Hother : other <> rolloutId).

Lemma write_flag_idle key f :
  preserves (idle_plan_stays rolloutId) (write_flag key f).
Proof.
  apply keeps_rollouts_idle, RolloutManagerFacts.write_flag_keeps_rollouts.
Qed.

Lemma flag_step_idle key f (found : option FeatureFlag) :
  preserves (idle_plan_stays rolloutId)
    match found with
    | Some _ => do* write_flag key f in persistFeatureFlag_of key
    | None => ret tt
    end.
Proof. apply keeps_rollouts_idle, flag_step_keeps_rollouts. Qed.

Lemma on_abTestManager_idle {A : Type} (m : M ABTestManager.t A) :
  preserves (idle_plan_stays rolloutId) (on_abTestManager m).
Proof.
  apply keeps_rollouts_idle, RolloutManagerFacts.on_abTestManager_keeps_rollouts.
Qed.

Lemma set_timers_idle (f : t -> list Timer) :
  preserves (idle_plan_stays rolloutId) (update (fun m => set_timers (f m) m)).
Proof.
  apply keeps_rollouts_idle, RolloutManagerFacts.set_timers_keeps_rollouts.
Qed.

Lemma rollbackRollout_other reason :
  preserves (idle_plan_stays rolloutId) (rollbackRollout other reason).
Proof.
  unfold rollbackRollout, not_found.
  pose proof (fun f => write_plan_other rolloutId other f Hother) as Hwrite.
  pose proof write_flag_idle.
  pose proof (RolloutManagerFacts.persistFeatureFlag_of_preserves
                (idle_plan_stays rolloutId)).
  pose proof flag_step_idle. pose proof (@on_abTestManager_idle unit).
  pose proof (RolloutManagerFacts.persistRollout_of_preserves
                (idle_plan_stays rolloutId)).
  preserve.
Qed.

Lemma pauseRollout_other :
  preserves (idle_plan_stays rolloutId) (pauseRollout other).
Proof.
  unfold pauseRollout, not_found.
  pose proof (fun f => write_plan_other rolloutId other f Hother) as Hwrite.
  pose proof write_flag_idle.
  pose proof (RolloutManagerFacts.persistFeatureFlag_of_preserves
                (idle_plan_stays rolloutId)).
  pose proof (RolloutManagerFacts.persistRollout_of_preserves
                (idle_plan_stays rolloutId)).
  preserve.
Qed.

Lemma completeRollout_other :
  preserves (idle_plan_stays rolloutId) (completeRollout other).
Proof.
  unfold completeRollout.
  pose proof (fun f => write_plan_other rolloutId other f Hother) as Hwrite.
  pose proof write_flag_idle.
  pose proof (RolloutManagerFacts.persistFeatureFlag_of_preserves
                (idle_plan_stays rolloutId)).
  pose proof flag_step_idle. pose proof (@on_abTestManager_idle unit).
  pose proof (RolloutManagerFacts.persistRollout_of_preserves
                (idle_plan_stays rolloutId)).
  preserve.
Qed.

Lemma transitionToPhase_other phaseIndex :
  preserves (idle_plan_stays rolloutId) (transitionToPhase other phaseIndex).
Proof.
  unfold transitionToPhase.
  pose proof (fun f => write_plan_other rolloutId other f Hother) as Hwrite.
  pose proof write_flag_idle.
  pose proof (RolloutManagerFacts.persistFeatureFlag_of_preserves
                (idle_plan_stays rolloutId)).
  pose proof flag_step_idle. pose proof set_timers_idle.
  pose proof completeRollout_other.
  pose proof (RolloutManagerFacts.persistRollout_of_preserves
                (idle_plan_stays rolloutId)).
  preserve.
Qed.

Lemma evaluatePhaseTransition_other phaseIndex :
  preserves (idle_plan_stays rolloutId) (evaluatePhaseTransition other phaseIndex).
Proof.
  unfold evaluatePhaseTransition.
  pose proof (RolloutManagerFacts.rollout_getCurrentMetrics_preserves
                (idle_plan_stays rolloutId)).
  pose proof transitionToPhase_other. pose proof rollbackRollout_other.
  pose proof pauseRollout_other.
  preserve.
Qed.

Lemma check_rollout_other :
  preserves (idle_plan_stays rolloutId) (check_rollout other).
Proof.
  unfold check_rollout.
  pose proof (RolloutManagerFacts.rollout_getCurrentMetrics_preserves
                (idle_plan_stays rolloutId)).
  pose proof (fun f => write_plan_other rolloutId other f Hother) as Hwrite.
  pose proof write_flag_idle.
  pose proof (RolloutManagerFacts.persistFeatureFlag_of_preserves
                (idle_plan_stays rolloutId)).
  pose proof rollbackRollout_other.
  preserve.
Qed.

End OtherPlan.

Lemma evaluatePhaseTransition_idle (rolloutId other : string) phaseIndex :
  preserves (idle_plan_stays rolloutId) (evaluatePhaseTransition other phaseIndex).
Proof.
  destruct (String.eqb_spec other rolloutId) as [-> | Hne].
  - apply behind_the_status_check.
  - apply evaluatePhaseTransition_other, Hne.
Qed.

Lemma check_rollout_idle (rolloutId other : string) :
  preserves (idle_plan_stays rolloutId) (check_rollout other).
Proof.
  destruct (String.eqb_spec other rolloutId) as [-> | Hne].
  - apply behind_the_status_check.
  - apply check_rollout_other, Hne.
Qed.

Lemma unattended_idle (rolloutId : string) (c : Call) :
  unattended c = true -> preserves (idle_plan_stays rolloutId) (perform c).
Proof.
  destruct c; try discriminate; intros _; simpl.
  - unfold createFeatureFlag.
    pose proof (RolloutManagerFacts.rollout_generateId_preserves
                  (idle_plan_stays rolloutId)).
    pose proof (RolloutManagerFacts.persistFeatureFlag_preserves
                  (idle_plan_stays rolloutId)).
    assert (forall f, preserves (idle_plan_stays rolloutId)
                        (update (fun m => set_featureFlags (f m) m))) as Hflags.
    { intros f. apply Methods.preserves_update; try exact _.
      intros m plan Hplan _. exact Hplan. }
    preserve.
  - pose proof (RolloutManagerFacts.isFeatureEnabled_preserves
                  (idle_plan_stays rolloutId)).
    preserve.
  - pose proof (RolloutManagerFacts.getFeatureVariant_preserves
                  (idle_plan_stays rolloutId)).
    preserve.
  - unfold fire_timer.
    pose proof (set_timers_idle rolloutId).
    pose proof (evaluatePhaseTransition_idle rolloutId).
    preserve.
  - unfold checkActiveRollouts.
    apply Methods.preserves_bind; try exact _; [apply Methods.preserves_this; exact _ |].
    intros m. apply Methods.preserves_for_each; try exact _.
    intros other. apply check_rollout_idle.
Qed.

(** X18: what runs unattended leaves a plan that is not active exactly as
    it is. Through any history of timers coming due, monitor ticks and
    calls about flags, a plan that is planned, paused, completed or rolled
    back keeps its status, phase, percentage, metrics and log, whatever
    happens to the other plans. *)
Theorem idle_plans_are_left_alone (history : list Call) (w : World) (m : t)
    (rolloutId : string) (plan : RolloutPlan) :
  forallb unattended history = true ->
  Dict.get (activeRollouts m) rolloutId = Some plan ->
  Plan.status plan <> active ->
  getRolloutStatus (snd (run history w m)) rolloutId = Some plan.
Proof.
  revert w m. induction history as [| c rest IH]; intros w m Hall Hplan Hidle.
  - exact Hplan.
  - simpl in Hall. apply andb_true_iff in Hall as [Hc Hrest].
    simpl. apply IH; [exact Hrest | | exact Hidle].
    apply (unattended_idle rolloutId c Hc w m plan Hplan Hidle).
Qed.

Lemma idle_plans_are_left_alone_witness :
  getRolloutStatus
    (snd (run Cases.timer_tick_flag (Sample.world 0.25)
            (Cases.manager_with
               (Cases.plan_in paused "f1" Sample.three_phases))))
    "r1"
  = Some (Cases.plan_in paused "f1" Sample.three_phases).
Proof.
  apply (idle_plans_are_left_alone Cases.timer_tick_flag (Sample.world 0.25)
           (Cases.manager_with (Cases.plan_in paused "f1" Sample.three_phases))
           "r1" (Cases.plan_in paused "f1" Sample.three_phases)).
  - reflexivity.
  - reflexivity.
  - discriminate.
Defined.


(** X19: a timer is spent when it comes due, whatever the plan's status. A
    timer that comes due while its plan is not active only disappears: the
    plan is not evaluated, no timer takes its place, and resumeRollout
    sets no timer either, so a plan that was paused when its one timer
    came due has no timer left to move it to the next phase. *)
Theorem timer_spent_on_idle_plan (w w' : World) (m : t) (n : nat)
    (timer : Timer) (plan : RolloutPlan) :
  nth_error (timers m) n = Some timer ->
  Dict.get (activeRollouts m) (timer_rolloutId timer) = Some plan ->
  Plan.status plan <> active ->
  let m' := set_timers (take n (timers m) ++ drop (S n) (timers m))%list m in
  fire_timer n w m = (Normal tt, (w, m'))
  /\ timers (state_after (resumeRollout (timer_rolloutId timer)) w' m')
     = timers m'
  /\ option_map Plan.status
       (getRolloutStatus
          (state_after (resumeRollout (timer_rolloutId timer)) w' m')
          (timer_rolloutId timer))
     = Some active.
Proof.
  intros Htimer Hplan Hidle m'. split; [| split].
  - unfold fire_timer, bind, this, update. rewrite Htimer.
    unfold evaluatePhaseTransition, bind, this. cbn [activeRollouts set_timers].
    rewrite Hplan. destruct (Plan.status plan); try contradiction; reflexivity.
  - rewrite (RolloutManagerFacts.resumeRollout_state _ w' m' plan Hplan).
    reflexivity.
  - rewrite (RolloutManagerFacts.resumeRollout_state _ w' m' plan Hplan).
    unfold getRolloutStatus. cbn [activeRollouts set_activeRollouts].
    rewrite DictFacts.get_set_eq. reflexivity.
Qed.

Lemma timer_spent_on_idle_plan_witness :
  let m := Cases.manager_with (Cases.plan_in paused "f1" Sample.three_phases) in
  fire_timer 0 (Sample.world 0.25) m = (Normal tt, (Sample.world 0.25, set_timers [] m))
  /\ timers (state_after (resumeRollout "r1") (Sample.world 0.25) (set_timers [] m))
     = []
  /\ option_map Plan.status
       (getRolloutStatus
          (state_after (resumeRollout "r1") (Sample.world 0.25) (set_timers [] m))
          "r1")
     = Some active.
Proof.
  apply (timer_spent_on_idle_plan (Sample.world 0.25) (Sample.world 0.25)
           (Cases.manager_with (Cases.plan_in paused "f1" Sample.three_phases))
           0 Cases.timer_of_r1 (Cases.plan_in paused "f1" Sample.three_phases)).
  - reflexivity.
  - reflexivity.
  - discriminate.
Defined.


(** *** What the monitor reads *)

Lemma get_outside_keys {V : Type} (d : Dict.t V) (k : string) :
  ~ In k (Dict.keys d) -> Dict.get d k = None.
Proof.
  unfold Dict.keys. induction d as [| [k' v] d IH]; simpl; [reflexivity |].
  intros Hout. destruct (String.eqb_spec k' k) as [-> | _].
  - exfalso. apply Hout. left. reflexivity.
  - apply IH. intros Hin. apply Hout. right. exact Hin.
Qed.

(** X20: the reading the monitor and the phase evaluation take holds six
    metrics: successRate, errorRate, latency, userSatisfaction,
    featureAdoption and usersAffected. A rollback condition on any other
    metric is never breached, among them averageLatency and
    rollbacksTriggered, which the plan's own metrics carry: no plan whose
    conditions all name other metrics is rolled back by
    shouldTriggerRollback. *)
Theorem unread_metrics_never_trigger (w : World) (m : t) (rolloutId : string)
    (reading : Dict.t float) :
  completion_of (getCurrentMetrics rolloutId) w m = Normal reading ->
  Dict.keys reading
  = ["successRate"; "errorRate"; "latency"; "userSatisfaction";
     "featureAdoption"; "usersAffected"]
  /\ (forall condition,
        ~ In (Condition.metric condition) (Dict.keys reading) ->
        evaluateRollbackCondition condition reading = false)
  /\ (forall plan,
        Forall (fun condition =>
                  ~ In (Condition.metric condition) (Dict.keys reading))
               (Plan.rollbackConditions plan) ->
        shouldTriggerRollback plan reading = false).
Proof.
  unfold completion_of, getCurrentMetrics, bind, Math_random, ret. simpl.
  intros [= <-].
  match goal with
  | |- Dict.keys ?r = _ /\ _ => set (reading := r)
  end.
  assert (forall condition,
            ~ In (Condition.metric condition) (Dict.keys reading) ->
            evaluateRollbackCondition condition reading = false) as Hnever.
  { intros condition Hout. unfold evaluateRollbackCondition.
    rewrite (get_outside_keys reading _ Hout). reflexivity. }
  split; [reflexivity |]. split; [exact Hnever |].
  intros plan Hall. unfold shouldTriggerRollback.
  induction Hall as [| condition rest Hout _ IH]; simpl; [reflexivity |].
  rewrite (Hnever condition Hout), andb_false_r. exact IH.
Qed.

Lemma unread_metrics_never_trigger_witness :
  exists reading,
    completion_of (getCurrentMetrics "r1") (Sample.world 0.25)
      (Cases.manager_with (Cases.plan_in active "f1" Sample.three_phases))
    = Normal reading
    /\ evaluateRollbackCondition Cases.critical_on_latency reading = false.
Proof.
  eexists. split; [reflexivity |].
  destruct (unread_metrics_never_trigger (Sample.world 0.25)
              (Cases.manager_with (Cases.plan_in active "f1" Sample.three_phases))
              "r1" _ eq_refl) as (_ & Hnever & _).
  apply Hnever. simpl. intuition discriminate.
Defined.


(** *** The outcome of a phase evaluation *)




(** *** Entries are never removed *)

#[global] Instance keeps_entries_preorder : PreOrder keeps_entries.
Proof.
  split.
  - intros m. split; auto.
  - intros m1 m2 m3 [P1 F1] [P2 F2]. split; auto.
Qed.

Lemma set_keeps_key {V : Type} (d : Dict.t V) (k k' : string) (v : V) :
  is_Some (Dict.get d k') -> is_Some (Dict.get (Dict.set d k v) k').
Proof.
  intros Hsome. rewrite DictFacts.get_set.
  destruct (String.eqb k k'); [eauto | exact Hsome].
Qed.

Lemma write_plan_keeps_entries rolloutId f :
  preserves keeps_entries (write_plan rolloutId f).
Proof.
  apply Methods.preserves_update; try exact _. intros m.
  destruct (Dict.get (activeRollouts m) rolloutId); [| reflexivity].
  split; simpl; [| auto]. intros k. apply set_keeps_key.
Qed.

Lemma write_flag_keeps_entries key f : preserves keeps_entries (write_flag key f).
Proof.
  apply Methods.preserves_update; try exact _. intros m.
  destruct (Dict.get (featureFlags m) key); [| reflexivity].
  split; simpl; [auto |]. intros k. apply set_keeps_key.
Qed.

Lemma store_plan_keeps_entries rolloutId plan :
  preserves keeps_entries
    (update (fun m =>
       set_activeRollouts (Dict.set (activeRollouts m) rolloutId plan) m)).
Proof.
  apply Methods.preserves_update; try exact _. intros m.
  split; simpl; [| auto]. intros k. apply set_keeps_key.
Qed.

Lemma store_flag_keeps_entries flagId flag :
  preserves keeps_entries
    (update (fun m => set_featureFlags (Dict.set (featureFlags m) flagId flag) m)).
Proof.
  apply Methods.preserves_update; try exact _. intros m.
  split; simpl; [auto |]. intros k. apply set_keeps_key.
Qed.

Lemma on_abTestManager_keeps_entries {A : Type} (m : M ABTestManager.t A) :
  preserves keeps_entries (on_abTestManager m).
Proof. apply Methods.preserves_on_field; try exact _. intros a s. split; auto. Qed.

Lemma set_timers_keeps_entries (f : t -> list Timer) :
  preserves keeps_entries (update (fun m => set_timers (f m) m)).
Proof. apply Methods.preserves_update; try exact _. intros m. split; auto. Qed.

Ltac entries :=
  pose proof write_plan_keeps_entries;
  pose proof write_flag_keeps_entries;
  pose proof store_plan_keeps_entries;
  pose proof store_flag_keeps_entries;
  pose proof (@on_abTestManager_keeps_entries unit);
  pose proof (@on_abTestManager_keeps_entries string);
  pose proof set_timers_keeps_entries;
  pose proof (RolloutManagerFacts.rollout_generateId_preserves keeps_entries);
  pose proof (RolloutManagerFacts.persistRollout_preserves keeps_entries);
  pose proof (RolloutManagerFacts.persistFeatureFlag_preserves keeps_entries);
  pose proof (RolloutManagerFacts.persistRollout_of_preserves keeps_entries);
  pose proof (RolloutManagerFacts.persistFeatureFlag_of_preserves keeps_entries);
  pose proof (RolloutManagerFacts.rollout_getCurrentMetrics_preserves keeps_entries);
  pose proof (RolloutManagerFacts.isFeatureEnabled_preserves keeps_entries);
  pose proof (RolloutManagerFacts.getFeatureVariant_preserves keeps_entries).

Lemma rollbackRollout_keeps_entries rolloutId reason :
  preserves keeps_entries (rollbackRollout rolloutId reason).
Proof. unfold rollbackRollout, not_found. entries. preserve. Qed.

Lemma completeRollout_keeps_entries rolloutId :
  preserves keeps_entries (completeRollout rolloutId).
Proof. unfold completeRollout. entries. preserve. Qed.

Lemma transitionToPhase_keeps_entries rolloutId phaseIndex :
  preserves keeps_entries (transitionToPhase rolloutId phaseIndex).
Proof.
  unfold transitionToPhase. entries. pose proof completeRollout_keeps_entries.
  preserve.
Qed.

Lemma pauseRollout_keeps_entries rolloutId :
  preserves keeps_entries (pauseRollout rolloutId).
Proof. unfold pauseRollout, not_found. entries. preserve. Qed.

Lemma evaluatePhaseTransition_keeps_entries rolloutId phaseIndex :
  preserves keeps_entries (evaluatePhaseTransition rolloutId phaseIndex).
Proof.
  unfold evaluatePhaseTransition. entries.
  pose proof transitionToPhase_keeps_entries.
  pose proof rollbackRollout_keeps_entries.
  pose proof pauseRollout_keeps_entries.
  preserve.
Qed.

Lemma perform_keeps_entries (c : Call) : preserves keeps_entries (perform c).
Proof.
  destruct c; simpl.
  - unfold createRolloutPlan. entries. preserve.
  - unfold startRollout, createRolloutABTest, not_found. entries.
    pose proof transitionToPhase_keeps_entries. preserve.
  - apply pauseRollout_keeps_entries.
  - unfold resumeRollout, not_found. entries. preserve.
  - apply rollbackRollout_keeps_entries.
  - unfold createFeatureFlag. entries. preserve.
  - entries. preserve.
  - entries. preserve.
  - unfold fire_timer. entries. pose proof evaluatePhaseTransition_keeps_entries.
    preserve.
  - unfold checkActiveRollouts.
    apply Methods.preserves_bind; try exact _; [apply Methods.preserves_this; exact _ |].
    intros m. apply Methods.preserves_for_each; try exact _.
    intros rolloutId. unfold check_rollout. entries.
    pose proof rollbackRollout_keeps_entries. preserve.
Qed.

(** X22: nothing removes a plan or a flag. Through any history of calls,
    timers and monitor ticks, every rollout id and every flag id that is
    stored stays stored: completed and rolled back plans are kept, and the
    monitor goes on visiting them. *)
Theorem entries_are_never_removed (history : list Call) (w : World) (m : t) :
  keeps_entries m (snd (run history w m)).
Proof.
  revert w m. induction history as [| c rest IH]; intros w m; simpl.
  - reflexivity.
  - etransitivity; [apply (perform_keeps_entries c w m) | apply IH].
Qed.

(** *** Flags *)

Lemma get_In {V : Type} (d : Dict.t V) (k : string) (v : V) :
  Dict.get d k = Some v -> In (k, v) d.
Proof.
  induction d as [| [k' v'] d IH]; simpl; [discriminate |].
  destruct (String.eqb_spec k' k) as [-> | _].
  - intros [= ->]. left. reflexivity.
  - intros H. right. apply IH, H.
Qed.

(** Writing the flag stored under its own id changes what a lookup by name
    finds, when that lookup found this flag. *)
Lemma find_after_set (flags : Dict.t FeatureFlag) (key flagName : string)
    (flag flag' : FeatureFlag) :
  Forall (fun entry => Flag.id (snd entry) = fst entry) flags ->
  Dict.get flags key = Some flag ->
  List.find (fun f => String.eqb (Flag.name f) flagName) (Dict.values flags)
  = Some flag ->
  Flag.name flag' = Flag.name flag ->
  List.find (fun f => String.eqb (Flag.name f) flagName)
            (Dict.values (Dict.set flags key flag'))
  = Some flag'.
Proof.
  intros Hkeyed. induction Hkeyed as [| [k f] rest Hid Hrest IH]; simpl;
    [discriminate |].
  intros Hget Hfind Hname. simpl in Hid.
  destruct (String.eqb_spec k key) as [-> | Hne]; simpl.
  - injection Hget as ->. rewrite Hname.
    destruct (String.eqb (Flag.name flag) flagName) eqn:Hmatch; [reflexivity |].
    apply find_some in Hfind as [_ Hfound]. congruence.
  - destruct (String.eqb (Flag.name f) flagName).
    + injection Hfind as ->. exfalso. apply Hne.
      apply get_In in Hget. rewrite List.Forall_forall in Hrest.
      specialize (Hrest _ Hget). simpl in Hrest. congruence.
    + apply IH; assumption.
Qed.

(** X23: a rollback that reaches the flag turns the feature off. When the
    flags are stored under their ids, plan.feature is the id of a flag, and
    a lookup by that flag's name finds it, then after rollbackRollout,
    whether it returned or threw, isFeatureEnabled on the flag's name
    returns false without drawing a number and getFeatureVariant returns
    null. *)
Theorem rollback_turns_the_feature_off (w w' : World) (m : t)
    (rolloutId reason : string) (plan : RolloutPlan) (flag : FeatureFlag)
    (userContext : option (Dict.t Value)) :
  Dict.get (activeRollouts m) rolloutId = Some plan ->
  Forall (fun entry => Flag.id (snd entry) = fst entry) (featureFlags m) ->
  Dict.get (featureFlags m) (Plan.feature plan) = Some flag ->
  flag_named m (Flag.name flag) = Some flag ->
  let m' := state_after (rollbackRollout rolloutId reason) w m in
  isFeatureEnabled (Flag.name flag) userContext w' m' = (Normal false, (w', m'))
  /\ getFeatureVariant (Flag.name flag) userContext w' m' = (Normal None, (w', m')).
Proof.
  intros Hplan Hkeyed Hflag Hnamed m'.
  destruct (RolloutManagerFacts.rollbackRollout_state rolloutId reason w m plan
              Hplan) as [_ Hflags].
  fold m' in Hflags. rewrite Hflag in Hflags.
  assert (flag_named m' (Flag.name flag)
          = Some (Flag.set_rolloutPercentage 0 (Flag.set_enabled false flag)))
    as Hoff.
  { unfold flag_named. rewrite Hflags.
    apply (find_after_set _ _ _ flag);
      [exact Hkeyed | exact Hflag | exact Hnamed | reflexivity]. }
  split.
  - unfold isFeatureEnabled, bind, this. rewrite Hoff. reflexivity.
  - unfold getFeatureVariant, bind, this. rewrite Hoff. reflexivity.
Qed.

Lemma rollback_turns_the_feature_off_witness :
  let m := Cases.manager_with (Cases.plan_in active "f1" Sample.three_phases) in
  let m' := state_after (rollbackRollout "r1" "errors") (Sample.world 0.25) m in
  isFeatureEnabled "new-dashboard" None (Sample.world 0.75) m'
  = (Normal false, (Sample.world 0.75, m'))
  /\ getFeatureVariant "new-dashboard" None (Sample.world 0.75) m'
     = (Normal None, (Sample.world 0.75, m')).
Proof.
  apply (rollback_turns_the_feature_off (Sample.world 0.25) (Sample.world 0.75)
           (Cases.manager_with (Cases.plan_in active "f1" Sample.three_phases))
           "r1" "errors" (Cases.plan_in active "f1" Sample.three_phases)
           Cases.stored_flag None).
  - reflexivity.
  - repeat constructor.
  - reflexivity.
  - reflexivity.
Defined.


Lemma flag_walk_weights_In (x cumulative : float)
    (variants : list FlagVariant.t) (variantId : string) :
  walk_weights x cumulative variants = Some variantId ->
  In variantId (map FlagVariant.id variants).
Proof.
  revert cumulative. induction variants as [| v rest IH]; intros cumulative; simpl.
  - discriminate.
  - destruct (JS.le x _); [intros [= <-]; left; reflexivity |].
    intros H. right. eapply IH, H.
Qed.

(** X24: getFeatureVariant changes nothing, and a variant it returns is
    the id of one of the variants of the first flag of that name, which
    is enabled; in the same call isFeatureEnabled returned true. For a flag
    that is unknown, disabled or without variants it returns null without
    drawing a number. *)
Theorem getFeatureVariant_names_a_variant (w : World) (m : t)
    (flagName : string) (userContext : option (Dict.t Value)) :
  state_after (getFeatureVariant flagName userContext) w m = m
  /\ (forall variantId,
        completion_of (getFeatureVariant flagName userContext) w m
        = Normal (Some variantId) ->
        exists flag variants,
          flag_named m flagName = Some flag
          /\ Flag.enabled flag = true
          /\ Flag.variants flag = Some variants
          /\ In variantId (map FlagVariant.id variants)
          /\ completion_of (isFeatureEnabled flagName userContext) w m
             = Normal true)
  /\ (match flag_named m flagName with
      | None => True
      | Some flag => Flag.enabled flag = false \/ Flag.variants flag = None
      end ->
      getFeatureVariant flagName userContext w m = (Normal None, (w, m))).
Proof.
  split; [| split].
  - symmetry.
    apply (RolloutManagerFacts.getFeatureVariant_preserves Logic.eq flagName
             userContext w m).
  - intros variantId. unfold completion_of at 1. unfold getFeatureVariant.
    unfold bind at 1, this. cbn beta iota.
    destruct (flag_named m flagName) as [flag |] eqn:Hflag; [| discriminate].
    destruct (Flag.enabled flag) eqn:Henabled; cbn [negb]; [| discriminate].
    destruct (Flag.variants flag) as [variants |] eqn:Hvariants; [| discriminate].
    unfold bind at 1.
    destruct (isFeatureEnabled flagName userContext w m) as [[[|] | e] [w1 m1]]
      eqn:Hon; cbn [negb fst snd]; try discriminate.
    intros Hreturned. exists flag, variants.
    split; [reflexivity |]. split; [exact Henabled |].
    split; [exact Hvariants |].
    split; [| unfold completion_of; rewrite Hon; reflexivity].
    destruct (walk_weights _ 0 variants) as [found |] eqn:Hwalk.
    + injection Hreturned as <-. eapply flag_walk_weights_In, Hwalk.
    + destruct variants as [| v rest]; [discriminate |].
      destruct (String.eqb (FlagVariant.id v) EmptyString); [discriminate |].
      injection Hreturned as <-. left. reflexivity.
  - unfold getFeatureVariant, bind, this.
    destruct (flag_named m flagName) as [flag |]; [| reflexivity].
    intros [-> | Hnone]; [reflexivity |].
    destruct (negb (Flag.enabled flag)); [reflexivity |].
    rewrite Hnone. reflexivity.
Qed.

End RolloutManagerMore.
